(** * voevent.py: value coercion, the XML flattener and the VOEvent extractors

    A shallow embedding of [src/voevent.py].  Python objects are modelled by
    the tagged type [pyval]; exceptions by the error type [exn]; functions
    that mutate an object (the element handed to [parse_element], the
    [VOEvent] instance) return the object as the call leaves it, next to
    their result.

    Modelling boundaries, stated once:
    - a string is a sequence of code points below 256 (Latin-1); the
      whitespace, case and digit classes are those of Python on that range;
    - a Python [float] is kept as the exact decimal its literal denotes
      ([pyfloat]); rounding to binary64, with its overflow to an infinity,
      is not modelled;
    - [int] and [str] convert an integer of at most 4300 digits, the default
      of [sys.get_int_max_str_digits()] since CPython 3.11, and raise
      [ValueError] beyond it;
    - text written by [print]/[pprint] is not modelled; the attribute reads
      those calls make are. *)

From Stdlib Require Import Bool Arith ZArith NArith List String Ascii Lia.
Import ListNotations.
Local Open Scope string_scope.
Local Open Scope list_scope.

(** ** Exceptions and results *)

Inductive exn : Type :=
| ValueError
| TypeError
| AttributeError
| KeyError
| IndexError
| OverflowError
| AssertionError.

Inductive result (A : Type) : Type :=
| Ok (a : A)
| Raise (e : exn).

Arguments Ok {A} a.
Arguments Raise {A} e.

Definition bind {A B : Type} (r : result A) (k : A -> result B) : result B :=
  match r with
  | Ok a => k a
  | Raise e => Raise e
  end.

Notation "'let*' x ':=' r 'in' k" := (bind r (fun x => k))
  (at level 10, x pattern, r at level 100, k at level 200, only parsing).

Definition is_ok {A : Type} (r : result A) : bool :=
  match r with Ok _ => true | Raise _ => false end.

(** Python's [assert c], as it runs without [-O]. *)
Definition py_assert (c : bool) : result unit :=
  if c then Ok tt else Raise AssertionError.

(** ** Characters and strings *)

Definition code (c : ascii) : nat := nat_of_ascii c.

Definition in_range (lo hi n : nat) : bool := (lo <=? n)%nat && (n <=? hi)%nat.

(** [str.isspace] on one character. *)
Definition is_space (c : ascii) : bool :=
  let n := code c in
  in_range 9 13 n || in_range 28 32 n || (n =? 133)%nat || (n =? 160)%nat.

Definition is_digit (c : ascii) : bool := in_range 48 57 (code c).

Definition digit_val (c : ascii) : Z := Z.of_nat (code c) - 48.

Definition lower_char (c : ascii) : ascii :=
  let n := code c in
  if in_range 65 90 n || (in_range 192 222 n && negb (n =? 215)%nat)
  then ascii_of_nat (n + 32)
  else c.

(** [str.lower]. *)
Fixpoint lower (s : string) : string :=
  match s with
  | EmptyString => EmptyString
  | String c s' => String (lower_char c) (lower s')
  end.

Fixpoint lstrip (s : string) : string :=
  match s with
  | EmptyString => EmptyString
  | String c s' => if is_space c then lstrip s' else s
  end.

Fixpoint rstrip (s : string) : string :=
  match s with
  | EmptyString => EmptyString
  | String c s' =>
      match rstrip s' with
      | EmptyString => if is_space c then EmptyString else String c EmptyString
      | r => String c r
      end
  end.

(** [str.strip] without argument. *)
Definition strip (s : string) : string := rstrip (lstrip s).

(** The whitespace [int] and [float] skip around a literal: that of
    [str.isspace] less the separators 28 to 31. *)
Definition is_num_space (c : ascii) : bool :=
  is_space c && negb (in_range 28 31 (code c)).

Fixpoint num_lstrip (s : string) : string :=
  match s with
  | EmptyString => EmptyString
  | String c s' => if is_num_space c then num_lstrip s' else s
  end.

Fixpoint num_rstrip (s : string) : string :=
  match s with
  | EmptyString => EmptyString
  | String c s' =>
      match num_rstrip s' with
      | EmptyString =>
          if is_num_space c then EmptyString else String c EmptyString
      | r => String c r
      end
  end.

Definition num_strip (s : string) : string := num_rstrip (num_lstrip s).

Definition is_empty (s : string) : bool :=
  match s with EmptyString => true | _ => false end.

Definition dec_maxsplit (m : option nat) : option nat :=
  match m with
  | Some n => Some (Nat.pred n)
  | None => None
  end.

(** [s.split(sep, maxsplit)] for a one-character separator; [None] is
    Python's unlimited [maxsplit=-1].  The list is never empty. *)
Fixpoint split_on (sep : ascii) (maxsplit : option nat) (s : string)
  : list string :=
  match s with
  | EmptyString => [EmptyString]
  | String c s' =>
      match maxsplit with
      | Some O => [s]
      | _ =>
          if Ascii.eqb c sep
          then EmptyString :: split_on sep (dec_maxsplit maxsplit) s'
          else match split_on sep maxsplit s' with
               | p :: ps => String c p :: ps
               | [] => [String c EmptyString]
               end
      end
  end.

(** The first word of [s] (up to the first whitespace) and what follows. *)
Fixpoint span_word (s : string) : string * string :=
  match s with
  | EmptyString => (EmptyString, EmptyString)
  | String c s' =>
      if is_space c then (EmptyString, s)
      else let (w, r) := span_word s' in (String c w, r)
  end.

(** [s.split(maxsplit=1)]: split on a run of whitespace, once.  Leading
    whitespace is skipped; the remainder keeps its trailing whitespace and is
    dropped when nothing but whitespace is left. *)
Definition split_ws_1 (s : string) : list string :=
  match lstrip s with
  | EmptyString => []
  | t =>
      let (w, r) := span_word t in
      match lstrip r with
      | EmptyString => [w]
      | r' => [w; r']
      end
  end.

(** Unpacking [a, b = xs]: [ValueError] unless [xs] has exactly two items. *)
Definition unpack2 {A : Type} (xs : list A) : result (A * A) :=
  match xs with
  | [a; b] => Ok (a, b)
  | _ => Raise ValueError
  end.

(** [xs[i]] on a list. *)
Definition index {A : Type} (xs : list A) (i : nat) : result A :=
  match nth_error xs i with
  | Some a => Ok a
  | None => Raise IndexError
  end.

(** ** Python values *)

(** A [float]: the decimal [(-1)^neg * m * 10^e] before rounding, an
    infinity, or a NaN. *)
Inductive pyfloat : Type :=
| FNan
| FInf (neg : bool)
| FDec (neg : bool) (m : N) (e : Z).

(** A naive [datetime]. *)
Record datetime : Type := mkDatetime {
  year : Z; month : Z; day : Z;
  hour : Z; minute : Z; second : Z; microsecond : Z
}.

Inductive pyval : Type :=
| PNone
| PStr (s : string)
| PBool (b : bool)
| PInt (z : Z)
| PFloat (f : pyfloat)
| PDate (d : datetime).

Definition float_is_zero (f : pyfloat) : bool :=
  match f with
  | FDec _ m _ => (m =? 0)%N
  | _ => false
  end.

(** Truth value of an object, as [if x:] tests it. *)
Definition truthy (v : pyval) : bool :=
  match v with
  | PNone => false
  | PStr s => negb (is_empty s)
  | PBool b => b
  | PInt z => negb (z =? 0)%Z
  | PFloat f => negb (float_is_zero f)
  | PDate _ => true
  end.

(** [v == 'lit'] for a string literal. *)
Definition eq_str (v : pyval) (lit : string) : bool :=
  match v with
  | PStr s => String.eqb s lit
  | _ => false
  end.

(** [s in [lit, ...]] for a list of string literals. *)
Definition str_in (s : string) (lits : list string) : bool :=
  existsb (String.eqb s) lits.

Definition val_in (v : pyval) (lits : list string) : bool :=
  existsb (eq_str v) lits.

(** An optional text ([None] or a [str]) as a value. *)
Definition of_text (t : option string) : pyval :=
  match t with
  | Some s => PStr s
  | None => PNone
  end.

(** ** Number literals *)

(** Each underscore of a numeric literal stands between two digits. *)
Fixpoint underscores_ok (prev_digit : bool) (s : string) : bool :=
  match s with
  | EmptyString => true
  | String c s' =>
      if Ascii.eqb c "_"
      then prev_digit
           && match s' with
              | String d _ => is_digit d
              | EmptyString => false
              end
           && underscores_ok false s'
      else underscores_ok (is_digit c) s'
  end.

Fixpoint remove_underscores (s : string) : string :=
  match s with
  | EmptyString => EmptyString
  | String c s' =>
      if Ascii.eqb c "_" then remove_underscores s'
      else String c (remove_underscores s')
  end.

(** The leading run of digits of [s]: its value continuing [acc], the
    number of digits read, and the rest. *)
Fixpoint read_digits (acc : Z) (n : Z) (s : string) : Z * Z * string :=
  match s with
  | String c s' =>
      if is_digit c then read_digits (10 * acc + digit_val c) (n + 1) s'
      else (acc, n, s)
  | EmptyString => (acc, n, s)
  end.

(** An optional sign: [true] for a minus. *)
Definition read_sign (s : string) : bool * string :=
  match s with
  | String "-" s' => (true, s')
  | String "+" s' => (false, s')
  | _ => (false, s)
  end.

(** The most digits [int] reads from a string and [str] writes for an
    integer: the default of [sys.get_int_max_str_digits()]. *)
Definition int_max_str_digits : Z := 4300.

(** [int(s)] for a string: surrounding whitespace, a sign, decimal digits
    with single underscores between them.  The digits are counted with
    their leading zeros and without the underscores; more than
    [int_max_str_digits] of them are refused. *)
Definition int_of_string (s : string) : result Z :=
  let t := num_strip s in
  if negb (underscores_ok false t) then Raise ValueError
  else
    let (neg, u) := read_sign (remove_underscores t) in
    match read_digits 0 0 u with
    | (v, n, EmptyString) =>
        if (n =? 0)%Z then Raise ValueError
        else if (int_max_str_digits <? n)%Z then Raise ValueError
        else Ok (if neg then (- v)%Z else v)
    | _ => Raise ValueError
    end.

(** The exponent part of a float literal, if one is well formed at the head
    of [s]; otherwise nothing is consumed. *)
Definition read_exponent (s : string) : Z * string :=
  match s with
  | String c s' =>
      if Ascii.eqb (lower_char c) "e"
      then let (neg, u) := read_sign s' in
           match read_digits 0 0 u with
           | (v, n, r) =>
               if (n =? 0)%Z then (0%Z, s)
               else ((if neg then (- v)%Z else v), r)
           end
      else (0%Z, s)
  | EmptyString => (0%Z, s)
  end.

(** [float(s)] for a string: surrounding whitespace, a sign, then [inf],
    [infinity], [nan] (any case) or a decimal literal with optional
    fraction and exponent. *)
Definition float_of_string (s : string) : result pyfloat :=
  let t := num_strip s in
  if negb (underscores_ok false t) then Raise ValueError
  else
    let (neg, u) := read_sign (remove_underscores t) in
    let lu := lower u in
    if str_in lu ["inf"; "infinity"] then Ok (FInf neg)
    else if String.eqb lu "nan" then Ok FNan
    else
      match read_digits 0 0 u with
      | (ip, ni, r) =>
          let '(m, nf, r1) :=
            match r with
            | String "." r' => read_digits ip 0 r'
            | _ => (ip, 0%Z, r)
            end in
          if (ni + nf =? 0)%Z then Raise ValueError
          else
            match read_exponent r1 with
            | (ex, EmptyString) => Ok (FDec neg (Z.to_N m) (ex - nf))
            | _ => Raise ValueError
            end
      end.

(** ** Dates *)

Local Open Scope Z_scope.

Definition is_leap (y : Z) : bool :=
  (y mod 4 =? 0) && (negb (y mod 100 =? 0) || (y mod 400 =? 0)).

Definition days_in_month (y m : Z) : Z :=
  if m =? 2 then (if is_leap y then 29 else 28)
  else if (m =? 4) || (m =? 6) || (m =? 9) || (m =? 11) then 30
  else 31.

(** Days of the year before the first of month [m] ([_days_before_month]). *)
Definition days_before_month (y m : Z) : Z :=
  nth (Z.to_nat m) [0; 0; 31; 59; 90; 120; 151; 181; 212; 243; 273; 304; 334] 0
  + (if (2 <? m) && is_leap y then 1 else 0).

Definition days_before_year (y : Z) : Z :=
  let p := y - 1 in p * 365 + p / 4 - p / 100 + p / 400.

(** Proleptic Gregorian ordinal, 0001-01-01 being day 1 ([_ymd2ord]). *)
Definition ymd2ord (y m d : Z) : Z :=
  days_before_year y + days_before_month y m + d.

(** The date of an ordinal ([_ord2ymd]). *)
Definition ord2ymd (n0 : Z) : Z * Z * Z :=
  let n := n0 - 1 in
  let n400 := n / 146097 in
  let n := n mod 146097 in
  let n100 := n / 36524 in
  let n := n mod 36524 in
  let n4 := n / 1461 in
  let n := n mod 1461 in
  let n1 := n / 365 in
  let n := n mod 365 in
  let y := n400 * 400 + 1 + n100 * 100 + n4 * 4 + n1 in
  if (n1 =? 4) || (n100 =? 4) then (y - 1, 12, 31)
  else
    let leapyear := (n1 =? 3) && (negb (n4 =? 24) || (n100 =? 3)) in
    let m := Z.shiftr (n + 50) 5 in
    let preceding :=
      nth (Z.to_nat m) [0; 0; 31; 59; 90; 120; 151; 181; 212; 243; 273; 304; 334] 0
      + (if (2 <? m) && leapyear then 1 else 0) in
    if n <? preceding
    then
      let m' := m - 1 in
      let dim :=
        if m' =? 2 then (if leapyear then 29 else 28)
        else if (m' =? 4) || (m' =? 6) || (m' =? 9) || (m' =? 11) then 30
        else 31 in
      (y, m', n - (preceding - dim) + 1)
    else (y, m, n - preceding + 1).

Definition MAXORDINAL : Z := 3652059.

Definition us_per_day : Z := 86400000000.

(** Nearest integer to [a / b] for [b > 0], ties to even ([round]). *)
Definition round_half_even (a b : Z) : Z :=
  let q := a / b in
  let r := a mod b in
  if 2 * r <? b then q
  else if b <? 2 * r then q + 1
  else if Z.even q then q else q + 1.

(** [timedelta(0, f, 0)] in microseconds.  The microseconds are rounded from
    the exact decimal; Python rounds them from the binary64 value. *)
Definition timedelta_of_seconds (f : pyfloat) : result Z :=
  match f with
  | FNan => Raise ValueError
  | FInf _ => Raise OverflowError
  | FDec neg m e =>
      let mz := Z.of_N m in
      let k := e + 6 in
      let us :=
        if mz =? 0 then Some 0
        else if 0 <=? k
             then (if 20 <? k then None else Some (mz * 10 ^ k))
             else (if Z.log2 mz + 2 <? - k then Some 0
                   else Some (round_half_even mz (10 ^ (- k)))) in
      match us with
      | None => Raise OverflowError
      | Some u =>
          let u := if neg then - u else u in
          if Z.abs (u / us_per_day) <=? 999999999 then Ok u
          else Raise OverflowError
      end
  end.

(** [d + delta] for a [timedelta] of [us] microseconds
    ([datetime.__add__]). *)
Definition datetime_add (d : datetime) (us : Z) : result datetime :=
  let total :=
    (ymd2ord (year d) (month d) (day d) * 86400
     + hour d * 3600 + minute d * 60 + second d) * 1000000
    + microsecond d + us in
  let days := total / us_per_day in
  let rem := total mod us_per_day in
  if (0 <? days) && (days <=? MAXORDINAL)
  then
    let '(y, m, dd) := ord2ymd days in
    let secs := rem / 1000000 in
    Ok (mkDatetime y m dd (secs / 3600) (secs mod 3600 / 60) (secs mod 60)
                   (rem mod 1000000))
  else Raise OverflowError.

(** *** [datetime.strptime(s, '%Y-%m-%dT%H:%M:%S')]

    [strptime] compiles the format to a regular expression, matched at the
    start of the string ignoring case; each directive is an alternation tried
    in order with backtracking.  A matcher lists, in that order, the ways a
    directive can match a prefix. *)

Definition matcher : Type := string -> list (Z * string).

Definition digit_in (lo hi : nat) (c : ascii) : bool :=
  is_digit c && in_range lo hi (code c - 48).

(** Two digits, the first in [[a1,b1]] and the second in [[a2,b2]]. *)
Definition two_digits (a1 b1 a2 b2 : nat) : matcher := fun s =>
  match s with
  | String c (String d r) =>
      if digit_in a1 b1 c && digit_in a2 b2 d
      then [(10 * digit_val c + digit_val d, r)]
      else []
  | _ => []
  end.

Definition one_digit (a b : nat) : matcher := fun s =>
  match s with
  | String c r => if digit_in a b c then [(digit_val c, r)] else []
  | _ => []
  end.

Definition alt (ms : list matcher) : matcher := fun s =>
  flat_map (fun m => m s) ms.

(** [%Y]: [\d\d\d\d]. *)
Definition re_Y : matcher := fun s =>
  match s with
  | String a (String b (String c (String d r))) =>
      if is_digit a && is_digit b && is_digit c && is_digit d
      then [(1000 * digit_val a + 100 * digit_val b
             + 10 * digit_val c + digit_val d, r)]
      else []
  | _ => []
  end.

(** [%m]: [1[0-2]|0[1-9]|[1-9]]. *)
Definition re_m : matcher :=
  alt [two_digits 1 1 0 2; two_digits 0 0 1 9; one_digit 1 9].

(** [%d]: [3[0-1]|[1-2]\d|0[1-9]|[1-9]| [1-9]]. *)
Definition re_d : matcher :=
  alt [two_digits 3 3 0 1; two_digits 1 2 0 9; two_digits 0 0 1 9;
       one_digit 1 9;
       fun s => match s with
                | String " " r => one_digit 1 9 r
                | _ => []
                end].

(** [%H]: [2[0-3]|[0-1]\d|\d]. *)
Definition re_H : matcher :=
  alt [two_digits 2 2 0 3; two_digits 0 1 0 9; one_digit 0 9].

(** [%M]: [[0-5]\d|\d]. *)
Definition re_M : matcher := alt [two_digits 0 5 0 9; one_digit 0 9].

(** [%S]: [6[0-1]|[0-5]\d|\d]. *)
Definition re_S : matcher :=
  alt [two_digits 6 6 0 1; two_digits 0 5 0 9; one_digit 0 9].

(** A literal character of the format, matched ignoring case. *)
Definition lit (c : ascii) (s : string) : list string :=
  match s with
  | String a r => if Ascii.eqb (lower_char a) (lower_char c) then [r] else []
  | EmptyString => []
  end.

(** All matches of the compiled format at the start of [s], in the order the
    regular-expression engine tries them. *)
Definition strptime_matches (s : string) : list (datetime * string) :=
  flat_map (fun '(y, s1) =>
  flat_map (fun s2 =>
  flat_map (fun '(m, s3) =>
  flat_map (fun s4 =>
  flat_map (fun '(d, s5) =>
  flat_map (fun s6 =>
  flat_map (fun '(h, s7) =>
  flat_map (fun s8 =>
  flat_map (fun '(mi, s9) =>
  flat_map (fun s10 =>
  map (fun '(sec, r) => (mkDatetime y m d h mi sec 0, r)) (re_S s10))
  (lit ":" s9)) (re_M s8)) (lit ":" s7)) (re_H s6)) (lit "T" s5))
  (re_d s4)) (lit "-" s3)) (re_m s2)) (lit "-" s1)) (re_Y s).

(** [strptime] proper: the first match must consume the whole string, and
    the fields must form a date that exists and a second below 60. *)
Definition strptime (s : string) : result datetime :=
  match strptime_matches s with
  | [] => Raise ValueError
  | (d, rest) :: _ =>
      if negb (is_empty rest) then Raise ValueError
      else if (1 <=? year d) && (day d <=? days_in_month (year d) (month d))
              && (second d <=? 59)
           then Ok d
           else Raise ValueError
  end.

(** ** The builtins [int], [float] and [str] on objects *)

(** [int(v)]. *)
Definition py_int (v : pyval) : result Z :=
  match v with
  | PStr s => int_of_string s
  | PBool b => Ok (if b then 1 else 0)
  | PInt z => Ok z
  | PFloat FNan => Raise ValueError
  | PFloat (FInf _) => Raise OverflowError
  | PFloat (FDec neg m e) =>
      let a := if 0 <=? e then Z.of_N m * 10 ^ e
               else Z.of_N m / 10 ^ (- e) in
      Ok (if neg then - a else a)
  | PNone | PDate _ => Raise TypeError
  end.

(** [float(v)]. *)
Definition py_float (v : pyval) : result pyfloat :=
  match v with
  | PStr s => float_of_string s
  | PBool b => Ok (FDec false (if b then 1 else 0)%N 0)
  | PInt z => Ok (FDec (z <? 0) (Z.to_N (Z.abs z)) 0)
  | PFloat f => Ok f
  | PNone | PDate _ => Raise TypeError
  end.

Fixpoint digits_of_pos_fuel (fuel : nat) (z : Z) (acc : string) : string :=
  match fuel with
  | O => acc
  | S fuel' =>
      let acc' := String (ascii_of_nat (48 + Z.to_nat (z mod 10))) acc in
      if z <? 10 then acc' else digits_of_pos_fuel fuel' (z / 10) acc'
  end.

(** Decimal digits of [z >= 0]. *)
Definition digits_of (z : Z) : string :=
  digits_of_pos_fuel (S (Z.to_nat (Z.log2 z))) z EmptyString.

(** The decimal text of [z]: what [str(z)] returns when it returns, that is
    for at most [int_max_str_digits] digits (see [py_str_checked]). *)
Definition str_of_int (z : Z) : string :=
  if z <? 0 then String "-" (digits_of (- z)) else digits_of z.

Fixpoint zeros (n : nat) : string :=
  match n with
  | O => EmptyString
  | S n' => String "0" (zeros n')
  end.

(** [z] in at least [w] digits, as [%0wd] prints it. *)
Definition pad (w : nat) (z : Z) : string :=
  let s := digits_of z in
  (zeros (w - String.length s) ++ s)%string.

(** [str(d)] for a [datetime]: [isoformat(sep=' ')]. *)
Definition str_of_datetime (d : datetime) : string :=
  (pad 4 (year d) ++ "-" ++ pad 2 (month d) ++ "-" ++ pad 2 (day d) ++ " "
   ++ pad 2 (hour d) ++ ":" ++ pad 2 (minute d) ++ ":" ++ pad 2 (second d)
   ++ (if (microsecond d =? 0)%Z then "" else "." ++ pad 6 (microsecond d)))%string.

(** [m] without its trailing zeros, and how many were dropped. *)
Fixpoint drop_zeros (fuel : nat) (m : Z) (dropped : Z) : Z * Z :=
  match fuel with
  | O => (m, dropped)
  | S fuel' =>
      if (m mod 10 =? 0) && negb (m =? 0)
      then drop_zeros fuel' (m / 10) (dropped + 1)
      else (m, dropped)
  end.

(** [str(f)] for a [float], in the layout of [repr]: the digits, in fixed
    notation when the decimal exponent lies in [[-4, 16)] and in scientific
    notation otherwise.  The digits are those of the exact decimal; Python
    prints the shortest digits that give back the binary64 value, which are
    the same for a literal of at most 15 significant digits. *)
Definition str_of_float (f : pyfloat) : string :=
  match f with
  | FNan => "nan"
  | FInf neg => if neg then "-inf" else "inf"
  | FDec neg m e =>
      let sign := if neg then "-" else "" in
      if (m =? 0)%N then (sign ++ "0.0")%string
      else
        let '(m', k) :=
          drop_zeros (S (Z.to_nat (Z.log2 (Z.of_N m)))) (Z.of_N m) 0 in
        let ds := digits_of m' in
        let n := Z.of_nat (String.length ds) in
        let point := n + e + k in
        let x := point - 1 in
        let fixed := (-4 <=? x) && (x <? 16) in
        let before := point <=? 0 in
        let whole := n <=? point in
        let frac := if 1 <? n
                    then String "." (substring 1 (Z.to_nat (n - 1)) ds)
                    else EmptyString in
        let esign := if x <? 0 then "-" else "+" in
        (if fixed
         then
           if before then sign ++ "0." ++ zeros (Z.to_nat (- point)) ++ ds
           else if whole then sign ++ ds ++ zeros (Z.to_nat (point - n)) ++ ".0"
           else sign ++ substring 0 (Z.to_nat point) ds ++ "."
                ++ substring (Z.to_nat point) (Z.to_nat (n - point)) ds
         else
           sign ++ substring 0 1 ds ++ frac ++ "e" ++ esign
           ++ pad 2 (Z.abs x))%string
  end.

(** The text of [str(v)]. *)
Definition py_str (v : pyval) : string :=
  match v with
  | PNone => "None"
  | PStr s => s
  | PBool b => if b then "True" else "False"
  | PInt z => str_of_int z
  | PFloat f => str_of_float f
  | PDate d => str_of_datetime d
  end.

(** [str(v)] as a call: an [int] of more than [int_max_str_digits] digits
    is refused with [ValueError]. *)
Definition py_str_checked (v : pyval) : result string :=
  match v with
  | PInt z =>
      if int_max_str_digits <? Z.of_nat (String.length (digits_of (Z.abs z)))
      then Raise ValueError
      else Ok (py_str v)
  | _ => Ok (py_str v)
  end.

(** [v.lower()]: only a [str] has the method. *)
Definition py_lower (v : pyval) : result string :=
  match v with
  | PStr s => Ok (lower s)
  | _ => Raise AttributeError
  end.

(** [try: r  except ValueError: h]. *)
Definition except_ValueError {A : Type} (r : result A) (h : result A)
  : result A :=
  match r with
  | Raise ValueError => h
  | _ => r
  end.

(** ** [convert_value] *)

(** Lines 202-219: the timestamp stage, entered with the string [value]
    that is neither a boolean literal, an [int] nor a [float]. *)
Definition convert_timestamp (value : string) : result pyval :=
  (* try: date, fracsec = value.split('.', maxsplit=1) *)
  let '(date, fracsec) :=
    match unpack2 (split_on "." (Some 1%nat) value) with
    | Ok (d, f) => (d, Some ("0." ++ f)%string)
    | Raise _ => (value, None)
    end in
  (* try: date, time = value.split(maxsplit=1) *)
  let date :=
    match unpack2 (split_ws_1 value) with
    | Ok (d, t) => (d ++ "T" ++ t)%string
    | Raise _ => date
    end in
  (* try: date = datetime.strptime(date, ...) *)
  except_ValueError
    (let* d := strptime date in
     let* d :=
       match fracsec with
       | Some fs =>
           if negb (is_empty fs)
           then let* f := float_of_string fs in
                let* us := timedelta_of_seconds f in
                datetime_add d us
           else Ok d
       | None => Ok d
       end in
     Ok (PDate d))
    (Ok (PStr value)).

(** Lines 189-219: the first stage, for the modes force and always. *)
Definition convert_guess (tmpval : pyval) : result pyval :=
  match tmpval with
  | PNone => Ok PNone
  | _ =>
      let* l := py_lower tmpval in
      if str_in l ["true"; "yes"] then Ok (PBool true)
      else
        let* l := py_lower tmpval in
        if str_in l ["false"; "no"] then Ok (PBool false)
        else
          except_ValueError
            (let* z := py_int tmpval in Ok (PInt z))
            (except_ValueError
               (let* f := py_float tmpval in Ok (PFloat f))
               (match tmpval with
                | PStr s => convert_timestamp s
                | _ => Raise AttributeError
                end))
  end.

(** Lines 221-233: the second stage, for the modes always and given;
    [value] is what the first stage left. *)
Definition convert_declared (tmpval value datatype : pyval) : result pyval :=
  if truthy tmpval then
    if eq_str datatype "int" then let* z := py_int tmpval in Ok (PInt z)
    else if eq_str datatype "float"
    then let* f := py_float tmpval in Ok (PFloat f)
    else if eq_str datatype "string"
    then let* s := py_str_checked tmpval in Ok (PStr s)
    else if val_in datatype ["bool"; "boolean"]
    then
      let* l := py_lower value in
      if str_in l ["true"; "yes"] then Ok (PBool true)
      else
        let* l := py_lower value in
        if str_in l ["false"; "no"] then Ok (PBool false)
        else Ok value
    else Ok value
  else Ok value.

(** [convert_value(value, conversion, datatype)]; the defaults are
    [conversion='force'] and [datatype=None]. *)
Definition convert_value (value : pyval) (conversion : string)
    (datatype : pyval) : result pyval :=
  let tmpval := value in
  let* value :=
    if str_in conversion ["force"; "always"] then convert_guess tmpval
    else Ok value in
  if str_in conversion ["always"; "given"]
  then convert_declared tmpval value datatype
  else Ok value.

(** ** Elements and dicts *)

(** A [dict] with [str] keys, in insertion order; the keys are distinct. *)
Definition dict (V : Type) : Type := list (string * V).

(** [d.get(k)] on a dict of objects: [None] when the key is missing. *)
Fixpoint get (k : string) (d : dict pyval) : pyval :=
  match d with
  | [] => PNone
  | (k', v) :: d' => if String.eqb k k' then v else get k d'
  end.

(** [d[k]]. *)
Fixpoint getitem {V : Type} (k : string) (d : dict V) : result V :=
  match d with
  | [] => Raise KeyError
  | (k', v) :: d' => if String.eqb k k' then Ok v else getitem k d'
  end.

(** [d[k] = v]. *)
Fixpoint setitem {V : Type} (k : string) (v : V) (d : dict V) : dict V :=
  match d with
  | [] => [(k, v)]
  | (k', v') :: d' =>
      if String.eqb k k' then (k', v) :: d' else (k', v') :: setitem k v d'
  end.

(** An [xml.etree.ElementTree.Element].  The parser fills [attrib] with
    strings; [parse_element] stores other objects in it. *)
#[warnings="-register-all"]
Inductive Element : Type :=
| mkElement (tag : string) (attrib : dict pyval) (text : option string)
          (children : list Element).

Definition tag (e : Element) : string :=
  match e with mkElement t _ _ _ => t end.
Definition attrib (e : Element) : dict pyval :=
  match e with mkElement _ a _ _ => a end.
Definition text (e : Element) : option string :=
  match e with mkElement _ _ x _ => x end.
Definition children (e : Element) : list Element :=
  match e with mkElement _ _ _ c => c end.

Definition elements : Type := list Element.

Definition with_attrib (e : Element) (a : dict pyval) : Element :=
  match e with mkElement t _ x c => mkElement t a x c end.
Definition with_children (e : Element) (c : list Element) : Element :=
  match e with mkElement t a x _ => mkElement t a x c end.

(** An element as the XML parser builds it: every attribute is a string. *)
Fixpoint from_xml (e : Element) : bool :=
  match e with
  | mkElement _ a _ c =>
      forallb (fun kv => match snd kv with PStr _ => true | _ => false end) a
      && forallb from_xml c
  end.

(** ** The flattener *)

(** The dict [parse_element] returns.  ['attributes'] is the element's own
    [attrib] dict, not a copy: the field holds its content at return. *)
Record entry : Type := mkEntry {
  e_tag : string;
  e_name : pyval;
  e_text : option string;
  e_attributes : dict pyval;
  e_value : pyval
}.

(** An entry once [xml2python] has added its ['children']. *)
#[warnings="-register-all"]
Inductive node : Type :=
| Node (e : entry) (children : list node).

(** What [xml2python] returns: the list [data] of the children, or with
    [parse_root] the entry of the element itself. *)
Inductive output : Type :=
| Data (data : list node)
| Root (n : node).

(** Lines 43-46: the loop rewriting [attribs] in place, over the items in
    order.  Returns the dict as the loop leaves it, also when a conversion
    raises part-way. *)
Fixpoint convert_attribs (conversion : string) (items : dict pyval)
  : result unit * dict pyval :=
  match items with
  | [] => (Ok tt, [])
  | (key, val) :: rest =>
      if String.eqb key "value"
      then let (r, rest') := convert_attribs conversion rest in
           (r, (key, val) :: rest')
      else
        match convert_value val conversion PNone with
        | Raise e => (Raise e, (key, val) :: rest)
        | Ok val' =>
            let (r, rest') := convert_attribs conversion rest in
            (r, (key, val') :: rest')
        end
  end.

(** [parse_element(element, conversion, stripws)]: the entry, and the
    element as the call leaves it. *)
Definition parse_element (element : Element) (conversion : string)
    (stripws : bool) : result entry * Element :=
  let attribs := attrib element in
  let datatype := get "dataType" attribs in
  let text :=
    match text element with
    | Some s => if is_empty s then None
                else Some (if stripws then strip s else s)
    | None => None
    end in
  let value :=
    if truthy (get "value" attribs)
    then convert_value (get "value" attribs) conversion datatype
    else if truthy (of_text text)
         then convert_value (of_text text) conversion datatype
         else Ok PNone in
  match value with
  | Raise e => (Raise e, element)
  | Ok value =>
      let name :=
        if truthy (get "name" attribs) then get "name" attribs
        else PStr (tag element) in
      let (r, attribs') := convert_attribs conversion attribs in
      let element' := with_attrib element attribs' in
      match r with
      | Raise e => (Raise e, element')
      | Ok _ => (Ok (mkEntry (tag element) name text attribs' value), element')
      end
  end.

Section Loop.

(** Lines 157-177: the loop of [xml2python] over the children [cs] of an
    element, given the recursive call [xml2python(child)] as [recur].
    Returns [data] and the children as the loop leaves them. *)
Variable recur : Element -> result (list node) * elements.
Variable conversion : string.
Variable stripws : bool.

Fixpoint xml2python_loop (cs : elements) : result (list node) * elements :=
  match cs with
  | [] => (Ok [], [])
  | child :: rest =>
      let (r1, child1) := parse_element child conversion stripws in
      match r1 with
      | Raise e => (Raise e, child1 :: rest)
      | Ok entry =>
          let (r2, kids2) := recur child in
          let child2 := with_children child1 kids2 in
          match r2 with
          | Raise e => (Raise e, child2 :: rest)
          | Ok children =>
              let (r3, rest') := xml2python_loop rest in
              (let* data := r3 in Ok (Node entry children :: data),
               child2 :: rest')
          end
      end
  end.

End Loop.

(** [xml2python(element, conversion, stripws)] without [parse_root]: [data]
    and the children of [element] as the call leaves them.  The recursive
    call reads nothing of [child] but its children, which [parse_element]
    leaves as they are: it is made on [child] as it was before
    [parse_element] rewrote its attributes. *)
Fixpoint xml2python_data (element : Element) (conversion : string)
    (stripws : bool) {struct element} : result (list node) * elements :=
  match element with
  | mkElement _ _ _ kids =>
      xml2python_loop (fun child => xml2python_data child conversion stripws)
                      conversion stripws kids
  end.

(** [xml2python(element, conversion, stripws, parse_root)]: the output, and
    the element as the call leaves it. *)
Definition xml2python (element : Element) (conversion : string)
    (stripws : bool) (parse_root : bool) : result output * Element :=
  let (r, kids) := xml2python_data element conversion stripws in
  let element1 := with_children element kids in
  match r with
  | Raise e => (Raise e, element1)
  | Ok data =>
      if parse_root
      then let (r2, element2) := parse_element element1 conversion stripws in
           (let* entry := r2 in Ok (Root (Node entry data)), element2)
      else (Ok (Data data), element1)
  end.

(** ** The VOEvent document *)

(** [Position2D = namedtuple('Position2D', ['ra', 'dec', 'error'])]; [error]
    is [None] or a float. *)
Record Position2D : Type := mkPosition2D {
  ra : pyfloat; dec : pyfloat; error : option pyfloat
}.

(** The dict [self.eventid]. *)
Record EventId : Type := mkEventId {
  authority : string; resourcekey : string; localid : string
}.

(** What the dicts [who], [why] and [wherewhen] hold. *)
#[warnings="-register-all"]
Inductive obj : Type :=
| OVal (v : pyval)
| ODict (d : list (string * obj))
| OList (l : list obj)
| OPosition (p : option Position2D).

(** [self.what]: a dict from names to [Param] tuples
    ([Param = namedtuple('Param', ['value', 'unit', 'ucd'])]) or to the dict
    of a nested Group.  A name is whatever object the "name" attribute
    holds. *)
#[warnings="-register-all"]
Inductive what_item : Type :=
| Param (value unit ucd : pyval)
| Group (what : list (pyval * what_item)).

Definition what_dict : Type := list (pyval * what_item).

(** [a == b] on floats, on the exact decimals. *)
Definition float_eqb (a b : pyfloat) : bool :=
  match a, b with
  | FInf n1, FInf n2 => Bool.eqb n1 n2
  | FDec n1 m1 e1, FDec n2 m2 e2 =>
      let v1 := (if n1 then -1 else 1) * Z.of_N m1 in
      let v2 := (if n2 then -1 else 1) * Z.of_N m2 in
      if e1 <=? e2 then v1 =? v2 * 10 ^ (e2 - e1)
      else v1 * 10 ^ (e1 - e2) =? v2
  | _, _ => false
  end.

Definition datetime_eqb (a b : datetime) : bool :=
  (year a =? year b) && (month a =? month b) && (day a =? day b)
  && (hour a =? hour b) && (minute a =? minute b) && (second a =? second b)
  && (microsecond a =? microsecond b).

(** The number a [bool], [int] or [float] compares as. *)
Definition as_number (v : pyval) : option pyfloat :=
  match v with
  | PBool b => Some (FDec false (if b then 1 else 0)%N 0)
  | PInt z => Some (FDec (z <? 0) (Z.to_N (Z.abs z)) 0)
  | PFloat f => Some f
  | _ => None
  end.

(** [a == b], as a dict compares keys. *)
Definition py_eqb (a b : pyval) : bool :=
  match a, b with
  | PNone, PNone => true
  | PStr s, PStr t => String.eqb s t
  | PDate d, PDate d' => datetime_eqb d d'
  | _, _ =>
      match as_number a, as_number b with
      | Some x, Some y => float_eqb x y
      | _, _ => false
      end
  end.

(** [what[name] = item]. *)
Fixpoint what_setitem (name : pyval) (item : what_item) (what : what_dict)
  : what_dict :=
  match what with
  | [] => [(name, item)]
  | (k, v) :: rest =>
      if py_eqb name k then (k, item) :: rest
      else (k, v) :: what_setitem name item rest
  end.

(** The attributes of a [VOEvent] instance.  Those [__init__] does not
    create are optional: [None] is an attribute the instance does not have
    yet.  On the fields for elements, [None] is Python's [None]; on
    [position2d] it is the empty tuple. *)
Record VOEvent : Type := mkVOEvent {
  xmltree : Element;
  Who : option Element;
  What : option Element;
  WhereWhen : option Element;
  How : option Element;
  Why : option Element;
  Citations : option Element;
  Description : option Element;
  Reference : option Element;
  who : dict obj;
  what : what_dict;
  wherewhen : dict obj;
  how : dict obj;
  why : dict obj;
  position2d : option Position2D;
  options : option (dict string);
  version : option (Z * Z);
  role : option pyval;
  ivorn : option pyval;
  eventid : option EventId;
  coordsystem : option pyval;
  coordtime : option pyval;
  citations : option (list (pyval * pyval));
  description : option (list obj)
}.

(** Assignments [self.attr = x]. *)
Definition set_Who (x : option Element) (self : VOEvent) : VOEvent :=
  mkVOEvent (xmltree self) x (What self) (WhereWhen self) (How self) (Why
    self) (Citations self) (Description self) (Reference self) (who self)
    (what self) (wherewhen self) (how self) (why self) (position2d self)
    (options self) (version self) (role self) (ivorn self) (eventid self)
    (coordsystem self) (coordtime self) (citations self) (description self).
Definition set_What (x : option Element) (self : VOEvent) : VOEvent :=
  mkVOEvent (xmltree self) (Who self) x (WhereWhen self) (How self) (Why
    self) (Citations self) (Description self) (Reference self) (who self)
    (what self) (wherewhen self) (how self) (why self) (position2d self)
    (options self) (version self) (role self) (ivorn self) (eventid self)
    (coordsystem self) (coordtime self) (citations self) (description self).
Definition set_WhereWhen (x : option Element) (self : VOEvent) : VOEvent :=
  mkVOEvent (xmltree self) (Who self) (What self) x (How self) (Why self)
    (Citations self) (Description self) (Reference self) (who self) (what
    self) (wherewhen self) (how self) (why self) (position2d self) (options
    self) (version self) (role self) (ivorn self) (eventid self)
    (coordsystem self) (coordtime self) (citations self) (description self).
Definition set_How (x : option Element) (self : VOEvent) : VOEvent :=
  mkVOEvent (xmltree self) (Who self) (What self) (WhereWhen self) x (Why
    self) (Citations self) (Description self) (Reference self) (who self)
    (what self) (wherewhen self) (how self) (why self) (position2d self)
    (options self) (version self) (role self) (ivorn self) (eventid self)
    (coordsystem self) (coordtime self) (citations self) (description self).
Definition set_Why (x : option Element) (self : VOEvent) : VOEvent :=
  mkVOEvent (xmltree self) (Who self) (What self) (WhereWhen self) (How
    self) x (Citations self) (Description self) (Reference self) (who self)
    (what self) (wherewhen self) (how self) (why self) (position2d self)
    (options self) (version self) (role self) (ivorn self) (eventid self)
    (coordsystem self) (coordtime self) (citations self) (description self).
Definition set_Citations (x : option Element) (self : VOEvent) : VOEvent :=
  mkVOEvent (xmltree self) (Who self) (What self) (WhereWhen self) (How
    self) (Why self) x (Description self) (Reference self) (who self) (what
    self) (wherewhen self) (how self) (why self) (position2d self) (options
    self) (version self) (role self) (ivorn self) (eventid self)
    (coordsystem self) (coordtime self) (citations self) (description self).
Definition set_Description (x : option Element) (self : VOEvent) : VOEvent :=
  mkVOEvent (xmltree self) (Who self) (What self) (WhereWhen self) (How
    self) (Why self) (Citations self) x (Reference self) (who self) (what
    self) (wherewhen self) (how self) (why self) (position2d self) (options
    self) (version self) (role self) (ivorn self) (eventid self)
    (coordsystem self) (coordtime self) (citations self) (description self).
Definition set_Reference (x : option Element) (self : VOEvent) : VOEvent :=
  mkVOEvent (xmltree self) (Who self) (What self) (WhereWhen self) (How
    self) (Why self) (Citations self) (Description self) x (who self) (what
    self) (wherewhen self) (how self) (why self) (position2d self) (options
    self) (version self) (role self) (ivorn self) (eventid self)
    (coordsystem self) (coordtime self) (citations self) (description self).
Definition set_who (x : dict obj) (self : VOEvent) : VOEvent :=
  mkVOEvent (xmltree self) (Who self) (What self) (WhereWhen self) (How
    self) (Why self) (Citations self) (Description self) (Reference self) x
    (what self) (wherewhen self) (how self) (why self) (position2d self)
    (options self) (version self) (role self) (ivorn self) (eventid self)
    (coordsystem self) (coordtime self) (citations self) (description self).
Definition set_what (x : what_dict) (self : VOEvent) : VOEvent :=
  mkVOEvent (xmltree self) (Who self) (What self) (WhereWhen self) (How
    self) (Why self) (Citations self) (Description self) (Reference self)
    (who self) x (wherewhen self) (how self) (why self) (position2d self)
    (options self) (version self) (role self) (ivorn self) (eventid self)
    (coordsystem self) (coordtime self) (citations self) (description self).
Definition set_wherewhen (x : dict obj) (self : VOEvent) : VOEvent :=
  mkVOEvent (xmltree self) (Who self) (What self) (WhereWhen self) (How
    self) (Why self) (Citations self) (Description self) (Reference self)
    (who self) (what self) x (how self) (why self) (position2d self)
    (options self) (version self) (role self) (ivorn self) (eventid self)
    (coordsystem self) (coordtime self) (citations self) (description self).
Definition set_how (x : dict obj) (self : VOEvent) : VOEvent :=
  mkVOEvent (xmltree self) (Who self) (What self) (WhereWhen self) (How
    self) (Why self) (Citations self) (Description self) (Reference self)
    (who self) (what self) (wherewhen self) x (why self) (position2d self)
    (options self) (version self) (role self) (ivorn self) (eventid self)
    (coordsystem self) (coordtime self) (citations self) (description self).
Definition set_why (x : dict obj) (self : VOEvent) : VOEvent :=
  mkVOEvent (xmltree self) (Who self) (What self) (WhereWhen self) (How
    self) (Why self) (Citations self) (Description self) (Reference self)
    (who self) (what self) (wherewhen self) (how self) x (position2d self)
    (options self) (version self) (role self) (ivorn self) (eventid self)
    (coordsystem self) (coordtime self) (citations self) (description self).
Definition set_position2d (x : option Position2D) (self : VOEvent) : VOEvent :=
  mkVOEvent (xmltree self) (Who self) (What self) (WhereWhen self) (How
    self) (Why self) (Citations self) (Description self) (Reference self)
    (who self) (what self) (wherewhen self) (how self) (why self) x (options
    self) (version self) (role self) (ivorn self) (eventid self)
    (coordsystem self) (coordtime self) (citations self) (description self).
Definition set_options (x : option (dict string)) (self : VOEvent) : VOEvent :=
  mkVOEvent (xmltree self) (Who self) (What self) (WhereWhen self) (How
    self) (Why self) (Citations self) (Description self) (Reference self)
    (who self) (what self) (wherewhen self) (how self) (why self)
    (position2d self) x (version self) (role self) (ivorn self) (eventid
    self) (coordsystem self) (coordtime self) (citations self) (description
    self).
Definition set_version (x : option (Z * Z)) (self : VOEvent) : VOEvent :=
  mkVOEvent (xmltree self) (Who self) (What self) (WhereWhen self) (How
    self) (Why self) (Citations self) (Description self) (Reference self)
    (who self) (what self) (wherewhen self) (how self) (why self)
    (position2d self) (options self) x (role self) (ivorn self) (eventid
    self) (coordsystem self) (coordtime self) (citations self) (description
    self).
Definition set_role (x : option pyval) (self : VOEvent) : VOEvent :=
  mkVOEvent (xmltree self) (Who self) (What self) (WhereWhen self) (How
    self) (Why self) (Citations self) (Description self) (Reference self)
    (who self) (what self) (wherewhen self) (how self) (why self)
    (position2d self) (options self) (version self) x (ivorn self) (eventid
    self) (coordsystem self) (coordtime self) (citations self) (description
    self).
Definition set_ivorn (x : option pyval) (self : VOEvent) : VOEvent :=
  mkVOEvent (xmltree self) (Who self) (What self) (WhereWhen self) (How
    self) (Why self) (Citations self) (Description self) (Reference self)
    (who self) (what self) (wherewhen self) (how self) (why self)
    (position2d self) (options self) (version self) (role self) x (eventid
    self) (coordsystem self) (coordtime self) (citations self) (description
    self).
Definition set_eventid (x : option EventId) (self : VOEvent) : VOEvent :=
  mkVOEvent (xmltree self) (Who self) (What self) (WhereWhen self) (How
    self) (Why self) (Citations self) (Description self) (Reference self)
    (who self) (what self) (wherewhen self) (how self) (why self)
    (position2d self) (options self) (version self) (role self) (ivorn self)
    x (coordsystem self) (coordtime self) (citations self) (description
    self).
Definition set_coordsystem (x : option pyval) (self : VOEvent) : VOEvent :=
  mkVOEvent (xmltree self) (Who self) (What self) (WhereWhen self) (How
    self) (Why self) (Citations self) (Description self) (Reference self)
    (who self) (what self) (wherewhen self) (how self) (why self)
    (position2d self) (options self) (version self) (role self) (ivorn self)
    (eventid self) x (coordtime self) (citations self) (description self).
Definition set_coordtime (x : option pyval) (self : VOEvent) : VOEvent :=
  mkVOEvent (xmltree self) (Who self) (What self) (WhereWhen self) (How
    self) (Why self) (Citations self) (Description self) (Reference self)
    (who self) (what self) (wherewhen self) (how self) (why self)
    (position2d self) (options self) (version self) (role self) (ivorn self)
    (eventid self) (coordsystem self) x (citations self) (description self).
Definition set_citations (x : option (list (pyval * pyval))) (self : VOEvent) : VOEvent :=
  mkVOEvent (xmltree self) (Who self) (What self) (WhereWhen self) (How
    self) (Why self) (Citations self) (Description self) (Reference self)
    (who self) (what self) (wherewhen self) (how self) (why self)
    (position2d self) (options self) (version self) (role self) (ivorn self)
    (eventid self) (coordsystem self) (coordtime self) x (description self).
Definition set_description (x : option (list obj)) (self : VOEvent) : VOEvent :=
  mkVOEvent (xmltree self) (Who self) (What self) (WhereWhen self) (How
    self) (Why self) (Citations self) (Description self) (Reference self)
    (who self) (what self) (wherewhen self) (how self) (why self)
    (position2d self) (options self) (version self) (role self) (ivorn self)
    (eventid self) (coordsystem self) (coordtime self) (citations self) x.

(** [VOEvent(xmltree)]: the instance [__init__] builds. *)
Definition init (xmltree : Element) : VOEvent :=
  mkVOEvent xmltree None None None None None None None None
            [] [] [] [] [] None
            None None None None None None None None None.

(** ** Methods: state and exceptions *)

(** A method body: from the instance to its result and the instance as the
    call leaves it, also when it raises. *)
Definition M (A : Type) : Type := VOEvent -> result A * VOEvent.

Definition ret {A : Type} (a : A) : M A := fun self => (Ok a, self).

Definition lift {A : Type} (r : result A) : M A := fun self => (r, self).

Definition bindM {A B : Type} (m : M A) (k : A -> M B) : M B := fun self =>
  match m self with
  | (Ok a, self') => k a self'
  | (Raise e, self') => (Raise e, self')
  end.

Notation "x <- m ;; k" := (bindM m (fun x => k))
  (at level 61, m at next level, right associativity).
Notation "m ;; k" := (bindM m (fun _ => k))
  (at level 61, right associativity).

(** [self.attr], for an attribute [__init__] creates. *)
Definition read {A : Type} (f : VOEvent -> A) : M A := fun self =>
  (Ok (f self), self).

(** [self.attr], for an attribute that may not exist. *)
Definition getattr {A : Type} (f : VOEvent -> option A) : M A := fun self =>
  match f self with
  | Some a => (Ok a, self)
  | None => (Raise AttributeError, self)
  end.

Definition update (f : VOEvent -> VOEvent) : M unit := fun self =>
  (Ok tt, f self).

(** [for x in xs: body]. *)
Fixpoint for_each {A : Type} (xs : list A) (body : A -> M unit) : M unit :=
  match xs with
  | [] => ret tt
  | x :: xs' => body x ;; for_each xs' body
  end.

(** ** ElementTree searches *)

(** [element.findall(tag)]: the children with that tag. *)
Definition findall (t : string) (element : Element) : list Element :=
  filter (fun c => String.eqb (tag c) t) (children element).

(** The matches of a path [t1/t2/...] below the elements [els], in document
    order. *)
Fixpoint findall_path (path : list string) (els : list Element)
  : list Element :=
  match path with
  | [] => els
  | t :: path' => findall_path path' (flat_map (findall t) els)
  end.

(** [element.find(path)]: the first match, or [None]. *)
Definition find (path : list string) (element : Element) : option Element :=
  hd_error (findall_path path [element]).

(** Truth value of an element, [len(element) != 0]: it has children. *)
Definition has_children (e : Element) : bool :=
  match children e with [] => false | _ => true end.

(** ** The section extractors *)

(** [self.who[k] = v]. *)
Definition who_set (k : string) (v : obj) : M unit :=
  update (fun self => set_who (setitem k v (who self)) self).

Definition py_le_1 {A : Type} (xs : list A) : bool :=
  (List.length xs <=? 1)%nat.

(** Lines 316-324: the loop over the children of an Author element. *)
Fixpoint author_of (grandchildren : list Element) (author : dict obj)
  : dict obj :=
  match grandchildren with
  | [] => author
  | grandchild :: rest =>
      let keys :=
        [("title", "title"); ("shortName", "short"); ("logoURL", "logo");
         ("contactName", "name"); ("contactEmail", "email");
         ("contactPhone", "phone"); ("contributor", "contributor")] in
      author_of rest
        (fold_left
           (fun author '(key1, key2) =>
              if String.eqb (tag grandchild) key1
              then setitem key2 (OVal (of_text (text grandchild))) author
              else author)
           keys author)
  end.

(** [VOEvent.parse_who]. *)
Definition parse_who : M unit :=
  root <- read xmltree ;;
  let found := findall "Who" root in
  lift (py_assert (py_le_1 found)) ;;
  update (set_who []) ;;
  match found with
  | [] => ret tt
  | w :: _ =>
      update (set_Who (Some w)) ;;
      for_each (children w) (fun child =>
        if String.eqb (tag child) "Description"
        then who_set "description" (OVal (of_text (text child)))
        else if String.eqb (tag child) "AuthorIVORN"
        then who_set "ivorn" (OVal (of_text (text child)))
        else if String.eqb (tag child) "Date"
        then v <- lift (convert_value (of_text (text child)) "force" PNone) ;;
             who_set "date" (OVal v)
        else if String.eqb (tag child) "Reference"
        then who_set "reference" (OVal (of_text (text child)))
        else if String.eqb (tag child) "Author"
        then who_set "author" (ODict (author_of (children child) []))
        else ret tt)
  end.

Section WhatLoop.

(** Lines 332-346: the loop of [parse_what_group] over the children [els]
    of a group, filling the dict [what]; [recur] is the recursive call on a
    nested Group. *)
Variable recur : Element -> result what_dict.
Variable conversion : string.

Fixpoint what_loop (els : elements) (what : what_dict)
  : result what_dict :=
  match els with
  | [] => Ok what
  | el :: rest =>
      if negb (str_in (tag el) ["Param"; "Group"]) then what_loop rest what
      else
        let* name := getitem "name" (attrib el) in
        if String.eqb (tag el) "Param"
        then
          let value := get "value" (attrib el) in
          let datatype := get "dataType" (attrib el) in
          let* value := convert_value value conversion datatype in
          what_loop rest
            (what_setitem name
               (Param value (get "unit" (attrib el)) (get "ucd" (attrib el)))
               what)
        else
          let* sub := recur el in
          what_loop rest (what_setitem name (Group sub) what)
  end.

End WhatLoop.

(** [VOEvent.parse_what_group], given the [conversion] its first line reads
    from [self.options].  The nested calls read the same attribute again;
    the walk assigns nothing to [self], so they read the same value. *)
Fixpoint what_group_of (conversion : string) (group : Element)
    {struct group} : result what_dict :=
  match group with
  | mkElement _ _ _ kids =>
      what_loop (what_group_of conversion) conversion kids []
  end.

(** [VOEvent.parse_what_group(group)]: reads [self.options['conversion']]
    first, whatever [group] holds. *)
Definition parse_what_group (group : Element) : M what_dict :=
  opts <- getattr options ;;
  conversion <- lift (getitem "conversion" opts) ;;
  lift (what_group_of conversion group).

(** [VOEvent.parse_what]. *)
Definition parse_what : M unit :=
  root <- read xmltree ;;
  let found := findall "What" root in
  lift (py_assert (py_le_1 found)) ;;
  match found with
  | [] => ret tt
  | w :: _ =>
      update (set_What (Some w)) ;;
      what <- parse_what_group w ;;
      update (set_what what)
  end.

(** The frame codes [parse_coord_system] accepts, as listed in the source. *)
Definition coord_systems : list string :=
  ["TT-ICRS-TOPO"; "UTC-ICRS-TOPO"; "TT-FK5-TOPO";
   "UTC-FK5-TOPO"; "GPS-ICRS-TOPO"; "GPS-ICRS-TOPO";
   "GPS-FK5-TOPO"; "GPS-FK5-TOPO"; "TT-ICRS-GEO";
   "UTC-ICRS-GEO"; "TT-FK5-GEO"; "UTC-FK5-GEO";
   "GPS-ICRS-GEO"; "GPS-ICRS-GEO"; "TDB-ICRS-BARY";
   "TDB-FK5-BARY"; "UTC-GEOD-TOPO"].

(** [VOEvent.parse_coord_system(el)]. *)
Definition parse_coord_system (el : Element) : M pyval :=
  update (set_coordsystem (Some PNone)) ;;
  match find ["AstroCoordSystem"] el with
  | None => ret PNone
  | Some system =>
      system <- lift (getitem "id" (attrib system)) ;;
      if negb (val_in system coord_systems) then lift (Raise ValueError)
      else ret system
  end.

(** [x.text == 'lit'] for an element [x]. *)
Definition text_is (x : Element) (s : string) : bool :=
  eq_str (of_text (text x)) s.

(** Lines 379-394: the position, for the ObservationLocation [obsloc]. *)
Definition parse_position (obsloc : Element) : M unit :=
  match find ["AstroCoords"; "Position2D"] obsloc with
  | None => ret tt
  | Some pos =>
      match find ["Name1"] pos, find ["Name2"] pos with
      | Some name1, Some name2 =>
          if text_is name1 "RA" && text_is name2 "Dec"
          then
            let ra := find ["Value2"; "C1"] pos in
            let dec := find ["Value2"; "C2"] pos in
            let error := find ["Error2Radius"] pos in
            error <- match error with
                     | Some e =>
                         f <- lift (py_float (of_text (text e))) ;;
                         ret (Some f)
                     | None => ret None
                     end ;;
            match ra, dec with
            | Some ra, Some dec =>
                r <- lift (py_float (of_text (text ra))) ;;
                d <- lift (py_float (of_text (text dec))) ;;
                update (set_position2d (Some (mkPosition2D r d error)))
            | _, _ => ret tt
            end ;;
            update (fun self =>
              set_wherewhen
                (setitem "position2d" (OPosition (position2d self))
                         (wherewhen self)) self)
          else ret tt
      | _, _ => ret tt
      end
  end.

(** [VOEvent.parse_wherewhen].  The closing [print] reads
    [self.coordsystem] and [self.coordtime]. *)
Definition parse_wherewhen : M unit :=
  root <- read xmltree ;;
  let found := findall "WhereWhen" root in
  lift (py_assert (py_le_1 found)) ;;
  update (set_wherewhen []) ;;
  match found with
  | [] => ret tt
  | w :: _ =>
      update (set_WhereWhen (Some w)) ;;
      match find ["ObsDataLocation"; "ObservationLocation"] w with
      | None => lift (Raise AttributeError)
      | Some obsloc =>
          parse_position obsloc ;;
          system <- parse_coord_system obsloc ;;
          update (set_coordsystem (Some system)) ;;
          update (fun self =>
            set_wherewhen (setitem "system" (OVal system) (wherewhen self))
                          self) ;;
          time <- match find ["AstroCoords"; "Time"; "TimeInstant"; "ISOTime"]
                             obsloc with
                  | Some t =>
                      lift (convert_value (of_text (text t)) "force" PNone)
                  | None => ret PNone
                  end ;;
          update (set_coordtime (Some time)) ;;
          update (fun self =>
            set_wherewhen (setitem "time" (OVal time) (wherewhen self)) self)
      end
  end ;;
  getattr coordsystem ;;
  getattr coordtime ;;
  ret tt.

(** [VOEvent.parse_how]. *)
Definition parse_how : M unit :=
  root <- read xmltree ;;
  let found := findall "How" root in
  lift (py_assert (py_le_1 found)) ;;
  update (set_how []) ;;
  match found with
  | [] => ret tt
  | h :: _ => update (set_How (Some h))
  end.

(** [self.why[k] = v]. *)
Definition why_set (k : string) (v : obj) : M unit :=
  update (fun self => set_why (setitem k v (why self)) self).

(** [VOEvent.parse_why]. *)
Definition parse_why : M unit :=
  root <- read xmltree ;;
  let found := findall "Why" root in
  lift (py_assert (py_le_1 found)) ;;
  update (set_why []) ;;
  match found with
  | [] => ret tt
  | w :: _ =>
      update (set_Why (Some w)) ;;
      importance <- lift (convert_value (get "importance" (attrib w))
                                        "force" PNone) ;;
      expires <- lift (convert_value (get "expires" (attrib w))
                                     "force" PNone) ;;
      why_set "importance" (OVal importance) ;;
      why_set "expires" (OVal expires) ;;
      let desc := match find ["Description"] w with
                  | Some d => of_text (text d)
                  | None => PStr ""
                  end in
      why_set "description" (OVal desc) ;;
      match find ["Inference"] w with
      | None => ret tt
      | Some inference =>
          prob <- lift (convert_value (get "probability" (attrib inference))
                                      "force" PNone) ;;
          rel <- lift (convert_value (get "relation" (attrib inference))
                                     "force" PNone) ;;
          let name := match find ["Name"] inference with
                      | Some n => of_text (text n)
                      | None => PNone
                      end in
          concept <- match find ["Concept"] inference with
                     | None => ret (OVal PNone)
                     | Some c =>
                         match text c with
                         | Some s =>
                             ret (OList (map (fun x => OVal (PStr x))
                                             (split_on ";" None s)))
                         | None => lift (Raise AttributeError)
                         end
                     end ;;
          why_set "inference"
            (ODict [("probability", OVal prob); ("relation", OVal rel);
                    ("name", OVal name); ("concept", concept)])
      end
  end.

(** Lines 460-473: one child of the Citations element. *)
Definition parse_citation (cit : Element) : M unit :=
  let append (x : pyval * pyval) : M unit :=
    cs <- getattr citations ;;
    update (set_citations (Some (cs ++ [x]))) in
  if String.eqb (tag cit) "EventIVORN"
  then
    let cite := get "cite" (attrib cit) in
    match cite with
    | PNone => lift (Raise ValueError)
    | _ =>
        if negb (val_in cite ["followup"; "supersedes"; "retraction"])
        then lift (Raise ValueError)
        else append (cite, of_text (text cit))
    end
  else if String.eqb (tag cit) "Description"
  then append (PStr "description", of_text (text cit))
  else lift (Raise ValueError).

(** [VOEvent.parse_citations]: [find] takes the first Citations child of
    the root; an element without children tests false. *)
Definition parse_citations : M unit :=
  root <- read xmltree ;;
  let found := find ["Citations"] root in
  let kept := match found with
              | Some c => if has_children c then Some c else None
              | None => None
              end in
  update (set_Citations kept) ;;
  update (set_citations (Some [])) ;;
  match kept with
  | Some c => for_each (children c) parse_citation
  | None => ret tt
  end.

(** [VOEvent.parse_description]: the loop only prints. *)
Definition parse_description : M unit :=
  root <- read xmltree ;;
  let found := find ["Description"] root in
  update (set_Description
            (match found with
             | Some d => hd_error (children d)
             | None => None
             end)) ;;
  update (set_description (Some [])).

(** [VOEvent.parse_reference]. *)
Definition parse_reference : M unit :=
  root <- read xmltree ;;
  match find ["Reference"] root with
  | Some r =>
      match children r with
      | c :: _ => update (set_Reference (Some c))
      | [] => ret tt
      end
  | None => ret tt
  end.

(** ** [VOEvent.parse] *)

(** [s] with the prefix [p] removed, when it starts with it. *)
Fixpoint drop_prefix (p s : string) : option string :=
  match p, s with
  | EmptyString, _ => Some s
  | String a p', String b s' =>
      if Ascii.eqb a b then drop_prefix p' s' else None
  | String _ _, EmptyString => None
  end.

Definition starts_with (p s : string) : bool :=
  match drop_prefix p s with Some _ => true | None => false end.

(** [\.\d] at the head of [s]. *)
Definition dot_digit (s : string) : option string :=
  match s with
  | String "." (String d r) => if is_digit d then Some r else None
  | _ => None
  end.

(** [(\.\d(\.\d)?)?}VOEvent] at the head of [s], longest option first. *)
Definition version_tail (s : string) : bool :=
  let close := starts_with "}VOEvent" in
  match dot_digit s with
  | Some s1 =>
      match dot_digit s1 with
      | Some s2 => close s2 || close s1 || close s
      | None => close s1 || close s
      end
  | None => close s
  end.

(** The root-tag pattern matched at the head of [s]. *)
Definition root_tag_at (s : string) : bool :=
  match drop_prefix "{http://www.ivoa.net/xml/VOEvent/v" s with
  | Some (String d r) => is_digit d && version_tail r
  | _ => false
  end.

(** [regex.search(tag)]: the pattern matched anywhere in [tag]. *)
Fixpoint root_tag_search (s : string) : bool :=
  root_tag_at s
  || match s with
     | String _ s' => root_tag_search s'
     | EmptyString => false
     end.

(** [v.split(sep, maxsplit)] on an object: only a [str] has the method. *)
Definition py_split (v : pyval) (sep : ascii) (maxsplit : option nat)
  : result (list string) :=
  match v with
  | PStr s => Ok (split_on sep maxsplit s)
  | _ => Raise AttributeError
  end.

Fixpoint map_int (xs : list string) : result (list Z) :=
  match xs with
  | [] => Ok []
  | x :: xs' =>
      let* z := int_of_string x in
      let* zs := map_int xs' in
      Ok (z :: zs)
  end.

(** Lines 276-280: [major, minor] of the version attribute. *)
Definition parse_version (v : pyval) : result (Z * Z) :=
  let* parts := py_split v "." None in
  let* version := map_int parts in
  match version with
  | [major] => Ok (major, 0)
  | major :: minor :: _ => Ok (major, minor)
  | [] => Raise ValueError
  end.

(** Lines 287-292: the event id of an ivorn. *)
Definition parse_ivorn (ivorn : pyval) : result EventId :=
  let* keys := py_split ivorn "/" (Some 4%nat) in
  let* authority := index keys 2 in
  let* key3 := index keys 3 in
  let* (resourcekey, localid) := unpack2 (split_on "#" (Some 1%nat) key3) in
  Ok (mkEventId authority resourcekey localid).

(** Lines 268-292 of [VOEvent.parse(options)]: the checks on the root
    element.  [options] is stored only when it is [None]. *)
Definition parse_header (opts : option (dict string)) : M unit :=
  match opts with
  | None => update (set_options (Some [("conversion", "force")]))
  | Some _ => ret tt
  end ;;
  root <- read xmltree ;;
  lift (py_assert (root_tag_search (tag root))) ;;
  let attribs := attrib root in
  v <- lift (getitem "version" attribs) ;;
  mm <- lift (parse_version v) ;;
  let '(major, minor) := mm in
  lift (py_assert (major =? 2)) ;;
  update (set_version (Some (major, minor))) ;;
  r <- lift (getitem "role" attribs) ;;
  update (set_role (Some r)) ;;
  lift (py_assert (val_in r ["observation"; "prediction"; "utility"; "test"])) ;;
  i <- lift (getitem "ivorn" attribs) ;;
  update (set_ivorn (Some i)) ;;
  id <- lift (parse_ivorn i) ;;
  update (set_eventid (Some id)).

(** [VOEvent.parse(options)]: the checks, then the extractors in the order
    of the list at line 294. *)
Definition parse (opts : option (dict string)) : M unit :=
  parse_header opts ;;
  parse_who ;;
  parse_what ;;
  parse_wherewhen ;;
  parse_how ;;
  parse_why ;;
  parse_citations ;;
  parse_description ;;
  parse_reference.

(** ** Sample elements and documents *)

(** [<Param name="TrigID" value="532871" index="3"/>]. *)
Definition param_trigid : Element :=
  mkElement "Param"
    [("name", PStr "TrigID"); ("value", PStr "532871"); ("index", PStr "3")]
    None [].

(** [<Param name="counts" dataType="int" value="many"/>]. *)
Definition param_bad_int : Element :=
  mkElement "Param"
    [("name", PStr "counts"); ("dataType", PStr "int"); ("value", PStr "many")]
    None [].

(** A root element that passes the checks of [parse], with the children
    [kids]. *)
Definition voevent (role : string) (kids : list Element) : Element :=
  mkElement "{http://www.ivoa.net/xml/VOEvent/v2.0}VOEvent"
    [("version", PStr "2.0"); ("role", PStr role);
     ("ivorn", PStr "ivo://example.org/test#1")]
    None kids.

Definition leaf (t x : string) : Element := mkElement t [] (Some x) [].

(** A WhereWhen whose ObservationLocation holds [kids]. *)
Definition where_when (kids : list Element) : Element :=
  mkElement "WhereWhen" [] None
    [mkElement "ObsDataLocation" [] None
       [mkElement "ObservationLocation" [] None kids]].

(** An AstroCoords with a Position2D named [n1]/[n2] at [c1]/[c2]. *)
Definition astro_coords (n1 n2 c1 c2 : string) : Element :=
  mkElement "AstroCoords" [] None
    [mkElement "Position2D" [] None
       [leaf "Name1" n1; leaf "Name2" n2;
        mkElement "Value2" [] None [leaf "C1" c1; leaf "C2" c2]]].

(** [<What><Param name="TrigID" value="532871" index="3"/></What>]. *)
Definition what_trigid : Element := mkElement "What" [] None [param_trigid].

Definition citations_of (cite : string) : Element :=
  mkElement "Citations" [] None
    [mkElement "EventIVORN" [("cite", PStr cite)]
               (Some "ivo://example.org/test#0") []].

(** A document whose ObservationLocation holds [kids], with a What
    element. *)
Definition located (kids : list Element) : Element :=
  voevent "observation" [what_trigid; where_when kids].

(** A document with two Citations elements. *)
Definition twice_cited : Element :=
  voevent "observation"
    [where_when []; citations_of "followup"; citations_of "retraction"].

(** A document with two Description and two Reference elements. *)
Definition twice_described : Element :=
  voevent "observation"
    [where_when [];
     mkElement "Description" [] None [leaf "p" "first"];
     mkElement "Description" [] None [leaf "p" "second"];
     mkElement "Reference" [] None [leaf "a" "first"];
     mkElement "Reference" [] None [leaf "a" "second"]].

(** A document with two How elements. *)
Definition twice_how : Element :=
  voevent "observation"
    [where_when []; mkElement "How" [] None []; mkElement "How" [] None []].

(** ** Auxiliary definitions for the properties *)

(** Induction on an element, with the property known for its children. *)
Fixpoint Element_tree_ind (P : Element -> Prop)
    (H : forall t a x c, Forall P c -> P (mkElement t a x c))
    (e : Element) : P e :=
  match e with
  | mkElement t a x c =>
      H t a x c
        ((fix all (l : list Element) : Forall P l :=
            match l with
            | [] => Forall_nil P
            | y :: l' => Forall_cons y (Element_tree_ind P H y) (all l')
            end) c)
  end.

(** The number of occurrences of [c] in [s]. *)
Fixpoint count_char (c : ascii) (s : string) : nat :=
  match s with
  | EmptyString => O
  | String a s' => ((if Ascii.eqb a c then 1 else 0) + count_char c s')%nat
  end.

(** The '/'-delimited segments of an ivorn. *)
Definition segments (s : string) : list string := split_on "/" None s.

(** [m] keeps the property [P] of the instance, whether it returns or
    raises. *)
Definition preserves {A : Type} (P : VOEvent -> Prop) (m : M A) : Prop :=
  forall self, P self -> P (snd (m self)).

(** [parse] up to the call of the What extractor. *)
Definition before_what (opts : option (dict string)) : M unit :=
  parse_header opts ;; parse_who.

(** The extractors [parse] calls after [parse_wherewhen]. *)
Definition after_wherewhen : M unit :=
  parse_how ;; parse_why ;; parse_citations ;; parse_description ;;
  parse_reference.

(** Lines 381-384: Name1 is "RA" and Name2 is "Dec". *)
Definition named_ra_dec (pos : Element) : bool :=
  match find ["Name1"] pos, find ["Name2"] pos with
  | Some name1, Some name2 => text_is name1 "RA" && text_is name2 "Dec"
  | _, _ => false
  end.

(** Line 387-389: the error radius, [None] without an Error2Radius. *)
Definition error_radius (pos : Element) : result (option pyfloat) :=
  match find ["Error2Radius"] pos with
  | Some e => let* f := py_float (of_text (text e)) in Ok (Some f)
  | None => Ok None
  end.

(** [r] is what is left of [s] after a prefix without '.'. *)
Definition dotless_rest (s r : string) : Prop :=
  exists pre, s = (pre ++ r)%string /\ count_char "." pre = O.

(** A matcher that consumes no '.'. *)
Definition dotless (m : matcher) : Prop :=
  forall s v r, In (v, r) (m s) -> dotless_rest s r.

(** [e'] is [e] up to the values of its attributes, at every depth: same
    tags, texts and children, same attribute keys in the same order, same
    "value" attribute. *)
#[warnings="-register-all"]
Inductive same_shape : Element -> Element -> Prop :=
| SameShape (t : string) (a a' : dict pyval) (x : option string)
            (c c' : list Element) :
    map fst a = map fst a' ->
    get "value" a = get "value" a' ->
    Forall2 same_shape c c' ->
    same_shape (mkElement t a x c) (mkElement t a' x c').

(** ** Further definitions for the properties *)

(** [n] is the node of [e]: same tag, and the nodes of the children of [e]
    in document order, one for each. *)
#[warnings="-register-all"]
Inductive mirrors : Element -> node -> Prop :=
| Mirrors (t : string) (a : dict pyval) (x : option string)
          (c : list Element) (en : entry) (ns : list node) :
    e_tag en = t ->
    Forall2 mirrors c ns ->
    mirrors (mkElement t a x c) (Node en ns).

(** [isinstance(v, str)]. *)
Definition is_str (v : pyval) : bool :=
  match v with PStr _ => true | _ => false end.

(** [parse] up to the call of the WhereWhen extractor. *)
Definition before_wherewhen (opts : option (dict string)) : M unit :=
  parse_header opts ;; parse_who ;; parse_what.

(** The extractors [parse] calls, in its order. *)
Definition extractors : M unit :=
  parse_who ;; parse_what ;; parse_wherewhen ;; parse_how ;; parse_why ;;
  parse_citations ;; parse_description ;; parse_reference.

(** A child the What extractor looks at: a Param or a Group. *)
Definition is_what_child (el : Element) : bool :=
  str_in (tag el) ["Param"; "Group"].

(** Every Param and Group below [group], at any depth of Groups, has a
    "name" attribute. *)
Fixpoint all_named (group : Element) : bool :=
  match group with
  | mkElement _ _ _ kids =>
      forallb
        (fun el =>
           if is_what_child el
           then is_ok (getitem "name" (attrib el))
                && (if String.eqb (tag el) "Param" then true
                    else all_named el)
           else true)
        kids
  end.

(** [entry] is the citation of the child [cit] of a Citations element: its
    text, under the "cite" attribute of an EventIVORN when that is one of
    the three kinds, or under "description" for a Description. *)
Definition cites (cit : Element) (entry : pyval * pyval) : Prop :=
  snd entry = of_text (text cit)
  /\ ((tag cit = "EventIVORN"
       /\ fst entry = get "cite" (attrib cit)
       /\ val_in (fst entry) ["followup"; "supersedes"; "retraction"] = true)
      \/ (tag cit = "Description" /\ fst entry = PStr "description")).

(** A child the Citations extractor accepts: an EventIVORN whose "cite" is
    one of the three kinds, or a Description. *)
Definition valid_citation (cit : Element) : bool :=
  String.eqb (tag cit) "EventIVORN"
  && val_in (get "cite" (attrib cit)) ["followup"; "supersedes"; "retraction"]
  || String.eqb (tag cit) "Description".

(** A text as the extractors store it: [None] or a string. *)
Definition is_text (o : obj) : bool :=
  match o with
  | OVal PNone | OVal (PStr _) => true
  | _ => false
  end.

(** The dict of an Author: texts under the seven output keys. *)
Definition author_ok (a : dict obj) : bool :=
  forallb
    (fun kv =>
       str_in (fst kv)
         ["title"; "short"; "logo"; "name"; "email"; "phone"; "contributor"]
       && is_text (snd kv))
    a.

(** The dict [self.who]: texts under description, ivorn and reference, a
    value under date, the dict of an Author under author. *)
Definition who_ok (d : dict obj) : bool :=
  forallb
    (fun kv =>
       match snd kv with
       | OVal _ =>
           str_in (fst kv) ["description"; "ivorn"; "reference"]
           && is_text (snd kv)
           || String.eqb (fst kv) "date"
       | ODict a => String.eqb (fst kv) "author" && author_ok a
       | _ => false
       end)
    d.

(** Every character of [s] satisfies [P]. *)
Fixpoint all_chars (P : ascii -> bool) (s : string) : bool :=
  match s with
  | EmptyString => true
  | String c s' => P c && all_chars P s'
  end.

(** ** [json_serializer_helper] *)

(** [d.isoformat(timespec='seconds')]. *)
Definition isoformat_seconds (d : datetime) : string :=
  (pad 4 (year d) ++ "-" ++ pad 2 (month d) ++ "-" ++ pad 2 (day d) ++ "T"
   ++ pad 2 (hour d) ++ ":" ++ pad 2 (minute d) ++ ":"
   ++ pad 2 (second d))%string.

(** [d.isoformat()]: the microseconds are written when they are not zero. *)
Definition isoformat (d : datetime) : string :=
  (isoformat_seconds d
   ++ (if (microsecond d =? 0)%Z then ""
       else "." ++ pad 6 (microsecond d)))%string.

(** Lines 14-19. *)
Definition json_serializer_helper (obj : pyval) : result string :=
  match obj with
  | PDate d => Ok (isoformat d)
  | _ => Raise TypeError
  end.

(** The fields a [datetime] object can hold: its constructor refuses any
    other. *)
Definition valid_datetime (d : datetime) : bool :=
  ((1 <=? year d) && (year d <=? 9999)
   && (1 <=? month d) && (month d <=? 12)
   && (1 <=? day d) && (day d <=? days_in_month (year d) (month d))
   && (0 <=? hour d) && (hour d <? 24)
   && (0 <=? minute d) && (minute d <? 60)
   && (0 <=? second d) && (second d <? 60)
   && (0 <=? microsecond d) && (microsecond d <? 1000000))%Z.

(** The last step of [_ord2ymd]: the month and the day of day [n] of a
    year, counted from 0. *)
Definition month_and_day (leapyear : bool) (n : Z) : Z * Z :=
  let m := Z.shiftr (n + 50) 5 in
  let preceding :=
    nth (Z.to_nat m) [0; 0; 31; 59; 90; 120; 151; 181; 212; 243; 273; 304; 334] 0
    + (if (2 <? m) && leapyear then 1 else 0) in
  if n <? preceding
  then
    let m' := m - 1 in
    let dim :=
      if m' =? 2 then (if leapyear then 29 else 28)
      else if (m' =? 4) || (m' =? 6) || (m' =? 9) || (m' =? 11) then 30
      else 31 in
    (m', n - (preceding - dim) + 1)
  else (m, n - preceding + 1).

(** The dates of the years 1 and 4, a common year and a leap year. *)
Definition sample_dates : list (Z * Z * Z) :=
  flat_map (fun y =>
    flat_map (fun m =>
      map (fun d => (y, Z.of_nat m, Z.of_nat d))
        (seq 1 (Z.to_nat (days_in_month y (Z.of_nat m)))))
      (seq 1 12))
    [1; 4].

(** [month_and_day] finds the month and the day of a date again from its
    day of the year, which lies within the year. *)
Definition date_ok (ymd : Z * Z * Z) : bool :=
  let '(y, m, d) := ymd in
  let n := days_before_month y m + d - 1 in
  let '(m', d') := month_and_day (is_leap y) n in
  (m' =? m) && (d' =? d) && (n <? 365 + (if is_leap y then 1 else 0)).

(** The characters [isoformat] writes up to the seconds. *)
Definition timestamp_char (c : ascii) : bool :=
  is_digit c || Ascii.eqb c "-" || Ascii.eqb c "T" || Ascii.eqb c ":".

(** The two halves of a timestamp, which [isoformat] joins with "T" and
    [str] with a space. *)
Definition iso_date (d : datetime) : string :=
  (pad 4 (year d) ++ "-" ++ pad 2 (month d) ++ "-" ++ pad 2 (day d))%string.

Definition iso_time (d : datetime) : string :=
  (pad 2 (hour d) ++ ":" ++ pad 2 (minute d) ++ ":"
   ++ pad 2 (second d))%string.

(** A document whose Why element has a Description and an Inference with a
    Concept of text [concept]; [None] is the empty element [<Concept/>]. *)
Definition why_of (concept : option string) : Element :=
  voevent "observation"
    [where_when [];
     mkElement "Why" [("importance", PStr "0.9")] None
       [leaf "Description" "seen";
        mkElement "Inference" [("probability", PStr "0.5")] None
          [mkElement "Concept" [] concept []]]].

(** * Properties *)

(** ** [convert_value] *)

Lemma convert_declared_falsy (tmpval value datatype : pyval) :
  truthy tmpval = false -> convert_declared tmpval value datatype = Ok value.
Proof.
  intros H. unfold convert_declared. now rewrite H.
Qed.

Lemma convert_value_none_mode (value datatype : pyval) (conversion : string) :
  str_in conversion ["force"; "always"] = false ->
  str_in conversion ["always"; "given"] = false ->
  convert_value value conversion datatype = Ok value.
Proof.
  intros H1 H2. unfold convert_value. now rewrite H1, H2.
Qed.

(** Without a declared type the second stage changes nothing. *)
Lemma convert_declared_no_type (tmpval value : pyval) :
  convert_declared tmpval value PNone = Ok value.
Proof.
  unfold convert_declared. now destruct (truthy tmpval).
Qed.

(** Outside the modes force and always, an attribute is converted to
    itself. *)
Lemma convert_value_untyped (value : pyval) (conversion : string) :
  str_in conversion ["force"; "always"] = false ->
  convert_value value conversion PNone = Ok value.
Proof.
  intros H. unfold convert_value. rewrite H. cbn [bind].
  destruct (str_in conversion ["always"; "given"]);
    [apply convert_declared_no_type | reflexivity].
Qed.

(** The examples of the specification that the code meets. *)
Example coerce_examples :
  convert_value (PStr "42") "force" PNone = Ok (PInt 42)
  /\ convert_value (PStr "007") "force" PNone = Ok (PInt 7)
  /\ convert_value (PStr "True") "force" PNone = Ok (PBool true)
  /\ convert_value (PStr "no") "force" PNone = Ok (PBool false)
  /\ convert_value (PStr "not-a-date") "force" PNone = Ok (PStr "not-a-date")
  /\ convert_value (PStr "2020-01-02 03:04:05") "force" PNone
     = Ok (PDate (mkDatetime 2020 1 2 3 4 5 0))
  /\ convert_value (PStr "1.23") "given" (PStr "float")
     = Ok (PFloat (FDec false 123 (-2)))
  /\ convert_value (PStr "many") "given" (PStr "int") = Raise ValueError
  /\ convert_value (PStr "42") "none" (PStr "int") = Ok (PStr "42").
Proof.
  repeat split; vm_compute; reflexivity.
Qed.

(** C9, counterexample: the empty string is returned as the empty string,
    not as [None]. *)
Lemma C9_empty_string_is_kept :
  convert_value (PStr "") "force" PNone = Ok (PStr "")
  /\ convert_value (PStr "") "force" PNone <> Ok PNone.
Proof.
  split; [vm_compute; reflexivity | vm_compute; discriminate].
Qed.

(** C9, as amended: for every conversion mode and declared type,
    [convert_value] returns [None] when the raw input is [None], and returns
    the empty string itself when the raw input is the empty string. *)
Theorem C9_convert_value_none_and_empty (conversion : string)
    (datatype : pyval) :
  convert_value PNone conversion datatype = Ok PNone
  /\ convert_value (PStr "") conversion datatype = Ok (PStr "").
Proof.
  unfold convert_value.
  destruct (str_in conversion ["force"; "always"]);
    destruct (str_in conversion ["always"; "given"]);
    split; try reflexivity;
    try (cbn [bind]; apply convert_declared_falsy; reflexivity);
    change (convert_guess (PStr "")) with (@Ok pyval (PStr ""));
    cbn [bind]; try reflexivity; apply convert_declared_falsy; reflexivity.
Qed.

(** [parse_element] tests the "value" attribute and the text before it
    converts them: an element with neither has the value [None]. *)
Lemma parse_element_without_value (e : Element) (conversion : string)
    (stripws : bool) (en : entry) :
  truthy (get "value" (attrib e)) = false ->
  text e = None \/ text e = Some EmptyString ->
  fst (parse_element e conversion stripws) = Ok en ->
  e_value en = PNone.
Proof.
  intros Hv Ht. unfold parse_element. rewrite Hv.
  assert (E : match text e with
              | Some s => if is_empty s then None
                          else Some (if stripws then strip s else s)
              | None => None
              end = None) by (destruct Ht as [-> | ->]; reflexivity).
  rewrite E. cbn [of_text truthy].
  destruct (convert_attribs conversion (attrib e)) as [[u|ex] a'];
    cbn [fst]; [|discriminate].
  now intros [= <-].
Qed.

(** ** The timestamp stage *)

Lemma dotless_rest_refl (s : string) : dotless_rest s s.
Proof. now exists EmptyString. Qed.

Lemma count_char_app (c : ascii) (a b : string) :
  count_char c (a ++ b) = (count_char c a + count_char c b)%nat.
Proof.
  induction a as [|x a IH]; [reflexivity|].
  cbn [String.append count_char]. rewrite IH. lia.
Qed.

Lemma dotless_rest_trans (s r t : string) :
  dotless_rest s r -> dotless_rest r t -> dotless_rest s t.
Proof.
  intros (p & -> & Hp) (q & -> & Hq). exists (p ++ q)%string. split.
  - clear. induction p as [|x p IH]; [reflexivity|].
    cbn [String.append]. now rewrite IH.
  - rewrite count_char_app. lia.
Qed.

Lemma dotless_rest_char (a : ascii) (r : string) :
  Ascii.eqb a "." = false -> dotless_rest (String a r) r.
Proof.
  intros H. exists (String a EmptyString). split; [reflexivity|].
  cbn [count_char]. now rewrite H.
Qed.

Lemma digit_not_dot (a : ascii) : is_digit a = true -> Ascii.eqb a "." = false.
Proof.
  intros H. destruct (Ascii.eqb a ".") eqn:E; [|reflexivity].
  apply Ascii.eqb_eq in E. subst a. discriminate.
Qed.

Lemma digit_in_not_dot (lo hi : nat) (a : ascii) :
  digit_in lo hi a = true -> Ascii.eqb a "." = false.
Proof.
  unfold digit_in. intros H. apply andb_prop in H. now apply digit_not_dot.
Qed.

Lemma two_digits_dotless (a1 b1 a2 b2 : nat) :
  dotless (two_digits a1 b1 a2 b2).
Proof.
  intros [|c [|d s]] v r H; cbn [two_digits] in H; try contradiction.
  destruct (digit_in a1 b1 c) eqn:E1; [|contradiction].
  destruct (digit_in a2 b2 d) eqn:E2; [|contradiction].
  destruct H as [H|[]]. injection H as _ <-.
  eapply dotless_rest_trans; apply dotless_rest_char;
    eapply digit_in_not_dot; eassumption.
Qed.

Lemma one_digit_dotless (a b : nat) : dotless (one_digit a b).
Proof.
  intros [|c s] v r H; cbn [one_digit] in H; [contradiction|].
  destruct (digit_in a b c) eqn:E; [|contradiction].
  destruct H as [H|[]]. injection H as _ <-.
  apply dotless_rest_char. eapply digit_in_not_dot; eassumption.
Qed.

Lemma alt_dotless (ms : list matcher) :
  Forall dotless ms -> dotless (alt ms).
Proof.
  intros F s v r H. unfold alt in H. apply in_flat_map in H.
  destruct H as (m & Hm & H). rewrite Forall_forall in F.
  exact (F m Hm s v r H).
Qed.

Lemma re_Y_dotless : dotless re_Y.
Proof.
  intros [|a [|b [|c [|d s]]]] v r H; cbn [re_Y] in H; try contradiction.
  destruct (is_digit a) eqn:Ea; [|contradiction].
  destruct (is_digit b) eqn:Eb; [|contradiction].
  destruct (is_digit c) eqn:Ec; [|contradiction].
  destruct (is_digit d) eqn:Ed; [|contradiction].
  destruct H as [H|[]]. injection H as _ <-.
  repeat (eapply dotless_rest_trans;
          [apply dotless_rest_char; now apply digit_not_dot|]).
  apply dotless_rest_refl.
Qed.

Lemma re_m_dotless : dotless re_m.
Proof.
  apply alt_dotless.
  repeat constructor; auto using two_digits_dotless, one_digit_dotless.
Qed.

Lemma re_d_dotless : dotless re_d.
Proof.
  apply alt_dotless.
  repeat constructor; auto using two_digits_dotless, one_digit_dotless.
  intros [|c s] v r H; [contradiction|].
  destruct (Ascii.eqb c " ") eqn:E.
  - apply Ascii.eqb_eq in E. subst c.
    eapply dotless_rest_trans; [now apply dotless_rest_char|].
    exact (one_digit_dotless 1 9 s v r H).
  - destruct c as [[] [] [] [] [] [] [] []]; try contradiction; discriminate.
Qed.

Lemma re_H_dotless : dotless re_H.
Proof.
  apply alt_dotless.
  repeat constructor; auto using two_digits_dotless, one_digit_dotless.
Qed.

Lemma re_M_dotless : dotless re_M.
Proof.
  apply alt_dotless.
  repeat constructor; auto using two_digits_dotless, one_digit_dotless.
Qed.

Lemma re_S_dotless : dotless re_S.
Proof.
  apply alt_dotless.
  repeat constructor; auto using two_digits_dotless, one_digit_dotless.
Qed.

Lemma lit_dotless (c : ascii) (s r : string) :
  Ascii.eqb (lower_char c) "." = false ->
  In r (lit c s) -> dotless_rest s r.
Proof.
  intros Hc H. destruct s as [|a s]; [contradiction|]. cbn [lit] in H.
  destruct (Ascii.eqb (lower_char a) (lower_char c)) eqn:E; [|contradiction].
  destruct H as [<-|[]]. apply dotless_rest_char.
  destruct (Ascii.eqb a ".") eqn:Ea; [|reflexivity].
  apply Ascii.eqb_eq in Ea. subst a. apply Ascii.eqb_eq in E.
  change (lower_char ".") with "."%char in E. rewrite <- E in Hc.
  discriminate.
Qed.

(** Every match of the format leaves what follows a prefix without '.'. *)
Lemma strptime_matches_dotless (s r : string) (d : datetime) :
  In (d, r) (strptime_matches s) -> dotless_rest s r.
Proof.
  unfold strptime_matches. intros H.
  apply in_flat_map in H. destruct H as ([y s1] & HY & H).
  apply in_flat_map in H. destruct H as (s2 & H1 & H).
  apply in_flat_map in H. destruct H as ([m s3] & Hm & H).
  apply in_flat_map in H. destruct H as (s4 & H2 & H).
  apply in_flat_map in H. destruct H as ([dd s5] & Hd & H).
  apply in_flat_map in H. destruct H as (s6 & H3 & H).
  apply in_flat_map in H. destruct H as ([h s7] & Hh & H).
  apply in_flat_map in H. destruct H as (s8 & H4 & H).
  apply in_flat_map in H. destruct H as ([mi s9] & Hmi & H).
  apply in_flat_map in H. destruct H as (s10 & H5 & H).
  apply in_map_iff in H. destruct H as ([sec r'] & E & Hs).
  injection E as _ <-.
  apply re_Y_dotless in HY. apply lit_dotless in H1; [|reflexivity].
  apply re_m_dotless in Hm. apply lit_dotless in H2; [|reflexivity].
  apply re_d_dotless in Hd. apply lit_dotless in H3; [|reflexivity].
  apply re_H_dotless in Hh. apply lit_dotless in H4; [|reflexivity].
  apply re_M_dotless in Hmi. apply lit_dotless in H5; [|reflexivity].
  apply re_S_dotless in Hs.
  repeat (eapply dotless_rest_trans; [eassumption|]).
  apply dotless_rest_refl.
Qed.

(** [strptime] accepts no string with a '.' in it, and raises nothing but
    [ValueError]. *)
Lemma strptime_rejects_dot (s : string) :
  (1 <= count_char "." s)%nat -> strptime s = Raise ValueError.
Proof.
  intros Hc. unfold strptime.
  destruct (strptime_matches s) as [|[d rest] l] eqn:E; [reflexivity|].
  destruct rest as [|a rest]; [|reflexivity].
  exfalso.
  assert (H : In (d, EmptyString) (strptime_matches s))
    by (rewrite E; now left).
  apply strptime_matches_dotless in H. destruct H as (pre & Hs & Hp).
  subst s. rewrite count_char_app in Hc. cbn [count_char] in Hc. lia.
Qed.

Lemma lstrip_count (c : ascii) (s : string) :
  is_space c = false -> count_char c (lstrip s) = count_char c s.
Proof.
  intros Hc. induction s as [|a s IH]; [reflexivity|].
  cbn [lstrip count_char].
  destruct (is_space a) eqn:Ea; [|reflexivity].
  rewrite IH. destruct (Ascii.eqb a c) eqn:E; [|reflexivity].
  apply Ascii.eqb_eq in E. congruence.
Qed.

Lemma span_word_count (c : ascii) (s : string) :
  count_char c s
  = (count_char c (fst (span_word s)) + count_char c (snd (span_word s)))%nat.
Proof.
  induction s as [|a s IH]; [reflexivity|].
  cbn [span_word]. destruct (is_space a); [reflexivity|].
  destruct (span_word s) as [w r]. cbn [fst snd count_char] in *. lia.
Qed.

(** The two pieces of a whitespace split hold every character of the string
    that is not whitespace. *)
Lemma split_ws_1_count (c : ascii) (s d t : string) :
  is_space c = false ->
  split_ws_1 s = [d; t] ->
  count_char c s = (count_char c d + count_char c t)%nat.
Proof.
  intros Hc H. unfold split_ws_1 in H.
  rewrite <- (lstrip_count c s Hc).
  destruct (lstrip s) as [|a u] eqn:E; [discriminate|].
  rewrite (span_word_count c (String a u)).
  destruct (span_word (String a u)) as [w r]. cbn [fst snd].
  rewrite <- (lstrip_count c r Hc).
  destruct (lstrip r) as [|b v]; [discriminate|].
  now injection H as <- <-.
Qed.

(** For every string in two whitespace-separated parts with a '.' in it --
    a date, a time and fractional seconds -- the timestamp stage hands
    [strptime] the parts joined by "T", fraction included, and returns the
    string as it was. *)
Lemma timestamp_stage_keeps_spaced_fraction (value d t : string) :
  split_ws_1 value = [d; t] ->
  (1 <= count_char "." value)%nat ->
  convert_timestamp value = Ok (PStr value).
Proof.
  intros Hs Hc. unfold convert_timestamp. rewrite Hs. cbn [unpack2].
  assert (Hd : strptime (d ++ "T" ++ t) = Raise ValueError).
  { apply strptime_rejects_dot.
    rewrite (split_ws_1_count "." value d t eq_refl Hs) in Hc.
    rewrite !count_char_app. cbn [count_char Ascii.eqb Bool.eqb]. lia. }
  destruct (unpack2 (split_on "." (Some 1%nat) value)) as [[a b]|ex];
    now rewrite Hd.
Qed.

(** C3: on the input of the claim the code returns the string unchanged.
    Line 208 splits [value], which still carries the fraction, so the string
    handed to [strptime] is "2020-01-02T03:04:05.5" and does not match the
    format.  The same instant written with a "T" is converted. *)
Theorem C3_fraction_after_space_stays_string :
  convert_value (PStr "2020-01-02 03:04:05.5") "force" PNone
  = Ok (PStr "2020-01-02 03:04:05.5")
  /\ strptime "2020-01-02T03:04:05.5" = Raise ValueError
  /\ convert_value (PStr "2020-01-02T03:04:05.5") "force" PNone
     = Ok (PDate (mkDatetime 2020 1 2 3 4 5 500000)).
Proof.
  repeat split; vm_compute; reflexivity.
Qed.

(** Mode always with a declared boolean type: every string that the first
    stage reads as a boolean literal makes line 230 raise. *)
Lemma always_bool_literal_raises (s : string) (datatype : pyval) :
  str_in (lower s) ["true"; "yes"; "false"; "no"] = true ->
  val_in datatype ["bool"; "boolean"] = true ->
  convert_value (PStr s) "always" datatype = Raise AttributeError.
Proof.
  intros Hs Hd.
  assert (Ht : truthy (PStr s) = true) by (destruct s; [discriminate|reflexivity]).
  assert (Hty : eq_str datatype "int" = false
                /\ eq_str datatype "float" = false
                /\ eq_str datatype "string" = false).
  { destruct datatype as [|d| | | |]; try discriminate.
    cbn [val_in existsb eq_str] in Hd.
    destruct (String.eqb d "bool") eqn:E1.
    - apply String.eqb_eq in E1. now subst d.
    - destruct (String.eqb d "boolean") eqn:E2; [|discriminate].
      apply String.eqb_eq in E2. now subst d. }
  destruct Hty as (H1 & H2 & H3).
  unfold convert_value.
  change (str_in "always" ["force"; "always"]) with true.
  change (str_in "always" ["always"; "given"]) with true.
  cbn iota. unfold convert_guess, py_lower. cbn [bind].
  assert (Hg : exists b,
             (if str_in (lower s) ["true"; "yes"] then Ok (PBool true)
              else if str_in (lower s) ["false"; "no"] then Ok (PBool false)
              else except_ValueError
                     (let* z := py_int (PStr s) in Ok (PInt z))
                     (except_ValueError
                        (let* f := py_float (PStr s) in Ok (PFloat f))
                        (convert_timestamp s)))
             = Ok (PBool b)).
  { cbn [str_in existsb] in Hs |- *.
    destruct (String.eqb (lower s) "true"); [now exists true|].
    destruct (String.eqb (lower s) "yes"); [now exists true|].
    destruct (String.eqb (lower s) "false"); [now exists false|].
    destruct (String.eqb (lower s) "no"); [now exists false|discriminate]. }
  destruct Hg as [b ->]. cbn [bind].
  unfold convert_declared. now rewrite Ht, H1, H2, H3, Hd.
Qed.

(** C4: with mode always and a declared boolean type, the first stage has
    already replaced [value] by [True] when line 230 calls [value.lower()]:
    the call raises [AttributeError].  Mode given, where the first stage
    does not run, returns the boolean.  A timestamp that its fraction
    carries past the last date raises too, in the default mode: line 218
    catches [ValueError], the addition at line 216 raises
    [OverflowError]. *)
Theorem C4_always_bool_raises :
  convert_value (PStr "true") "always" (PStr "bool") = Raise AttributeError
  /\ convert_value (PStr "42") "always" (PStr "boolean") = Raise AttributeError
  /\ convert_value (PStr "true") "given" (PStr "bool") = Ok (PBool true)
  /\ convert_value (PStr "9999-12-31T23:59:59.9999999") "force" PNone
     = Raise OverflowError.
Proof.
  repeat split; vm_compute; reflexivity.
Qed.

(** ** The flattener *)

Lemma with_attrib_same (e : Element) : with_attrib e (attrib e) = e.
Proof. now destruct e. Qed.

Lemma with_children_same (e : Element) : with_children e (children e) = e.
Proof. now destruct e. Qed.

Section Unconverted.

(** A conversion mode whose first stage does not run: given, none, or any
    string that is not a mode. *)
Variable conversion : string.
Hypothesis no_guess : str_in conversion ["force"; "always"] = false.

Lemma convert_attribs_same (items : dict pyval) :
  convert_attribs conversion items = (Ok tt, items).
Proof.
  induction items as [|[key val] rest IH]; [reflexivity|].
  cbn [convert_attribs]. rewrite IH.
  destruct (String.eqb key "value"); [reflexivity|].
  now rewrite convert_value_untyped.
Qed.

Lemma parse_element_same (e : Element) (stripws : bool) :
  snd (parse_element e conversion stripws) = e.
Proof.
  unfold parse_element. rewrite convert_attribs_same.
  rewrite with_attrib_same.
  now destruct (if truthy (get "value" (attrib e)) then _ else _).
Qed.

Lemma xml2python_data_same (e : Element) (stripws : bool) :
  snd (xml2python_data e conversion stripws) = children e.
Proof.
  induction e as [t a x c IH] using Element_tree_ind.
  cbn [xml2python_data children].
  induction IH as [|child rest Hchild _ IHrest]; [reflexivity|].
  cbn [xml2python_loop].
  pose proof (parse_element_same child stripws) as Hp.
  destruct (parse_element child conversion stripws) as [r1 child1].
  cbn [snd] in Hp. subst child1.
  destruct r1 as [en|ex]; [|reflexivity].
  destruct (xml2python_data child conversion stripws) as [r2 kids2].
  cbn [snd] in Hchild. subst kids2. rewrite with_children_same.
  destruct r2 as [ch|ex]; [|reflexivity].
  destruct (xml2python_loop _ conversion stripws rest) as [r3 rest'].
  cbn [snd] in IHrest |- *. now subst rest'.
Qed.

Lemma xml2python_same (e : Element) (stripws parse_root : bool) :
  snd (xml2python e conversion stripws parse_root) = e.
Proof.
  unfold xml2python.
  pose proof (xml2python_data_same e stripws) as Hd.
  destruct (xml2python_data e conversion stripws) as [r kids].
  cbn [snd] in Hd. subst kids. rewrite with_children_same.
  destruct r as [data|ex]; [|reflexivity].
  destruct parse_root; [|reflexivity].
  pose proof (parse_element_same e stripws) as Hp.
  now destruct (parse_element e conversion stripws).
Qed.

(** In mode none (neither stage runs) nothing can raise. *)
Hypothesis no_declared : str_in conversion ["always"; "given"] = false.

Lemma parse_element_ok (e : Element) (stripws : bool) :
  is_ok (fst (parse_element e conversion stripws)) = true.
Proof.
  unfold parse_element. rewrite convert_attribs_same.
  rewrite !convert_value_none_mode by assumption.
  destruct (truthy (get "value" (attrib e))); [reflexivity|].
  now destruct (truthy (of_text _)).
Qed.

Lemma xml2python_data_ok (e : Element) (stripws : bool) :
  is_ok (fst (xml2python_data e conversion stripws)) = true.
Proof.
  induction e as [t a x c IH] using Element_tree_ind.
  cbn [xml2python_data].
  induction IH as [|child rest Hchild _ IHrest]; [reflexivity|].
  cbn [xml2python_loop].
  pose proof (parse_element_ok child stripws) as Hp.
  destruct (parse_element child conversion stripws) as [r1 child1].
  destruct r1 as [en|ex]; [|discriminate].
  destruct (xml2python_data child conversion stripws) as [r2 kids2].
  destruct r2 as [ch|ex]; [|discriminate].
  destruct (xml2python_loop _ conversion stripws rest) as [r3 rest'].
  now destruct r3.
Qed.

Lemma xml2python_ok (e : Element) (stripws parse_root : bool) :
  is_ok (fst (xml2python e conversion stripws parse_root)) = true.
Proof.
  unfold xml2python.
  pose proof (xml2python_data_ok e stripws) as Hd.
  destruct (xml2python_data e conversion stripws) as [r kids].
  destruct r as [data|ex]; [|discriminate].
  destruct parse_root; [|reflexivity].
  pose proof (parse_element_ok (with_children e kids) stripws) as Hp.
  destruct (parse_element (with_children e kids) conversion stripws)
    as [[en|ex] e2]; [reflexivity|discriminate].
Qed.

End Unconverted.

(** *** What every mode leaves alone *)

Lemma same_shape_refl (e : Element) : same_shape e e.
Proof.
  induction e as [t a x c IH] using Element_tree_ind.
  constructor; try reflexivity.
  induction IH; constructor; assumption.
Qed.

Lemma Forall2_same_shape_refl (l : list Element) : Forall2 same_shape l l.
Proof.
  induction l; constructor; [apply same_shape_refl|assumption].
Qed.

Lemma convert_attribs_keys (conversion : string) (items : dict pyval) :
  map fst items = map fst (snd (convert_attribs conversion items))
  /\ get "value" items = get "value" (snd (convert_attribs conversion items)).
Proof.
  induction items as [|[key val] rest [IHk IHv]]; [now split|].
  cbn [convert_attribs].
  destruct (String.eqb key "value") eqn:E.
  - destruct (convert_attribs conversion rest) as [r rest'].
    cbn [snd map fst get] in *. rewrite String.eqb_sym, E.
    split; [now f_equal|reflexivity].
  - destruct (convert_value val conversion PNone) as [val'|ex];
      [|now split].
    destruct (convert_attribs conversion rest) as [r rest'].
    cbn [snd map fst get] in *. rewrite String.eqb_sym, E.
    split; [now f_equal|assumption].
Qed.

(** In every mode [parse_element] changes nothing of the element but the
    values of its attributes other than "value". *)
Lemma parse_element_rewrites (e : Element) (conversion : string)
    (stripws : bool) :
  exists a',
    snd (parse_element e conversion stripws) = with_attrib e a'
    /\ map fst (attrib e) = map fst a'
    /\ get "value" (attrib e) = get "value" a'.
Proof.
  unfold parse_element.
  destruct (if truthy (get "value" (attrib e)) then _ else _);
    [|exists (attrib e); now rewrite with_attrib_same].
  pose proof (convert_attribs_keys conversion (attrib e)) as [Hk Hv].
  destruct (convert_attribs conversion (attrib e)) as [r a'].
  cbn [snd] in Hk, Hv. exists a'. now destruct r.
Qed.

Lemma same_shape_with_attrib (e e1 : Element) (a' : dict pyval) :
  same_shape e e1 ->
  map fst (attrib e1) = map fst a' ->
  get "value" (attrib e1) = get "value" a' ->
  same_shape e (with_attrib e1 a').
Proof.
  intros H Hk Hv. destruct H as [t a a1 x c c1 Hk1 Hv1 Hf].
  cbn [attrib with_attrib] in *. constructor; congruence.
Qed.

Lemma same_shape_with_children (e e1 : Element) (c' : list Element) :
  same_shape e e1 ->
  Forall2 same_shape (children e) c' ->
  same_shape e (with_children e1 c').
Proof.
  intros H Hf. destruct H as [t a a' x c c1 Hk Hv _].
  cbn [children with_children] in *. now constructor.
Qed.

Lemma xml2python_data_keeps_shape (e : Element) (conversion : string)
    (stripws : bool) :
  Forall2 same_shape (children e)
          (snd (xml2python_data e conversion stripws)).
Proof.
  induction e as [t a x c IH] using Element_tree_ind.
  cbn [xml2python_data children].
  induction IH as [|child rest Hchild _ IHrest]; [constructor|].
  cbn [xml2python_loop].
  destruct (parse_element_rewrites child conversion stripws)
    as (a' & Hp & Hk & Hv).
  destruct (parse_element child conversion stripws) as [r1 child1].
  cbn [snd] in Hp. subst child1.
  assert (H1 : same_shape child (with_attrib child a'))
    by (apply same_shape_with_attrib; auto using same_shape_refl).
  destruct r1 as [en|ex];
    [|constructor; [assumption|apply Forall2_same_shape_refl]].
  destruct (xml2python_data child conversion stripws) as [r2 kids2].
  cbn [snd] in Hchild.
  pose proof (same_shape_with_children child _ kids2 H1 Hchild) as Hs.
  destruct r2 as [ch|ex];
    [|constructor; [assumption|apply Forall2_same_shape_refl]].
  destruct (xml2python_loop _ conversion stripws rest) as [r3 rest'].
  cbn [snd] in IHrest |- *. now constructor.
Qed.

(** In every mode, and whether it returns or raises, [xml2python] changes
    nothing of the tree but the values of attributes other than "value". *)
Lemma xml2python_keeps_shape (e : Element) (conversion : string)
    (stripws parse_root : bool) :
  same_shape e (snd (xml2python e conversion stripws parse_root)).
Proof.
  unfold xml2python.
  pose proof (xml2python_data_keeps_shape e conversion stripws) as Hd.
  destruct (xml2python_data e conversion stripws) as [r kids].
  cbn [snd] in Hd.
  assert (H1 : same_shape e (with_children e kids))
    by (apply same_shape_with_children; auto using same_shape_refl).
  destruct r as [data|ex]; [|exact H1].
  destruct parse_root; [|exact H1].
  destruct (parse_element_rewrites (with_children e kids) conversion stripws)
    as (a' & Hp & Hk & Hv).
  destruct (parse_element (with_children e kids) conversion stripws)
    as [r2 e2].
  cbn [snd] in *. subst e2. now apply same_shape_with_attrib.
Qed.

(** C1: under the default mode, [parse_element] leaves the int 3 in the
    element's own attribute mapping where the string "3" was (line 23 takes
    [element.attrib] itself, line 46 assigns into it); flattening the same
    element again then raises [AttributeError] at line 191. *)
Theorem C1_parse_element_rewrites_attrib :
  let after := snd (parse_element param_trigid "force" true) in
  attrib after
  = [("name", PStr "TrigID"); ("value", PStr "532871"); ("index", PInt 3)]
  /\ after <> param_trigid
  /\ from_xml param_trigid = true
  /\ is_ok (fst (parse_element param_trigid "force" true)) = true
  /\ fst (parse_element after "force" true) = Raise AttributeError.
Proof.
  repeat split; try (vm_compute; reflexivity).
  vm_compute. discriminate.
Qed.

(** C2, counterexample: an invocation fails outright on a declared int that
    does not parse (mode given), and under the default mode the second
    invocation on the same element fails after the first succeeded. *)
Lemma C2_invocations_can_fail :
  fst (xml2python (mkElement "What" [] None [param_bad_int])
                  "given" true false) = Raise ValueError
  /\ (let first := xml2python (mkElement "What" [] None [param_trigid])
                              "force" true false in
      is_ok (fst first) = true
      /\ fst (xml2python (snd first) "force" true false)
         = Raise AttributeError).
Proof.
  repeat split; vm_compute; reflexivity.
Qed.

(** C2, as amended: in the modes given and none (any mode but force and
    always), for every element and whitespace flag, an invocation of the
    flattener leaves the element as it was, so a second invocation has the
    outcome of the first: both raise the same error, or both succeed with
    equal output trees.  In mode none both succeed. *)
Theorem C2_xml2python_repeatable (element : Element) (conversion : string)
    (stripws parse_root : bool) :
  str_in conversion ["force"; "always"] = false ->
  let first := xml2python element conversion stripws parse_root in
  snd first = element
  /\ xml2python (snd first) conversion stripws parse_root = first
  /\ (str_in conversion ["always"; "given"] = false ->
      is_ok (fst first) = true).
Proof.
  intros H first.
  assert (Hs : snd first = element) by (apply xml2python_same; exact H).
  split; [exact Hs|]. split.
  - rewrite Hs. reflexivity.
  - intros H'. apply xml2python_ok; assumption.
Qed.

Lemma C2_xml2python_repeatable_witness :
  let first := xml2python (mkElement "What" [] None [param_trigid; param_bad_int])
                          "given" false true in
  snd first = mkElement "What" [] None [param_trigid; param_bad_int]
  /\ xml2python (snd first) "given" false true = first
  /\ (str_in "given" ["always"; "given"] = false -> is_ok (fst first) = true).
Proof.
  apply (C2_xml2python_repeatable
           (mkElement "What" [] None [param_trigid; param_bad_int])
           "given" false true).
  reflexivity.
Defined.

(** ** Splitting *)

Lemma split_on_nonempty (c : ascii) (m : option nat) (s : string) :
  split_on c m s <> [].
Proof.
  revert m. induction s as [|a s IH]; intros m; [discriminate|].
  cbn [split_on]. destruct m as [[|n]|]; try discriminate;
    (destruct (Ascii.eqb a c); [discriminate|]);
    match goal with |- context [split_on c ?m s] =>
      specialize (IH m); now destruct (split_on c m s) end.
Qed.

Lemma split_on_length (c : ascii) (s : string) :
  List.length (split_on c None s) = S (count_char c s).
Proof.
  induction s as [|a s IH]; [reflexivity|].
  cbn [split_on count_char dec_maxsplit].
  destruct (Ascii.eqb a c).
  - cbn [List.length]. now rewrite IH.
  - destruct (split_on c None s); [discriminate|]. exact IH.
Qed.

Lemma split_on_max_length (c : ascii) (s : string) (n : nat) :
  List.length (split_on c (Some n) s)
  = Nat.min (S n) (List.length (split_on c None s)).
Proof.
  revert n. induction s as [|a s IH]; intros n.
  - now destruct n.
  - cbn [split_on dec_maxsplit].
    destruct n as [|n].
    + destruct (Ascii.eqb a c); [reflexivity|].
      now destruct (split_on c None s).
    + destruct (Ascii.eqb a c).
      * cbn [List.length Nat.pred]. now rewrite IH.
      * specialize (IH (S n)).
        pose proof (split_on_nonempty c (Some (S n)) s) as N1.
        pose proof (split_on_nonempty c None s) as N2.
        destruct (split_on c (Some (S n)) s), (split_on c None s);
          try congruence; exact IH.
Qed.

(** Below [maxsplit], a limited split yields the same pieces. *)
Lemma split_on_max_nth (c : ascii) (s : string) (n i : nat) :
  (i < n)%nat ->
  nth_error (split_on c (Some n) s) i = nth_error (split_on c None s) i.
Proof.
  revert n i. induction s as [|a s IH]; intros n i Hi.
  - destruct n; [lia|reflexivity].
  - destruct n as [|n]; [lia|].
    cbn [split_on dec_maxsplit Nat.pred].
    destruct (Ascii.eqb a c).
    + destruct i as [|i]; [reflexivity|]. cbn [nth_error]. apply IH. lia.
    + pose proof (IH (S n) i Hi) as Hn.
      pose proof (IH (S n) O ltac:(lia)) as H0.
      pose proof (split_on_nonempty c (Some (S n)) s) as N1.
      pose proof (split_on_nonempty c None s) as N2.
      destruct (split_on c (Some (S n)) s) as [|p ps],
               (split_on c None s) as [|q qs];
        destruct i; cbn [nth_error] in *; congruence.
Qed.

(** A split at the first [c] only: two pieces exactly when [c] occurs, and
    then the first piece is what precedes the first occurrence. *)
Lemma split_on_first (c : ascii) (s : string) :
  match split_on c (Some 1%nat) s with
  | [a; b] =>
      s = (a ++ String c b)%string /\ count_char c a = O
      /\ (1 <= count_char c s)%nat
  | _ => count_char c s = O
  end.
Proof.
  induction s as [|a s IH]; [reflexivity|].
  cbn [split_on dec_maxsplit Nat.pred count_char].
  destruct (Ascii.eqb a c) eqn:E.
  - apply Ascii.eqb_eq in E. subst a.
    destruct s; cbn [split_on]; repeat split; lia.
  - destruct (split_on c (Some 1%nat) s) as [|p [|q [|r l]]]; try exact IH.
    destruct IH as (Hs & Hc & Hn). cbn [count_char]. rewrite E.
    repeat split; [now rewrite Hs | exact Hc | lia].
Qed.

(** ** The ivorn *)

(** C6, counterexample: an ivorn whose fourth segment holds two '#', and one
    with five segments, are both accepted. *)
Lemma C6_longer_ivorns_accepted :
  parse_ivorn (PStr "ivo://example.org/test#1#2")
  = Ok (mkEventId "example.org" "test" "1#2")
  /\ count_char "#" (nth 3 (segments "ivo://example.org/test#1#2") "") = 2%nat
  /\ parse_ivorn (PStr "ivo://example.org/test#1/extra")
     = Ok (mkEventId "example.org" "test" "1")
  /\ List.length (segments "ivo://example.org/test#1/extra") = 5%nat.
Proof.
  repeat split; vm_compute; reflexivity.
Qed.

(** C6, as amended: the ivorn is accepted and decomposed exactly when it has
    at least four '/'-delimited segments and the fourth contains at least
    one '#'.  The authority is the third segment; the resource key is the
    part of the fourth segment before its first '#' and the local id the
    rest of it, further '#' included; what follows a fourth '/' is ignored.
    With fewer than four segments the decomposition raises [IndexError],
    with no '#' in the fourth [ValueError]. *)
Theorem C6_parse_ivorn_accepts_iff (s : string) :
  let segs := segments s in
  (is_ok (parse_ivorn (PStr s)) = true <->
   (4 <= List.length segs)%nat /\ (1 <= count_char "#" (nth 3 segs ""))%nat)
  /\ (forall id, parse_ivorn (PStr s) = Ok id ->
        authority id = nth 2 segs ""
        /\ nth 3 segs "" = (resourcekey id ++ String "#" (localid id))%string
        /\ count_char "#" (resourcekey id) = O)
  /\ ((List.length segs < 4)%nat -> parse_ivorn (PStr s) = Raise IndexError)
  /\ ((4 <= List.length segs)%nat -> count_char "#" (nth 3 segs "") = O ->
      parse_ivorn (PStr s) = Raise ValueError).
Proof.
  unfold parse_ivorn, py_split, index, segments. cbn [bind].
  rewrite (split_on_max_nth "/" s 4 2), (split_on_max_nth "/" s 4 3) by lia.
  destruct (split_on "/" None s) as [|k0 [|k1 [|k2 [|k3 rest]]]];
    cbn [nth_error nth List.length bind];
    try (repeat split; intros; try discriminate; try lia; reflexivity).
  pose proof (split_on_first "#" k3) as F.
  destruct (split_on "#" (Some 1%nat) k3) as [|a [|b [|x l]]];
    cbn [unpack2 bind is_ok]; repeat split; intros;
    try discriminate; try lia; try reflexivity;
    try (destruct F as (F1 & F2 & F3));
    try lia;
    try match goal with
        | H : Ok _ = Ok _ |- _ => inversion H; subst; clear H
        end;
    cbn [authority resourcekey localid]; try assumption; try reflexivity.
Qed.

(** ** Methods and the instance *)

Lemma bindM_assoc {A B C : Type} (m : M A) (k : A -> M B) (h : B -> M C)
    (self : VOEvent) :
  bindM (bindM m k) h self = bindM m (fun a => bindM (k a) h) self.
Proof.
  unfold bindM. destruct (m self) as [[a|e] s1]; [|reflexivity].
  reflexivity.
Qed.

(** When the first part raises, so does the whole. *)
Lemma bindM_raise {A B : Type} (m : M A) (k : A -> M B) (self self' : VOEvent)
    (e : exn) :
  m self = (Raise e, self') -> bindM m k self = (Raise e, self').
Proof. unfold bindM. now intros ->. Qed.

Lemma bindM_ok {A B : Type} (m : M A) (k : A -> M B) (self self' : VOEvent)
    (a : A) :
  m self = (Ok a, self') -> bindM m k self = k a self'.
Proof. unfold bindM. now intros ->. Qed.

Section Preserved.

Variable P : VOEvent -> Prop.

Lemma preserves_ret {A : Type} (a : A) : preserves P (ret a).
Proof. now intros self H. Qed.

Lemma preserves_lift {A : Type} (r : result A) : preserves P (lift r).
Proof. now intros self H. Qed.

Lemma preserves_read {A : Type} (f : VOEvent -> A) : preserves P (read f).
Proof. now intros self H. Qed.

Lemma preserves_getattr {A : Type} (f : VOEvent -> option A) :
  preserves P (getattr f).
Proof. intros self H. unfold getattr. now destruct (f self). Qed.

Lemma preserves_update (f : VOEvent -> VOEvent) :
  (forall self, P self -> P (f self)) -> preserves P (update f).
Proof. intros Hf self H. now apply Hf. Qed.

Lemma preserves_bind {A B : Type} (m : M A) (k : A -> M B) :
  preserves P m -> (forall a, preserves P (k a)) -> preserves P (bindM m k).
Proof.
  intros Hm Hk self H. unfold bindM. specialize (Hm self H).
  destruct (m self) as [[a|e] s1]; cbn [snd] in *; [now apply Hk|assumption].
Qed.

Lemma preserves_for_each {A : Type} (xs : list A) (body : A -> M unit) :
  (forall x, preserves P (body x)) -> preserves P (for_each xs body).
Proof.
  intros Hb. induction xs as [|x xs IH]; [apply preserves_ret|].
  cbn [for_each]. apply preserves_bind; [apply Hb|intros _; exact IH].
Qed.

End Preserved.

(** Closes a [preserves] goal for a method built from the operations above,
    given a tactic for the assignments. *)
Ltac preserved tac :=
  repeat first
    [ apply preserves_ret | apply preserves_lift | apply preserves_read
    | apply preserves_getattr
    | apply preserves_update; intros ? ?; tac
    | apply preserves_for_each; intros ?
    | apply preserves_bind; [|intros ?]
    | match goal with
      | |- preserves _ (match ?x with _ => _ end) => destruct x
      | |- preserves _ (if ?c then _ else _) => destruct c
      | |- preserves _ (let (_, _) := ?x in _) => destruct x
      end ].

(** ** The options of [parse] *)

(** Called with options, [parse] reaches the What extractor with the
    instance still lacking the attribute [options]. *)
Lemma before_what_keeps_options (tree : Element) (opts : dict string) :
  preserves (fun self => options self = None /\ xmltree self = tree)
            (before_what (Some opts)).
Proof.
  unfold before_what, parse_header, parse_who, who_set.
  preserved ltac:(cbn; assumption).
Qed.

(** On an instance without [options], the What extractor raises as soon as
    the root has a What element. *)
Lemma parse_what_without_options (self : VOEvent) (w : Element) :
  options self = None ->
  findall "What" (xmltree self) = [w] ->
  fst (parse_what self) = Raise AttributeError
  /\ options (snd (parse_what self)) = None.
Proof.
  intros Ho Hf. destruct self. cbn in Ho, Hf.
  unfold parse_what, parse_what_group, bindM, read, update, getattr, lift.
  cbn [xmltree fst snd]. rewrite Hf. cbn. rewrite Ho. now cbn.
Qed.

(** The example document of the specification, with a WhereWhen: the
    identity and the role, as [parse] stores them. *)
Example parse_example :
  let self := snd (parse None (init (located []))) in
  fst (parse None (init (located []))) = Ok tt
  /\ eventid self = Some (mkEventId "example.org" "test" "1")
  /\ role self = Some (PStr "observation")
  /\ version self = Some (2, 0)
  /\ what self = [(PStr "TrigID", Param (PInt 532871) PNone PNone)].
Proof.
  repeat split; vm_compute; reflexivity.
Qed.

(** C10, counterexample: a document with a What element holding a Param,
    parsed with options, raises [AssertionError] when its role is not a
    valid one, [AttributeError] when the document is otherwise valid. *)
Lemma C10_invalid_role_raises_first :
  fst (parse (Some [("conversion", "given")])
             (init (voevent "bogus" [what_trigid]))) = Raise AssertionError
  /\ fst (parse (Some [("conversion", "given")])
                (init (voevent "test" [what_trigid]))) = Raise AttributeError.
Proof.
  split; vm_compute; reflexivity.
Qed.

(** C10, as amended: for every document that passes the checks on the root
    element and the Who extractor and has exactly one What element (with or
    without Param or Group children), [parse] called on a fresh instance
    with an options argument that is not [None] raises [AttributeError]:
    the options are not stored, and the What extractor reads
    [self.options]. *)
Theorem C10_options_never_stored (tree w : Element) (opts : dict string) :
  fst (before_what (Some opts) (init tree)) = Ok tt ->
  findall "What" tree = [w] ->
  fst (parse (Some opts) (init tree)) = Raise AttributeError
  /\ options (snd (parse (Some opts) (init tree))) = None.
Proof.
  intros Hb Hf.
  pose proof (before_what_keeps_options tree opts (init tree)
                (conj eq_refl eq_refl)) as [Ho Hx].
  assert (E : parse (Some opts) (init tree)
              = bindM (before_what (Some opts))
                  (fun _ => parse_what ;; parse_wherewhen ;; after_wherewhen)
                  (init tree)).
  { unfold parse, before_what. now rewrite bindM_assoc. }
  rewrite E. clear E.
  destruct (before_what (Some opts) (init tree)) as [r s1] eqn:Eb.
  cbn [fst snd] in Hb, Ho, Hx. subst r.
  rewrite (bindM_ok _ _ _ _ _ Eb).
  rewrite <- Hx in Hf.
  destruct (parse_what_without_options s1 w Ho Hf) as [Hr Hs].
  destruct (parse_what s1) as [r2 s2] eqn:Ew. cbn [fst snd] in Hr, Hs.
  subst r2. rewrite (bindM_raise _ _ _ _ _ Ew). now split.
Qed.

Lemma C10_options_never_stored_witness :
  fst (parse (Some [("conversion", "given")])
             (init (voevent "test" [what_trigid]))) = Raise AttributeError
  /\ options (snd (parse (Some [("conversion", "given")])
                         (init (voevent "test" [what_trigid])))) = None.
Proof.
  apply (C10_options_never_stored (voevent "test" [what_trigid]) what_trigid
           [("conversion", "given")]); reflexivity.
Defined.

(** ** The coordinate system *)

Lemma getitem_raises_KeyError {V : Type} (k : string) (d : dict V) (e : exn) :
  getitem k d = Raise e -> e = KeyError.
Proof.
  induction d as [|[k' v] d IH]; cbn [getitem].
  - congruence.
  - destruct (String.eqb k k'); [discriminate|exact IH].
Qed.

(** C8, counterexample: an AstroCoordSystem without "id" fails the parse
    with [KeyError]. *)
Lemma C8_missing_id_raises :
  fst (parse None (init (located [mkElement "AstroCoordSystem" [] None []])))
  = Raise KeyError
  /\ fst (parse None (init (located []))) = Ok tt.
Proof.
  split; vm_compute; reflexivity.
Qed.

(** C8, as amended: when an AstroCoordSystem element is present under
    ObservationLocation, the coordinate-system check returns the value of
    its "id" attribute when that value is one of the frame codes, raises
    [ValueError] exactly when the attribute is present with another value,
    and raises [KeyError] when the attribute is absent. *)
Theorem C8_coord_system_id (self : VOEvent) (el system : Element) :
  find ["AstroCoordSystem"] el = Some system ->
  (forall id, getitem "id" (attrib system) = Ok id ->
     fst (parse_coord_system el self)
     = if val_in id coord_systems then Ok id else Raise ValueError)
  /\ (forall e, getitem "id" (attrib system) = Raise e ->
        fst (parse_coord_system el self) = Raise KeyError).
Proof.
  intros Hf. unfold parse_coord_system, bindM, update, lift, ret.
  rewrite Hf. split.
  - intros id ->. now destruct (val_in id coord_systems).
  - intros e He. rewrite He.
    now rewrite (getitem_raises_KeyError _ _ _ He).
Qed.

Lemma C8_coord_system_id_witness :
  (forall id, getitem "id" [("id", PStr "UTC-FK5-GEO")] = Ok id ->
     fst (parse_coord_system
            (mkElement "ObservationLocation" [] None
               [mkElement "AstroCoordSystem" [("id", PStr "UTC-FK5-GEO")]
                          None []])
            (init (located [])))
     = if val_in id coord_systems then Ok id else Raise ValueError)
  /\ (forall e, getitem "id" [("id", PStr "UTC-FK5-GEO")] = Raise e ->
        fst (parse_coord_system
               (mkElement "ObservationLocation" [] None
                  [mkElement "AstroCoordSystem" [("id", PStr "UTC-FK5-GEO")]
                             None []])
               (init (located [])))
        = Raise KeyError).
Proof.
  apply (C8_coord_system_id (init (located []))
           (mkElement "ObservationLocation" [] None
              [mkElement "AstroCoordSystem" [("id", PStr "UTC-FK5-GEO")]
                         None []])
           (mkElement "AstroCoordSystem" [("id", PStr "UTC-FK5-GEO")] None [])).
  reflexivity.
Defined.

(** ** The position *)

(** What [parse_position] leaves in [self.position2d], case by case. *)
Lemma parse_position_result (self : VOEvent) (obsloc pos : Element) :
  find ["AstroCoords"; "Position2D"] obsloc = Some pos ->
  position2d (snd (parse_position obsloc self))
  = if named_ra_dec pos then
      match error_radius pos,
            find ["Value2"; "C1"] pos, find ["Value2"; "C2"] pos with
      | Ok err, Some c1, Some c2 =>
          match py_float (of_text (text c1)),
                py_float (of_text (text c2)) with
          | Ok r, Ok d => Some (mkPosition2D r d err)
          | _, _ => position2d self
          end
      | _, _, _ => position2d self
      end
    else position2d self.
Proof.
  intros Hf. unfold parse_position, named_ra_dec, error_radius.
  rewrite Hf.
  destruct (find ["Name1"] pos) as [name1|]; [|reflexivity].
  destruct (find ["Name2"] pos) as [name2|]; [|reflexivity].
  destruct (text_is name1 "RA" && text_is name2 "Dec"); [|reflexivity].
  unfold bindM, lift, ret, update.
  destruct (find ["Error2Radius"] pos) as [e|].
  - destruct (py_float (of_text (text e))) as [f|ex]; cbn [bind];
      [|reflexivity].
    destruct (find ["Value2"; "C1"] pos) as [c1|],
             (find ["Value2"; "C2"] pos) as [c2|]; try reflexivity.
    destruct (py_float (of_text (text c1))) as [r|ex]; [|reflexivity].
    destruct (py_float (of_text (text c2))) as [d|ex]; reflexivity.
  - destruct (find ["Value2"; "C1"] pos) as [c1|],
             (find ["Value2"; "C2"] pos) as [c2|]; try reflexivity.
    destruct (py_float (of_text (text c1))) as [r|ex]; [|reflexivity].
    destruct (py_float (of_text (text c2))) as [d|ex]; reflexivity.
Qed.

(** What follows the position in [parse_wherewhen] leaves
    [self.position2d] alone. *)
Lemma parse_wherewhen_position (self : VOEvent) (w obsloc : Element) :
  findall "WhereWhen" (xmltree self) = [w] ->
  find ["ObsDataLocation"; "ObservationLocation"] w = Some obsloc ->
  position2d (snd (parse_wherewhen self))
  = position2d
      (snd (parse_position obsloc
              (set_WhereWhen (Some w) (set_wherewhen [] self)))).
Proof.
  intros Hw Ho. unfold parse_wherewhen.
  unfold bindM at 1. unfold read at 1. rewrite Hw.
  unfold bindM at 1. unfold lift at 1. cbn [py_assert py_le_1 List.length
    Nat.leb].
  unfold bindM at 1. unfold update at 1.
  rewrite Ho.
  set (s0 := set_WhereWhen (Some w) (set_wherewhen [] self)).
  assert (K : forall p, preserves (fun s => position2d s = p)
    (system <- parse_coord_system obsloc ;;
     update (set_coordsystem (Some system)) ;;
     update (fun self0 =>
       set_wherewhen (setitem "system" (OVal system) (wherewhen self0))
                     self0) ;;
     time <- match find ["AstroCoords"; "Time"; "TimeInstant"; "ISOTime"]
                        obsloc with
             | Some t => lift (convert_value (of_text (text t)) "force" PNone)
             | None => ret PNone
             end ;;
     update (set_coordtime (Some time)) ;;
     update (fun self0 =>
       set_wherewhen (setitem "time" (OVal time) (wherewhen self0)) self0))).
  { intros p. unfold parse_coord_system. preserved ltac:(cbn; assumption). }
  assert (T : forall p, preserves (fun s => position2d s = p)
    (getattr coordsystem ;; getattr coordtime ;; ret tt)).
  { intros p. preserved ltac:(cbn; assumption). }
  unfold bindM at 1. unfold bindM at 1. unfold update at 1.
  cbn [fst snd]. fold s0.
  unfold bindM at 1.
  destruct (parse_position obsloc s0) as [[u|ex] s1] eqn:Ep; cbn [snd].
  - match goal with
    | |- position2d (snd (let (r, s) := ?m s1 in _)) = _ =>
        pose proof (K (position2d s1) s1 eq_refl) as Hk;
        change (position2d (snd (m s1)) = position2d s1) in Hk;
        destruct (m s1) as [[u2|ex2] s2]
    end; cbn [snd] in Hk |- *.
    + rewrite <- Hk. exact (T (position2d s2) s2 eq_refl).
    + exact Hk.
  - reflexivity.
Qed.

(** C7, counterexample: Name1 is "RA", Name2 is "Dec", C1 and C2 are both
    present, and no position is produced: the text of C1 is not a number and
    the extractor raises [ValueError]. *)
Lemma C7_named_and_present_is_not_enough :
  let pos := mkElement "Position2D" [] None
               [leaf "Name1" "RA"; leaf "Name2" "Dec";
                mkElement "Value2" [] None
                  [leaf "C1" "north"; leaf "C2" "2.0"]] in
  let doc := located [mkElement "AstroCoords" [] None [pos]] in
  named_ra_dec pos = true
  /\ find ["Value2"; "C1"] pos = Some (leaf "C1" "north")
  /\ find ["Value2"; "C2"] pos = Some (leaf "C2" "2.0")
  /\ fst (parse None (init doc)) = Raise ValueError
  /\ position2d (snd (parse None (init doc))) = None.
Proof.
  repeat split; vm_compute; reflexivity.
Qed.

(** Whether [parse_position] returns, case by case: the texts are converted
    in the order Error2Radius, C1, C2, and the first that [float] refuses
    stops it. *)
Lemma parse_position_outcome (self : VOEvent) (obsloc pos : Element) :
  find ["AstroCoords"; "Position2D"] obsloc = Some pos ->
  fst (parse_position obsloc self)
  = if named_ra_dec pos then
      match error_radius pos with
      | Raise e => Raise e
      | Ok _ =>
          match find ["Value2"; "C1"] pos, find ["Value2"; "C2"] pos with
          | Some c1, Some c2 =>
              match py_float (of_text (text c1)) with
              | Raise e => Raise e
              | Ok _ =>
                  match py_float (of_text (text c2)) with
                  | Raise e => Raise e
                  | Ok _ => Ok tt
                  end
              end
          | _, _ => Ok tt
          end
      end
    else Ok tt.
Proof.
  intros Hf. unfold parse_position, named_ra_dec, error_radius.
  rewrite Hf.
  destruct (find ["Name1"] pos) as [name1|]; [|reflexivity].
  destruct (find ["Name2"] pos) as [name2|]; [|reflexivity].
  destruct (text_is name1 "RA" && text_is name2 "Dec"); [|reflexivity].
  unfold bindM, lift, ret, update.
  destruct (find ["Error2Radius"] pos) as [e|].
  - destruct (py_float (of_text (text e))) as [f|ex]; cbn [bind];
      [|reflexivity].
    destruct (find ["Value2"; "C1"] pos) as [c1|],
             (find ["Value2"; "C2"] pos) as [c2|]; try reflexivity.
    destruct (py_float (of_text (text c1))) as [r|ex]; [|reflexivity].
    destruct (py_float (of_text (text c2))) as [d|ex]; reflexivity.
  - destruct (find ["Value2"; "C1"] pos) as [c1|],
             (find ["Value2"; "C2"] pos) as [c2|]; try reflexivity.
    destruct (py_float (of_text (text c1))) as [r|ex]; [|reflexivity].
    destruct (py_float (of_text (text c2))) as [d|ex]; reflexivity.
Qed.

(** A failure of the position is the failure of [parse_wherewhen]. *)
Lemma position_failure_aborts (self : VOEvent) (w obsloc : Element)
    (e : exn) :
  findall "WhereWhen" (xmltree self) = [w] ->
  find ["ObsDataLocation"; "ObservationLocation"] w = Some obsloc ->
  fst (parse_position obsloc
         (set_WhereWhen (Some w) (set_wherewhen [] self))) = Raise e ->
  fst (parse_wherewhen self) = Raise e.
Proof.
  intros Hw Ho Hp. unfold parse_wherewhen.
  unfold bindM at 1. unfold read at 1. rewrite Hw.
  unfold bindM at 1. unfold lift at 1. cbn [py_assert py_le_1 List.length
    Nat.leb].
  unfold bindM at 1. unfold update at 1. rewrite Ho.
  unfold bindM at 1. unfold bindM at 1. unfold update at 1.
  cbn [fst snd].
  unfold bindM at 1.
  destruct (parse_position obsloc
              (set_WhereWhen (Some w) (set_wherewhen [] self)))
    as [[[]|ex] s1]; [discriminate|].
  cbn [fst] in Hp. now injection Hp as ->.
Qed.

(** C7, as amended: on an instance without a position, the WhereWhen
    extractor leaves the Position2D [p] exactly when the
    AstroCoords/Position2D subtree has Name1 with text "RA" and Name2 with
    text "Dec", both Value2/C1 and Value2/C2 are present with texts that
    [float] accepts ([p.ra] and [p.dec]), and the Error2Radius, when there
    is one, has such a text too ([p.error]).  When the names match and one
    of these texts is not a number -- that of the Error2Radius, or, C1 and
    C2 being both present, that of C1 or of C2 -- the extractor raises the
    exception of [float] instead, and leaves no position.  With any other
    naming the position stays empty, whatever C1 and C2 hold. *)
Theorem C7_position_iff (self : VOEvent) (w obsloc pos : Element)
    (p : Position2D) :
  findall "WhereWhen" (xmltree self) = [w] ->
  find ["ObsDataLocation"; "ObservationLocation"] w = Some obsloc ->
  find ["AstroCoords"; "Position2D"] obsloc = Some pos ->
  position2d self = None ->
  (position2d (snd (parse_wherewhen self)) = Some p <->
   named_ra_dec pos = true
   /\ error_radius pos = Ok (error p)
   /\ exists c1 c2,
        find ["Value2"; "C1"] pos = Some c1
        /\ find ["Value2"; "C2"] pos = Some c2
        /\ py_float (of_text (text c1)) = Ok (ra p)
        /\ py_float (of_text (text c2)) = Ok (dec p))
  /\ (named_ra_dec pos = true ->
      forall e,
        error_radius pos = Raise e
        \/ (exists err c1 c2,
              error_radius pos = Ok err
              /\ find ["Value2"; "C1"] pos = Some c1
              /\ find ["Value2"; "C2"] pos = Some c2
              /\ (py_float (of_text (text c1)) = Raise e
                  \/ (is_ok (py_float (of_text (text c1))) = true
                      /\ py_float (of_text (text c2)) = Raise e))) ->
        fst (parse_wherewhen self) = Raise e
        /\ position2d (snd (parse_wherewhen self)) = None)
  /\ (named_ra_dec pos = false ->
      position2d (snd (parse_wherewhen self)) = None).
Proof.
  intros Hw Ho Hp Hn.
  pose proof (parse_position_outcome
                (set_WhereWhen (Some w) (set_wherewhen [] self))
                obsloc pos Hp) as Hout.
  pose proof (position_failure_aborts self w obsloc) as Habort.
  specialize (Habort) with (1 := Hw) (2 := Ho).
  rewrite (parse_wherewhen_position self w obsloc Hw Ho).
  rewrite (parse_position_result _ obsloc pos Hp).
  change (position2d (set_WhereWhen (Some w) (set_wherewhen [] self)))
    with (position2d self).
  rewrite Hn. split; [|split].
  - destruct (named_ra_dec pos);
      [|split; [discriminate | intros [H _]; discriminate]].
    destruct (error_radius pos) as [err|ex];
      [|split; [discriminate | intros (_ & H & _); discriminate]].
    destruct (find ["Value2"; "C1"] pos) as [c1|];
      [|split; [discriminate
               | intros (_ & _ & x & y & H & _); discriminate]].
    destruct (find ["Value2"; "C2"] pos) as [c2|];
      [|split; [discriminate
               | intros (_ & _ & x & y & _ & H & _); discriminate]].
    destruct (py_float (of_text (text c1))) as [r|ex1] eqn:E1.
    + destruct (py_float (of_text (text c2))) as [d|ex2] eqn:E2.
      * split.
        -- intros H. injection H as <-. cbn [ra dec error].
           split; [reflexivity|]. split; [reflexivity|].
           exists c1, c2. repeat split; assumption.
        -- intros (_ & He & x & y & Hx & Hy & Hr & Hd).
           injection He as He. injection Hx as <-. injection Hy as <-.
           destruct p as [pr pd pe]. cbn [ra dec error] in *. congruence.
      * split; [discriminate|].
        intros (_ & _ & x & y & Hx & Hy & _ & Hd).
        injection Hx as <-. injection Hy as <-. congruence.
    + split; [discriminate|].
      intros (_ & _ & x & y & Hx & Hy & Hr & _).
      injection Hx as <-. injection Hy as <-. congruence.
  - intros Hnamed e He. rewrite Hnamed in Hout |- *.
    destruct He as [He | (err & c1 & c2 & He & H1 & H2 & Hc)].
    + rewrite He in Hout |- *. split; [now apply Habort|reflexivity].
    + rewrite He, H1, H2 in Hout |- *.
      destruct Hc as [Hc | [Hok Hc]].
      * rewrite Hc in Hout |- *. split; [now apply Habort|reflexivity].
      * destruct (py_float (of_text (text c1))) as [r|ex];
          [|discriminate Hok].
        rewrite Hc in Hout |- *. split; [now apply Habort|reflexivity].
  - intros Hnamed. now rewrite Hnamed.
Qed.

Lemma C7_position_iff_witness :
  let doc := located [astro_coords "RA" "Dec" "1.5" "-2"] in
  let pos := mkElement "Position2D" [] None
               [leaf "Name1" "RA"; leaf "Name2" "Dec";
                mkElement "Value2" [] None
                  [leaf "C1" "1.5"; leaf "C2" "-2"]] in
  let p := mkPosition2D (FDec false 15 (-1)) (FDec true 2 0) None in
  (findall "WhereWhen" (xmltree (init doc))
   = [where_when [astro_coords "RA" "Dec" "1.5" "-2"]]
   /\ find ["ObsDataLocation"; "ObservationLocation"]
        (where_when [astro_coords "RA" "Dec" "1.5" "-2"])
      = Some (mkElement "ObservationLocation" [] None
                [astro_coords "RA" "Dec" "1.5" "-2"])
   /\ find ["AstroCoords"; "Position2D"]
        (mkElement "ObservationLocation" [] None
           [astro_coords "RA" "Dec" "1.5" "-2"]) = Some pos
   /\ position2d (init doc) = None)
  /\ position2d (snd (parse_wherewhen (init doc))) = Some p.
Proof.
  intros doc pos p. split; [repeat split|].
  apply (proj1 (C7_position_iff (init doc)
                  (where_when [astro_coords "RA" "Dec" "1.5" "-2"])
                  (mkElement "ObservationLocation" [] None
                     [astro_coords "RA" "Dec" "1.5" "-2"])
                  pos p eq_refl eq_refl eq_refl eq_refl)).
  split; [reflexivity|]. split; [reflexivity|].
  exists (leaf "C1" "1.5"), (leaf "C2" "-2"). repeat split.
Defined.

(** ** Duplicate sections *)

(** The five extractors that use [findall] refuse a second element. *)
Lemma duplicate_sections_asserted (self : VOEvent) :
  ((2 <= List.length (findall "Who" (xmltree self)))%nat ->
   fst (parse_who self) = Raise AssertionError)
  /\ ((2 <= List.length (findall "What" (xmltree self)))%nat ->
      fst (parse_what self) = Raise AssertionError)
  /\ ((2 <= List.length (findall "WhereWhen" (xmltree self)))%nat ->
      fst (parse_wherewhen self) = Raise AssertionError)
  /\ ((2 <= List.length (findall "How" (xmltree self)))%nat ->
      fst (parse_how self) = Raise AssertionError)
  /\ ((2 <= List.length (findall "Why" (xmltree self)))%nat ->
      fst (parse_why self) = Raise AssertionError).
Proof.
  unfold parse_who, parse_what, parse_wherewhen, parse_how, parse_why.
  repeat split; intros H;
    unfold bindM at 1; unfold read at 1;
    match type of H with
    | (2 <= List.length ?l)%nat =>
        destruct l as [|a [|b l']]; cbn [List.length] in H; try lia
    end; reflexivity.
Qed.

(** C5: a second Citations element is not refused.  [parse_citations]
    takes the first with [find] and makes no count, where [parse_who],
    [parse_what], [parse_wherewhen], [parse_how] and [parse_why] assert
    [len(...) <= 1]; the same holds of Description and Reference.  The
    parse returns normally, with the entries of the first element only. *)
Theorem C5_second_citations_accepted :
  fst (parse None (init twice_cited)) = Ok tt
  /\ citations (snd (parse None (init twice_cited)))
     = Some [(PStr "followup", PStr "ivo://example.org/test#0")]
  /\ fst (parse None (init twice_described)) = Ok tt
  /\ fst (parse None (init twice_how)) = Raise AssertionError.
Proof.
  repeat split; vm_compute; reflexivity.
Qed.

(** ** The ivorn within [parse] *)

(** When [parse] returns, the root has an ivorn that [parse_ivorn] accepts,
    and [self.eventid] is its decomposition as the header check stored
    it. *)
Lemma parse_header_stores_eventid (opts : option (dict string))
    (self self' : VOEvent) :
  parse_header opts self = (Ok tt, self') ->
  exists i id,
    getitem "ivorn" (attrib (xmltree self)) = Ok i
    /\ parse_ivorn i = Ok id
    /\ eventid self' = Some id.
Proof.
  unfold parse_header, bindM, read, lift, update, ret.
  destruct opts as [o|]; cbn [fst snd xmltree] in *;
    destruct (py_assert (root_tag_search _)); try discriminate;
    destruct (getitem "version" _); try discriminate;
    destruct (parse_version _) as [[major minor]|]; try discriminate;
    destruct (py_assert (major =? 2)); try discriminate;
    destruct (getitem "role" _); try discriminate;
    destruct (py_assert (val_in _ _)); try discriminate;
    cbn [xmltree];
    destruct (getitem "ivorn" _) as [i|] eqn:Ei; try discriminate;
    destruct (parse_ivorn i) as [id|] eqn:Eid; try discriminate;
    intros H; injection H as <-; exists i, id; now repeat split.
Qed.

Lemma parse_ok_decomposes_ivorn (opts : option (dict string))
    (self : VOEvent) :
  fst (parse opts self) = Ok tt ->
  exists i id,
    getitem "ivorn" (attrib (xmltree self)) = Ok i /\ parse_ivorn i = Ok id.
Proof.
  unfold parse. unfold bindM at 1.
  destruct (parse_header opts self) as [[[]|ex] s1] eqn:E; [|discriminate].
  intros _. destruct (parse_header_stores_eventid _ _ _ E) as (i & id & H).
  exists i, id. tauto.
Qed.

(** ** The coordinate system within the WhereWhen extractor *)

(** A failure of the coordinate-system check is the failure of
    [parse_wherewhen]. *)
Lemma coord_system_failure_aborts (self : VOEvent) (w obsloc : Element)
    (e : exn) :
  findall "WhereWhen" (xmltree self) = [w] ->
  find ["ObsDataLocation"; "ObservationLocation"] w = Some obsloc ->
  let s0 := set_WhereWhen (Some w) (set_wherewhen [] self) in
  fst (parse_position obsloc s0) = Ok tt ->
  fst (parse_coord_system obsloc (snd (parse_position obsloc s0))) = Raise e ->
  fst (parse_wherewhen self) = Raise e.
Proof.
  intros Hw Ho s0 Hp Hc. unfold parse_wherewhen.
  unfold bindM at 1. unfold read at 1. rewrite Hw.
  unfold bindM at 1. unfold lift at 1. cbn [py_assert py_le_1 List.length
    Nat.leb].
  unfold bindM at 1. unfold update at 1. rewrite Ho.
  unfold bindM at 1. unfold bindM at 1. unfold update at 1.
  cbn [fst snd]. fold s0.
  unfold bindM at 1.
  destruct (parse_position obsloc s0) as [[[]|ex] s1]; [|discriminate].
  cbn [snd] in Hc. unfold bindM at 1.
  destruct (parse_coord_system obsloc s1) as [[v|ex] s2]; [discriminate|].
  cbn [fst] in Hc. now injection Hc as ->.
Qed.

(** * Further properties *)

(** ** What the flattener returns *)

(** X1: in every conversion mode, with or without [parse_root], and whether
    it returns or raises, [xml2python] leaves the tree as it was up to the
    values of attributes: tags, texts, children, the attribute keys and
    their order, and every "value" attribute are as before. *)
Theorem X1_xml2python_touches_attribute_values_only (element : Element)
    (conversion : string) (stripws parse_root : bool) :
  same_shape element
             (snd (xml2python element conversion stripws parse_root)).
Proof.
  apply xml2python_keeps_shape.
Qed.

Lemma parse_element_tag (e : Element) (conversion : string) (stripws : bool)
    (en : entry) :
  fst (parse_element e conversion stripws) = Ok en -> e_tag en = tag e.
Proof.
  unfold parse_element.
  destruct (if truthy (get "value" (attrib e)) then _ else _);
    [|discriminate].
  destruct (convert_attribs conversion (attrib e)) as [[u|ex] a'];
    cbn [fst]; [|discriminate].
  now intros [= <-].
Qed.

Lemma xml2python_data_mirrors (e : Element) (conversion : string)
    (stripws : bool) (data : list node) :
  fst (xml2python_data e conversion stripws) = Ok data ->
  Forall2 mirrors (children e) data.
Proof.
  revert data. induction e as [t a x c IH] using Element_tree_ind.
  cbn [xml2python_data children].
  induction IH as [|child rest Hchild _ IHrest]; intros data.
  - cbn. intros [= <-]. constructor.
  - cbn [xml2python_loop].
    pose proof (parse_element_tag child conversion stripws) as Ht.
    destruct (parse_element child conversion stripws) as [[en|ex] child1];
      [|discriminate].
    specialize (Ht en eq_refl).
    destruct (xml2python_data child conversion stripws) as [[ch|ex] kids2];
      [|discriminate].
    specialize (Hchild ch eq_refl).
    destruct (xml2python_loop _ conversion stripws rest) as [[d|ex] rest'];
      [|discriminate].
    cbn. intros [= <-]. constructor; [|now apply IHrest].
    destruct child as [ct ca cx cc]. now constructor.
Qed.

(** X2: when [xml2python] returns, its output follows the tree: without
    [parse_root] the list holds one node for each child of the element, in
    document order, each with the tag of its child and, recursively, the
    nodes of that child's children; with [parse_root] it is the node of the
    element itself. *)
Theorem X2_xml2python_output_follows_tree (element : Element)
    (conversion : string) (stripws parse_root : bool) (out : output) :
  fst (xml2python element conversion stripws parse_root) = Ok out ->
  match out with
  | Data data => parse_root = false /\ Forall2 mirrors (children element) data
  | Root n => parse_root = true /\ mirrors element n
  end.
Proof.
  unfold xml2python.
  pose proof (xml2python_data_mirrors element conversion stripws) as Hd.
  destruct (xml2python_data element conversion stripws) as [[data|ex] kids];
    [|discriminate].
  specialize (Hd data eq_refl).
  destruct parse_root.
  - pose proof (parse_element_tag (with_children element kids) conversion
                  stripws) as Ht.
    destruct (parse_element (with_children element kids) conversion stripws)
      as [[en|ex] e2]; [|discriminate].
    specialize (Ht en eq_refl). cbn. intros [= <-]. split; [reflexivity|].
    destruct element as [t a x c]. now constructor.
  - cbn. intros [= <-]. now split.
Qed.

Lemma X2_xml2python_output_follows_tree_witness :
  match Data [Node (mkEntry "Param" (PStr "TrigID") None
                      [("name", PStr "TrigID"); ("value", PStr "532871");
                       ("index", PInt 3)] (PInt 532871)) []] with
  | Data data => false = false /\ Forall2 mirrors (children what_trigid) data
  | Root n => false = true /\ mirrors what_trigid n
  end.
Proof.
  apply (X2_xml2python_output_follows_tree what_trigid "force" true false).
  reflexivity.
Defined.

(** ** What the default mode can raise *)

Lemma int_of_string_raises (s : string) (e : exn) :
  int_of_string s = Raise e -> e = ValueError.
Proof.
  unfold int_of_string.
  destruct (negb (underscores_ok false (num_strip s))); [congruence|].
  destruct (read_sign _) as [neg u].
  destruct (read_digits 0 0 u) as [[v n] [|c r]]; [|congruence].
  destruct (n =? 0); [congruence|].
  destruct (int_max_str_digits <? n); congruence.
Qed.

Lemma float_of_string_raises (s : string) (e : exn) :
  float_of_string s = Raise e -> e = ValueError.
Proof.
  unfold float_of_string.
  destruct (negb (underscores_ok false (num_strip s))); [congruence|].
  destruct (read_sign _) as [neg u].
  destruct (str_in (lower u) ["inf"; "infinity"]); [congruence|].
  destruct (String.eqb (lower u) "nan"); [congruence|].
  destruct (read_digits 0 0 u) as [[ip ni] r].
  destruct (match r with
            | String "." r' => read_digits ip 0 r'
            | _ => (ip, 0, r)
            end) as [[m nf] r1].
  destruct (ni + nf =? 0); [congruence|].
  destruct (read_exponent r1) as [ex [|c r2]]; congruence.
Qed.

Lemma strptime_raises (s : string) (e : exn) :
  strptime s = Raise e -> e = ValueError.
Proof.
  unfold strptime.
  destruct (strptime_matches s) as [|[d rest] l]; [congruence|].
  destruct (negb (is_empty rest)); [congruence|].
  destruct (_ && _); congruence.
Qed.

Lemma timedelta_of_seconds_raises (f : pyfloat) (e : exn) :
  timedelta_of_seconds f = Raise e -> e = ValueError \/ e = OverflowError.
Proof.
  unfold timedelta_of_seconds. destruct f as [|neg|neg m ex].
  - intros [= <-]. now left.
  - intros [= <-]. now right.
  - destruct (if Z.of_N m =? 0 then _ else _) as [u|].
    + destruct (Z.abs _ <=? 999999999); [discriminate|].
      intros [= <-]. now right.
    + intros [= <-]. now right.
Qed.

Lemma datetime_add_raises (d : datetime) (us : Z) (e : exn) :
  datetime_add d us = Raise e -> e = OverflowError.
Proof.
  unfold datetime_add. destruct (_ && _); [|congruence].
  destruct (ord2ymd _) as [[y m] dd]. discriminate.
Qed.

(** The timestamp stage returns, or raises [OverflowError]. *)
Lemma convert_timestamp_raises (s : string) (e : exn) :
  convert_timestamp s = Raise e -> e = OverflowError.
Proof.
  unfold convert_timestamp.
  destruct (match unpack2 (split_on "." (Some 1%nat) s) with
            | Ok (d, f) => (d, Some ("0." ++ f)%string)
            | Raise _ => (s, None)
            end) as [date fracsec].
  set (date' := match unpack2 (split_ws_1 s) with
                | Ok (d, t) => (d ++ "T" ++ t)%string
                | Raise _ => date
                end).
  destruct (strptime date') as [d|ex] eqn:Es; cbn [bind].
  - destruct fracsec as [fs|]; [|discriminate].
    destruct (negb (is_empty fs)); [|discriminate].
    destruct (float_of_string fs) as [f|ex] eqn:Ef; cbn [bind].
    + destruct (timedelta_of_seconds f) as [us|ex] eqn:Et; cbn [bind].
      * destruct (datetime_add d us) as [d2|ex] eqn:Ea; cbn [bind];
          [discriminate|].
        pose proof (datetime_add_raises _ _ _ Ea). subst ex.
        now intros [= <-].
      * destruct (timedelta_of_seconds_raises _ _ Et); subst ex;
          [discriminate|now intros [= <-]].
    + pose proof (float_of_string_raises _ _ Ef). subst ex. discriminate.
  - pose proof (strptime_raises _ _ Es). subst ex. discriminate.
Qed.

(** In the default mode, whatever the declared type, a string is converted
    or [OverflowError] is raised: no other exception leaves the chain of
    attempts. *)
Lemma convert_value_force_raises (s : string) (datatype : pyval) (e : exn) :
  convert_value (PStr s) "force" datatype = Raise e -> e = OverflowError.
Proof.
  unfold convert_value.
  change (str_in "force" ["force"; "always"]) with true.
  change (str_in "force" ["always"; "given"]) with false.
  cbn iota. unfold convert_guess, py_lower, py_int, py_float. cbn [bind].
  destruct (str_in (lower s) ["true"; "yes"]); [discriminate|].
  destruct (str_in (lower s) ["false"; "no"]); [discriminate|].
  destruct (int_of_string s) as [z|ex] eqn:Ei; cbn [bind except_ValueError];
    [discriminate|].
  pose proof (int_of_string_raises _ _ Ei). subst ex.
  destruct (float_of_string s) as [f|ex] eqn:Ef; cbn [bind except_ValueError];
    [discriminate|].
  pose proof (float_of_string_raises _ _ Ef). subst ex.
  destruct (convert_timestamp s) as [v|ex] eqn:Et; cbn [bind]; [discriminate|].
  pose proof (convert_timestamp_raises _ _ Et). subst ex.
  now intros [= <-].
Qed.

Lemma convert_value_force_none (datatype : pyval) :
  convert_value PNone "force" datatype = Ok PNone.
Proof. reflexivity. Qed.

Lemma get_of_strings (k : string) (d : dict pyval) :
  forallb (fun kv => is_str (snd kv)) d = true ->
  get k d = PNone \/ exists s, get k d = PStr s.
Proof.
  induction d as [|[k' v] d IH]; cbn [forallb get snd]; [now left|].
  intros H. apply andb_prop in H. destruct H as [Hv Hd].
  destruct (String.eqb k k'); [|now apply IH].
  destruct v; try discriminate. right. now eexists.
Qed.

Lemma convert_attribs_force_raises (items : dict pyval) (e : exn) :
  forallb (fun kv => is_str (snd kv)) items = true ->
  fst (convert_attribs "force" items) = Raise e -> e = OverflowError.
Proof.
  induction items as [|[key val] rest IH]; cbn [forallb convert_attribs snd];
    [discriminate|].
  intros H. apply andb_prop in H. destruct H as [Hv Hr].
  specialize (IH Hr).
  destruct (String.eqb key "value").
  - destruct (convert_attribs "force" rest) as [r rest']. exact IH.
  - destruct val as [|s| | | |]; try discriminate.
    destruct (convert_value (PStr s) "force" PNone) as [v|ex] eqn:Ec.
    + destruct (convert_attribs "force" rest) as [r rest']. exact IH.
    + cbn [fst]. intros [= <-]. exact (convert_value_force_raises _ _ _ Ec).
Qed.

Lemma parse_element_force_raises (e : Element) (stripws : bool) (ex : exn) :
  forallb (fun kv => is_str (snd kv)) (attrib e) = true ->
  fst (parse_element e "force" stripws) = Raise ex -> ex = OverflowError.
Proof.
  intros Ha. unfold parse_element.
  set (tx := match text e with
             | Some s => if is_empty s then None
                         else Some (if stripws then strip s else s)
             | None => None
             end).
  assert (Hval : forall x,
             (if truthy (get "value" (attrib e))
              then convert_value (get "value" (attrib e)) "force"
                                 (get "dataType" (attrib e))
              else if truthy (of_text tx)
                   then convert_value (of_text tx) "force"
                                      (get "dataType" (attrib e))
                   else Ok PNone) = Raise x -> x = OverflowError).
  { intros x.
    destruct (truthy (get "value" (attrib e))).
    - destruct (get_of_strings "value" (attrib e) Ha) as [-> | [s ->]];
        [discriminate|apply convert_value_force_raises].
    - destruct (truthy (of_text tx)); [|discriminate].
      destruct tx as [s|]; [apply convert_value_force_raises|discriminate]. }
  destruct (if truthy (get "value" (attrib e)) then _ else _) as [v|x].
  - pose proof (convert_attribs_force_raises (attrib e) ex Ha) as Hc.
    destruct (convert_attribs "force" (attrib e)) as [[u|x] a'];
      cbn [fst] in *; [discriminate|].
    intros [= <-]. now apply Hc.
  - cbn [fst]. intros [= <-]. now apply Hval.
Qed.

Lemma from_xml_parts (t : string) (a : dict pyval) (x : option string)
    (c : list Element) :
  from_xml (mkElement t a x c) = true ->
  forallb (fun kv => is_str (snd kv)) a = true
  /\ forallb from_xml c = true.
Proof.
  cbn [from_xml]. intros H. apply andb_prop in H. exact H.
Qed.

Lemma xml2python_data_force_raises (e : Element) (stripws : bool) (ex : exn) :
  from_xml e = true ->
  fst (xml2python_data e "force" stripws) = Raise ex -> ex = OverflowError.
Proof.
  induction e as [t a x c IH] using Element_tree_ind.
  intros Hx. apply from_xml_parts in Hx. destruct Hx as [_ Hc].
  cbn [xml2python_data].
  induction IH as [|child rest Hchild _ IHrest]; [discriminate|].
  cbn [forallb] in Hc. apply andb_prop in Hc. destruct Hc as [Hc1 Hc2].
  cbn [xml2python_loop].
  pose proof (parse_element_force_raises child stripws ex) as Hp.
  assert (Ha : forallb (fun kv => is_str (snd kv)) (attrib child) = true).
  { destruct child. now apply from_xml_parts in Hc1. }
  specialize (Hp Ha).
  destruct (parse_element child "force" stripws) as [[en|x1] child1];
    [|cbn [fst] in *; intros [= <-]; now apply Hp].
  specialize (Hchild Hc1).
  destruct (xml2python_data child "force" stripws) as [[ch|x2] kids2];
    [|cbn [fst] in *; intros [= <-]; now apply Hchild].
  specialize (IHrest Hc2).
  destruct (xml2python_loop _ "force" stripws rest) as [[d|x3] rest'];
    [discriminate|cbn [fst bind] in *; intros [= <-]; now apply IHrest].
Qed.

(** X4: in the default mode the only exception is [OverflowError] (a
    timestamp that its fractional seconds carry out of the range of dates).
    [convert_value] raises nothing else on a string, whatever the declared
    type, and [xml2python] raises nothing else on a tree as the XML parser
    builds it (every attribute a string). *)
Theorem X4_default_mode_raises_overflow_only :
  (forall (s : string) (datatype : pyval) (e : exn),
     convert_value (PStr s) "force" datatype = Raise e -> e = OverflowError)
  /\ (forall (element : Element) (stripws parse_root : bool) (e : exn),
        from_xml element = true ->
        fst (xml2python element "force" stripws parse_root) = Raise e ->
        e = OverflowError).
Proof.
  split; [exact convert_value_force_raises|].
  intros element stripws parse_root e Hx. unfold xml2python.
  pose proof (xml2python_data_force_raises element stripws e Hx) as Hd.
  destruct (xml2python_data element "force" stripws) as [[data|x] kids];
    [|cbn [fst] in *; intros [= <-]; now apply Hd].
  destruct parse_root; [|discriminate].
  pose proof (parse_element_force_raises (with_children element kids)
                stripws e) as Hp.
  assert (Ha : forallb (fun kv => is_str (snd kv))
                 (attrib (with_children element kids)) = true).
  { destruct element. now apply from_xml_parts in Hx. }
  specialize (Hp Ha).
  destruct (parse_element (with_children element kids) "force" stripws)
    as [[en|x] e2]; [discriminate|].
  cbn [fst bind] in *. intros [= <-]. now apply Hp.
Qed.

(** ** The WhereWhen element is required *)

Lemma bindM_ok_inv {A B : Type} (m : M A) (k : A -> M B) (self : VOEvent)
    (b : B) :
  fst (bindM m k self) = Ok b ->
  exists a self', m self = (Ok a, self') /\ fst (k a self') = Ok b.
Proof.
  unfold bindM. destruct (m self) as [[a|e] s1]; [|discriminate].
  intros H. now exists a, s1.
Qed.

(** On an instance that has no [coordsystem] attribute yet, the WhereWhen
    extractor returns only when the root has exactly one WhereWhen element
    and that element holds ObsDataLocation/ObservationLocation. *)
Lemma parse_wherewhen_needs_location (self : VOEvent) :
  coordsystem self = None ->
  fst (parse_wherewhen self) = Ok tt ->
  exists w obsloc,
    findall "WhereWhen" (xmltree self) = [w]
    /\ find ["ObsDataLocation"; "ObservationLocation"] w = Some obsloc.
Proof.
  intros Hc. unfold parse_wherewhen.
  unfold bindM at 1. unfold read at 1.
  destruct (findall "WhereWhen" (xmltree self)) as [|w [|w2 l]].
  - destruct self. cbn in Hc. subst. cbn. discriminate.
  - destruct (find ["ObsDataLocation"; "ObservationLocation"] w)
      as [obsloc|] eqn:Eo.
    + intros _. now exists w, obsloc.
    + destruct self. cbn. discriminate.
  - cbn. discriminate.
Qed.

Lemma before_wherewhen_keeps_fresh (tree : Element)
    (opts : option (dict string)) :
  preserves (fun self => coordsystem self = None /\ xmltree self = tree)
            (before_wherewhen opts).
Proof.
  unfold before_wherewhen, parse_header, parse_who, who_set, parse_what,
    parse_what_group.
  preserved ltac:(cbn; assumption).
Qed.

(** X5: on a fresh instance [parse] returns only for a document whose root
    has exactly one WhereWhen element holding
    ObsDataLocation/ObservationLocation.  Without a WhereWhen the closing
    [print] of [parse_wherewhen] reads [self.coordsystem], which nothing
    has assigned; without the location, [obsloc] is [None] and
    [obsloc.find] fails: both raise [AttributeError]. *)
Theorem X5_parse_requires_wherewhen (tree : Element)
    (opts : option (dict string)) :
  fst (parse opts (init tree)) = Ok tt ->
  exists w obsloc,
    findall "WhereWhen" tree = [w]
    /\ find ["ObsDataLocation"; "ObservationLocation"] w = Some obsloc.
Proof.
  intros H.
  assert (E : parse opts (init tree)
              = bindM (before_wherewhen opts)
                  (fun _ => parse_wherewhen ;; after_wherewhen) (init tree)).
  { unfold parse, before_wherewhen, after_wherewhen, bindM.
    destruct (parse_header opts (init tree)) as [[u|e] s0]; [|reflexivity].
    destruct (parse_who s0) as [[u1|e] s1]; [|reflexivity].
    destruct (parse_what s1) as [[u2|e] s2]; reflexivity. }
  rewrite E in H. clear E.
  apply bindM_ok_inv in H. destruct H as ([] & s1 & Hb & H).
  apply bindM_ok_inv in H. destruct H as ([] & s2 & Hw & _).
  pose proof (before_wherewhen_keeps_fresh tree opts (init tree)
                (conj eq_refl eq_refl)) as [Hc Hx].
  rewrite Hb in Hc, Hx. cbn [snd] in Hc, Hx.
  rewrite <- Hx. apply parse_wherewhen_needs_location; [exact Hc|].
  now rewrite Hw.
Qed.

Lemma X5_parse_requires_wherewhen_witness :
  exists w obsloc,
    findall "WhereWhen" (located []) = [w]
    /\ find ["ObsDataLocation"; "ObservationLocation"] w = Some obsloc.
Proof.
  apply (X5_parse_requires_wherewhen (located []) None). reflexivity.
Defined.

(** ** What [parse] has stored when it returns *)

Lemma parse_is_header_then_extractors (opts : option (dict string))
    (self : VOEvent) :
  parse opts self = bindM (parse_header opts) (fun _ => extractors) self.
Proof. reflexivity. Qed.

(** What the checks on the root element established and stored, when they
    pass. *)
Lemma parse_header_post (opts : option (dict string)) (self self' : VOEvent) :
  parse_header opts self = (Ok tt, self') ->
  root_tag_search (tag (xmltree self)) = true
  /\ exists v minor r i id,
       getitem "version" (attrib (xmltree self)) = Ok v
       /\ parse_version v = Ok (2, minor)
       /\ version self' = Some (2, minor)
       /\ getitem "role" (attrib (xmltree self)) = Ok r
       /\ val_in r ["observation"; "prediction"; "utility"; "test"] = true
       /\ role self' = Some r
       /\ getitem "ivorn" (attrib (xmltree self)) = Ok i
       /\ ivorn self' = Some i
       /\ parse_ivorn i = Ok id
       /\ eventid self' = Some id.
Proof.
  unfold parse_header, bindM, read, lift, update, ret.
  destruct opts as [o|]; cbn [fst snd xmltree];
    (destruct (root_tag_search _) eqn:Et; cbn [py_assert]; [|discriminate]);
    (destruct (getitem "version" _) as [v|] eqn:Ev; [|discriminate]);
    (destruct (parse_version v) as [[major minor]|] eqn:Ep; [|discriminate]);
    (destruct (major =? 2) eqn:Em; cbn [py_assert]; [|discriminate]);
    apply Z.eqb_eq in Em; subst major;
    (destruct (getitem "role" _) as [r|] eqn:Er; [|discriminate]);
    (destruct (val_in r _) eqn:Ei; cbn [py_assert]; [|discriminate]);
    cbn [xmltree];
    (destruct (getitem "ivorn" _) as [i|] eqn:Eiv; [|discriminate]);
    (destruct (parse_ivorn i) as [id|] eqn:Eid; [|discriminate]);
    intros [= <-]; (split; [reflexivity|]);
    exists v, minor, r, i, id; cbn; repeat split; assumption.
Qed.

Lemma extractors_keep_header (V : option (Z * Z)) (R I : option pyval)
    (ID : option EventId) :
  preserves (fun self => version self = V /\ role self = R
                         /\ ivorn self = I /\ eventid self = ID)
            extractors.
Proof.
  unfold extractors, parse_who, who_set, parse_what, parse_what_group,
    parse_wherewhen, parse_position, parse_coord_system, parse_how, parse_why,
    why_set, parse_citations, parse_citation, parse_description,
    parse_reference.
  preserved ltac:(cbn; assumption).
Qed.

(** X6: whenever [parse] returns, the root tag matched the VOEvent pattern
    and the instance holds what the checks derived from the root's
    attributes: [version] with major 2 (and the minor of the attribute, 0
    when it has one component), [role] one of the four roles, [ivorn], and
    [eventid] the decomposition of the ivorn.  No extractor overwrites
    them. *)
Theorem X6_parse_postcondition (opts : option (dict string))
    (self : VOEvent) :
  fst (parse opts self) = Ok tt ->
  let self' := snd (parse opts self) in
  root_tag_search (tag (xmltree self)) = true
  /\ exists v minor r i id,
       getitem "version" (attrib (xmltree self)) = Ok v
       /\ parse_version v = Ok (2, minor)
       /\ version self' = Some (2, minor)
       /\ getitem "role" (attrib (xmltree self)) = Ok r
       /\ val_in r ["observation"; "prediction"; "utility"; "test"] = true
       /\ role self' = Some r
       /\ getitem "ivorn" (attrib (xmltree self)) = Ok i
       /\ ivorn self' = Some i
       /\ parse_ivorn i = Ok id
       /\ eventid self' = Some id.
Proof.
  rewrite parse_is_header_then_extractors. intros H self'.
  pose proof H as H0.
  apply bindM_ok_inv in H0. destruct H0 as ([] & s1 & Hh & He).
  destruct (parse_header_post _ _ _ Hh)
    as (Ht & v & minor & r & i & id & Hv & Hp & Hv' & Hr & Hi & Hr' & Hiv
        & Hiv' & Hid & Hid').
  split; [exact Ht|]. exists v, minor, r, i, id.
  pose proof (extractors_keep_header _ _ _ _ s1
                (conj Hv' (conj Hr' (conj Hiv' Hid')))) as (K1 & K2 & K3 & K4).
  assert (Es : self' = snd (extractors s1)).
  { subst self'. unfold bindM. now rewrite Hh. }
  rewrite Es. repeat split; assumption.
Qed.

Lemma X6_parse_postcondition_witness :
  let self' := snd (parse None (init (located []))) in
  root_tag_search (tag (xmltree (init (located [])))) = true
  /\ exists v minor r i id,
       getitem "version" (attrib (xmltree (init (located [])))) = Ok v
       /\ parse_version v = Ok (2, minor)
       /\ version self' = Some (2, minor)
       /\ getitem "role" (attrib (xmltree (init (located [])))) = Ok r
       /\ val_in r ["observation"; "prediction"; "utility"; "test"] = true
       /\ role self' = Some r
       /\ getitem "ivorn" (attrib (xmltree (init (located [])))) = Ok i
       /\ ivorn self' = Some i
       /\ parse_ivorn i = Ok id
       /\ eventid self' = Some id.
Proof.
  apply (X6_parse_postcondition None (init (located []))). reflexivity.
Defined.

(** ** The order of the checks on the root element *)

(** When a check on the root fails, [parse] ends there, with the instance
    as the checks left it. *)
Lemma parse_header_failure_state (opts : option (dict string))
    (self s : VOEvent) (e : exn) :
  parse_header opts self = (Raise e, s) -> parse opts self = (Raise e, s).
Proof.
  rewrite parse_is_header_then_extractors. unfold bindM.
  now intros ->.
Qed.

(** The root element, as the checks read it after the options were
    stored. *)
Lemma xmltree_set_options (o : option (dict string)) (self : VOEvent) :
  xmltree (set_options o self) = xmltree self.
Proof. reflexivity. Qed.

Ltac header_steps :=
  unfold parse_header, bindM, read, lift, update, ret;
  match goal with
  | |- context [match ?o with Some _ => _ | None => _ end] => destruct o
  end;
  cbn [fst snd]; rewrite ?xmltree_set_options.

(** X7: [parse] checks the root element in a fixed order and stops at the
    first defect, before any extractor runs: [AssertionError] for a tag
    without the VOEvent pattern, then [KeyError] for a missing "version",
    [AssertionError] for a major version other than 2, [KeyError] for a
    missing "role", [AssertionError] for a role outside the four, [KeyError]
    for a missing "ivorn".  In each case the instance is left as it was,
    but for what the checks passed so far have assigned: the default
    options when none were given, then [version], then [role]; nothing an
    extractor assigns has changed. *)
Theorem X7_parse_checks_in_order (opts : option (dict string))
    (self : VOEvent) :
  let root := xmltree self in
  let stored :=
    match opts with
    | None => set_options (Some [("conversion", "force")]) self
    | Some _ => self
    end in
  (root_tag_search (tag root) = false ->
   parse opts self = (Raise AssertionError, stored))
  /\ (root_tag_search (tag root) = true ->
      (forall e, getitem "version" (attrib root) = Raise e ->
                 parse opts self = (Raise KeyError, stored))
      /\ (forall v major minor,
            getitem "version" (attrib root) = Ok v ->
            parse_version v = Ok (major, minor) ->
            (major <> 2 ->
             parse opts self = (Raise AssertionError, stored))
            /\ (major = 2 ->
                (forall e, getitem "role" (attrib root) = Raise e ->
                           parse opts self
                           = (Raise KeyError,
                              set_version (Some (2, minor)) stored))
                /\ (forall r,
                      getitem "role" (attrib root) = Ok r ->
                      (val_in r ["observation"; "prediction"; "utility";
                                 "test"] = false ->
                       parse opts self
                       = (Raise AssertionError,
                          set_role (Some r)
                            (set_version (Some (2, minor)) stored)))
                      /\ (val_in r ["observation"; "prediction"; "utility";
                                    "test"] = true ->
                          forall e,
                            getitem "ivorn" (attrib root) = Raise e ->
                            parse opts self
                            = (Raise KeyError,
                               set_role (Some r)
                                 (set_version (Some (2, minor))
                                    stored))))))).
Proof.
  intros root stored. subst root stored. split; [|intros Ht; split].
  - intros Ht. apply parse_header_failure_state. header_steps;
      now rewrite Ht.
  - intros e He. apply parse_header_failure_state.
    rewrite (getitem_raises_KeyError _ _ _ He) in He.
    header_steps; now rewrite Ht, He.
  - intros v major minor Hv Hp. split.
    + intros Hm. apply Z.eqb_neq in Hm. apply parse_header_failure_state.
      header_steps; now rewrite Ht, Hv, Hp, Hm.
    + intros ->. split.
      * intros e He. apply parse_header_failure_state.
        rewrite (getitem_raises_KeyError _ _ _ He) in He.
        header_steps; now rewrite Ht, Hv, Hp, He.
      * intros r Hr. split.
        -- intros Hi. apply parse_header_failure_state.
           header_steps; rewrite Ht, Hv, Hp;
             cbn [Z.eqb Pos.eqb py_assert fst snd]; now rewrite Hr, Hi.
        -- intros Hi e He. apply parse_header_failure_state.
           rewrite (getitem_raises_KeyError _ _ _ He) in He.
           header_steps; rewrite Ht, Hv, Hp;
             cbn [Z.eqb Pos.eqb py_assert fst snd]; rewrite Hr, Hi;
             cbn [py_assert fst snd]; now rewrite He.
Qed.

(** ** The root tag is searched, not matched in full *)

Lemma drop_prefix_app (p s r post : string) :
  drop_prefix p s = Some r ->
  drop_prefix p (s ++ post) = Some (r ++ post)%string.
Proof.
  revert s. induction p as [|a p IH]; intros s; cbn [drop_prefix].
  - now intros [= <-].
  - destruct s as [|b s]; [discriminate|]. cbn [String.append drop_prefix].
    destruct (Ascii.eqb a b); [apply IH|discriminate].
Qed.

Lemma starts_with_app (p s post : string) :
  starts_with p s = true -> starts_with p (s ++ post) = true.
Proof.
  unfold starts_with. destruct (drop_prefix p s) as [r|] eqn:E;
    [|discriminate].
  now rewrite (drop_prefix_app _ _ _ post E).
Qed.

Lemma dot_digit_app (s r post : string) :
  dot_digit s = Some r -> dot_digit (s ++ post) = Some (r ++ post)%string.
Proof.
  destruct s as [|a [|d s]]; try discriminate.
  - cbn [dot_digit]. destruct a as [[] [] [] [] [] [] [] []]; discriminate.
  - cbn [String.append].
    unfold dot_digit at 1. unfold dot_digit.
    destruct a as [[] [] [] [] [] [] [] []]; try discriminate.
    destruct (is_digit d); [|discriminate]. now intros [= <-].
Qed.

Lemma version_tail_app (s post : string) :
  version_tail s = true -> version_tail (s ++ post) = true.
Proof.
  unfold version_tail.
  destruct (dot_digit s) as [s1|] eqn:E1.
  - rewrite (dot_digit_app _ _ post E1).
    destruct (dot_digit s1) as [s2|] eqn:E2.
    + rewrite (dot_digit_app _ _ post E2). intros H.
      apply orb_prop in H. destruct H as [H|H].
      * apply orb_prop in H. destruct H as [H|H];
          apply (starts_with_app _ _ post) in H; rewrite H;
          now rewrite ?orb_true_r.
      * apply (starts_with_app _ _ post) in H. rewrite H.
        now rewrite ?orb_true_r.
    + intros H.
      assert (H' : starts_with "}VOEvent" (s1 ++ post)
                   || starts_with "}VOEvent" (s ++ post) = true).
      { apply orb_prop in H. destruct H as [H|H];
          apply (starts_with_app _ _ post) in H; rewrite H;
          now rewrite ?orb_true_r. }
      destruct (dot_digit (s1 ++ post)); [|exact H'].
      apply orb_prop in H'. destruct H' as [H'|H']; rewrite H';
        now rewrite ?orb_true_r.
  - intros H. pose proof (starts_with_app _ _ post H) as H'.
    destruct (dot_digit (s ++ post)) as [x|]; [|exact H'].
    destruct (dot_digit x); rewrite H'; now rewrite ?orb_true_r.
Qed.

Lemma root_tag_at_app (s post : string) :
  root_tag_at s = true -> root_tag_at (s ++ post) = true.
Proof.
  unfold root_tag_at.
  destruct (drop_prefix "{http://www.ivoa.net/xml/VOEvent/v" s)
    as [[|d r]|] eqn:E; try discriminate.
  rewrite (drop_prefix_app _ _ _ post E). cbn [String.append].
  intros H. apply andb_prop in H. destruct H as [Hd Hv].
  now rewrite Hd, (version_tail_app _ post Hv).
Qed.

(** X8: the check of the root tag is a search: a tag that is accepted stays
    accepted with any text before and after it.  Nothing requires the
    pattern to begin or to end the tag. *)
Theorem X8_root_tag_is_searched (pre s post : string) :
  root_tag_search s = true ->
  root_tag_search (pre ++ s ++ post) = true.
Proof.
  intros H.
  assert (Hp : root_tag_search (s ++ post) = true).
  { induction s as [|a s IH].
    - discriminate.
    - cbn [root_tag_search] in H. cbn [String.append root_tag_search].
      apply orb_prop in H. destruct H as [H|H].
      + change (String a (s ++ post)) with (String a s ++ post)%string.
        now rewrite (root_tag_at_app _ post H).
      + rewrite (IH H). apply orb_true_r. }
  induction pre as [|a pre IH]; [exact Hp|].
  cbn [String.append root_tag_search]. rewrite IH. apply orb_true_r.
Qed.

Lemma X8_root_tag_is_searched_witness :
  root_tag_search
    ("xmlns:" ++ "{http://www.ivoa.net/xml/VOEvent/v2.0}VOEvent" ++ "s")
  = true.
Proof.
  apply (X8_root_tag_is_searched "xmlns:"
           "{http://www.ivoa.net/xml/VOEvent/v2.0}VOEvent" "s").
  reflexivity.
Defined.

(** ** The What extractor *)

Lemma what_loop_named (conversion : string) (els : list Element) :
  Forall (fun el => is_ok (what_group_of conversion el) = true ->
                    all_named el = true) els ->
  forall what,
    is_ok (what_loop (what_group_of conversion) conversion els what) = true ->
    forallb
      (fun el =>
         if is_what_child el
         then is_ok (getitem "name" (attrib el))
              && (if String.eqb (tag el) "Param" then true else all_named el)
         else true)
      els = true.
Proof.
  induction 1 as [|el rest Hel _ IH]; intros what; [reflexivity|].
  cbn [what_loop forallb]. unfold is_what_child at 1.
  destruct (str_in (tag el) ["Param"; "Group"]); cbn [negb];
    [|intros H; now rewrite (IH _ H)].
  destruct (getitem "name" (attrib el)) as [name|ex]; cbn [bind is_ok];
    [|discriminate].
  destruct (String.eqb (tag el) "Param").
  - destruct (convert_value _ conversion _) as [v|ex]; cbn [bind];
      [|discriminate].
    intros H. now rewrite (IH _ H).
  - destruct (what_group_of conversion el) as [sub|ex] eqn:Es; cbn [bind];
      [|discriminate].
    intros H. rewrite (Hel eq_refl). now rewrite (IH _ H).
Qed.

(** X9: the What extractor returns only when every Param and every Group
    it walks through -- the children of the What element and, through
    Groups, their descendants -- has a "name" attribute; one of them
    without a name fails the extraction ([el.attrib['name']] at
    line 335). *)
Theorem X9_what_requires_names (conversion : string) (group : Element) :
  all_named group = false ->
  is_ok (what_group_of conversion group) = false.
Proof.
  intros Hn.
  destruct (is_ok (what_group_of conversion group)) eqn:E; [|reflexivity].
  exfalso. revert E Hn.
  induction group as [t a x c IH] using Element_tree_ind.
  cbn [what_group_of all_named]. intros E Hn.
  assert (F : Forall (fun el => is_ok (what_group_of conversion el) = true ->
                                all_named el = true) c).
  { rewrite Forall_forall in IH |- *. intros el Hin Hok.
    destruct (all_named el) eqn:Ea; [reflexivity|].
    exfalso. exact (IH el Hin Hok Ea). }
  rewrite (what_loop_named conversion c F [] E) in Hn. discriminate.
Qed.

Lemma X9_what_requires_names_witness :
  is_ok (what_group_of "force"
           (mkElement "What" [] None
              [mkElement "Group" [("name", PStr "g")] None
                 [mkElement "Param" [("value", PStr "1")] None []]]))
  = false.
Proof.
  apply (X9_what_requires_names "force"
           (mkElement "What" [] None
              [mkElement "Group" [("name", PStr "g")] None
                 [mkElement "Param" [("value", PStr "1")] None []]])).
  reflexivity.
Defined.

Lemma what_loop_filter (recur : Element -> result what_dict)
    (conversion : string) (els : list Element) (what : what_dict) :
  what_loop recur conversion (filter is_what_child els) what
  = what_loop recur conversion els what.
Proof.
  revert what. induction els as [|el rest IH]; intros what; [reflexivity|].
  cbn [filter what_loop]. unfold is_what_child at 1.
  destruct (str_in (tag el) ["Param"; "Group"]) eqn:E; cbn [negb];
    [|apply IH].
  cbn [what_loop]. rewrite E. cbn [negb].
  destruct (getitem "name" (attrib el)) as [name|ex]; cbn [bind];
    [|reflexivity].
  destruct (String.eqb (tag el) "Param").
  - destruct (convert_value _ conversion _); cbn [bind];
      [apply IH|reflexivity].
  - destruct (recur el); cbn [bind]; [apply IH|reflexivity].
Qed.

(** X10: the What extractor ignores what it does not know: the result for
    a group is the result for its Param and Group children alone, in their
    order -- children with any other tag, and the tag, attributes and text
    of the group itself, play no part. *)
Theorem X10_what_ignores_other_children (conversion : string)
    (t t' : string) (a a' : dict pyval) (x x' : option string)
    (kids : list Element) :
  what_group_of conversion (mkElement t a x kids)
  = what_group_of conversion
      (mkElement t' a' x' (filter is_what_child kids)).
Proof.
  cbn [what_group_of]. now rewrite what_loop_filter.
Qed.

(** ** The Citations extractor *)

Lemma parse_citation_ok (cit : Element) (self : VOEvent)
    (acc : list (pyval * pyval)) :
  citations self = Some acc ->
  fst (parse_citation cit self) = Ok tt ->
  exists entry,
    parse_citation cit self
    = (Ok tt, set_citations (Some (acc ++ [entry])) self)
    /\ cites cit entry.
Proof.
  intros Hc. unfold parse_citation, cites.
  destruct (String.eqb (tag cit) "EventIVORN") eqn:Et.
  - apply String.eqb_eq in Et.
    destruct (get "cite" (attrib cit)) as [|s|b|z|f|d] eqn:Eg;
      try discriminate;
      (destruct (val_in _ ["followup"; "supersedes"; "retraction"]) eqn:Ev;
       cbn [negb]; [|discriminate]);
      intros _; eexists; unfold bindM, getattr, update; rewrite Hc;
      (split; [reflexivity|]); cbn [fst snd]; split; try reflexivity;
      left; now repeat split.
  - destruct (String.eqb (tag cit) "Description") eqn:Ed; [|discriminate].
    apply String.eqb_eq in Ed.
    intros _. eexists. unfold bindM, getattr, update. rewrite Hc.
    split; [reflexivity|]. cbn [fst snd]. split; [reflexivity|].
    right. now split.
Qed.

Lemma for_each_citations (cs : list Element) :
  forall (self : VOEvent) (acc : list (pyval * pyval)),
    citations self = Some acc ->
    fst (for_each cs parse_citation self) = Ok tt ->
    exists l,
      citations (snd (for_each cs parse_citation self)) = Some (acc ++ l)
      /\ Forall2 cites cs l.
Proof.
  induction cs as [|cit rest IH]; intros self acc Hc H.
  - exists []. cbn. rewrite app_nil_r. now split.
  - cbn [for_each] in *.
    destruct (bindM_ok_inv _ _ _ _ H) as ([] & s1 & H1 & H2).
    destruct (parse_citation_ok cit self acc Hc) as (entry & E & Hcite).
    { now rewrite H1. }
    rewrite E in H1. injection H1 as <-.
    unfold bindM. rewrite E.
    destruct (IH (set_citations (Some (acc ++ [entry])) self)
                 (acc ++ [entry]) eq_refl H2) as (l & Hl & Hf).
    exists (entry :: l). rewrite Hl, <- app_assoc. split; [reflexivity|].
    now constructor.
Qed.

(** The extractor, once it has found the first Citations element. *)
Lemma parse_citations_found (self : VOEvent) (c : Element) :
  find ["Citations"] (xmltree self) = Some c ->
  parse_citations self
  = if has_children c
    then for_each (children c) parse_citation
           (set_citations (Some []) (set_Citations (Some c) self))
    else (Ok tt, set_citations (Some []) (set_Citations None self)).
Proof.
  intros Hf. unfold parse_citations, bindM, read, update.
  rewrite Hf. cbn [fst snd]. destruct (has_children c); reflexivity.
Qed.

(** X11: when the Citations extractor returns, [self.citations] holds one
    pair for each child of the first Citations element of the root, in
    document order: the child's text, under its "cite" attribute for an
    EventIVORN (followup, supersedes or retraction) and under "description"
    for a Description.  An element without children gives the empty
    list. *)
Theorem X11_citations_in_document_order (self : VOEvent) (c : Element) :
  find ["Citations"] (xmltree self) = Some c ->
  fst (parse_citations self) = Ok tt ->
  exists l,
    citations (snd (parse_citations self)) = Some l
    /\ Forall2 cites (children c) l.
Proof.
  intros Hf. rewrite (parse_citations_found self c Hf).
  unfold has_children. destruct (children c) as [|k ks] eqn:Ek.
  - intros _. exists []. split; [reflexivity|constructor].
  - intros H.
    destruct (for_each_citations (k :: ks)
                (set_citations (Some []) (set_Citations (Some c) self)) []
                eq_refl H) as (l & Hl & F).
    exists l. now split.
Qed.

Lemma X11_citations_in_document_order_witness :
  exists l,
    citations (snd (parse_citations (init twice_cited))) = Some l
    /\ Forall2 cites (children (citations_of "followup")) l.
Proof.
  apply (X11_citations_in_document_order (init twice_cited)
           (citations_of "followup")); reflexivity.
Defined.

Lemma parse_citation_invalid (cit : Element) (self : VOEvent) :
  valid_citation cit = false ->
  fst (parse_citation cit self) = Raise ValueError.
Proof.
  unfold valid_citation, parse_citation.
  destruct (String.eqb (tag cit) "EventIVORN"); cbn [andb orb].
  - destruct (get "cite" (attrib cit)); try reflexivity;
      intros H; apply orb_false_elim in H; destruct H as [-> _];
      reflexivity.
  - now intros ->.
Qed.

Lemma parse_citation_valid (cit : Element) (self : VOEvent)
    (acc : list (pyval * pyval)) :
  citations self = Some acc ->
  valid_citation cit = true ->
  exists entry,
    parse_citation cit self
    = (Ok tt, set_citations (Some (acc ++ [entry])) self).
Proof.
  intros Hc Hv.
  assert (E : fst (parse_citation cit self) = Ok tt).
  { unfold parse_citation, valid_citation in *.
    destruct (String.eqb (tag cit) "EventIVORN") eqn:Et; cbn [andb orb] in Hv.
    - assert (Hv' : val_in (get "cite" (attrib cit))
                      ["followup"; "supersedes"; "retraction"] = true).
      { apply orb_prop in Hv. destruct Hv as [Hv|Hv]; [exact Hv|].
        apply String.eqb_eq in Et. apply String.eqb_eq in Hv. congruence. }
      rewrite Hv'.
      destruct (get "cite" (attrib cit)); try discriminate;
        cbn [negb]; unfold bindM, getattr, update; now rewrite Hc.
    - rewrite Hv. unfold bindM, getattr, update. now rewrite Hc. }
  destruct (parse_citation_ok cit self acc Hc E) as (entry & H & _).
  now exists entry.
Qed.

Lemma for_each_citations_invalid (good : list Element) :
  forall (self : VOEvent) (acc : list (pyval * pyval)) (bad : Element)
         (rest : list Element),
    citations self = Some acc ->
    forallb valid_citation good = true ->
    valid_citation bad = false ->
    fst (for_each (good ++ bad :: rest) parse_citation self)
    = Raise ValueError.
Proof.
  induction good as [|g good IH]; intros self acc bad rest Hc Hg Hb.
  - cbn [app for_each]. unfold bindM.
    pose proof (parse_citation_invalid bad self Hb) as H.
    destruct (parse_citation bad self) as [[u|ex] s1]; [discriminate|].
    exact H.
  - cbn [forallb] in Hg. apply andb_prop in Hg. destruct Hg as [Hg1 Hg2].
    cbn [app for_each]. unfold bindM at 1.
    destruct (parse_citation_valid g self acc Hc Hg1) as (entry & ->).
    now apply (IH _ (acc ++ [entry])).
Qed.

(** X12: the Citations extractor raises [ValueError] at the first child
    that is neither a Description nor an EventIVORN with a "cite" of
    followup, supersedes or retraction -- any other tag, a missing "cite",
    any other kind. *)
Theorem X12_invalid_citation_raises (self : VOEvent) (c bad : Element)
    (good rest : list Element) :
  find ["Citations"] (xmltree self) = Some c ->
  children c = good ++ bad :: rest ->
  forallb valid_citation good = true ->
  valid_citation bad = false ->
  fst (parse_citations self) = Raise ValueError.
Proof.
  intros Hf Hk Hg Hb. rewrite (parse_citations_found self c Hf).
  unfold has_children. rewrite Hk.
  destruct (good ++ bad :: rest) as [|k ks] eqn:E;
    [now destruct good|].
  rewrite <- E.
  now apply (for_each_citations_invalid good
               (set_citations (Some []) (set_Citations (Some c) self)) []).
Qed.

Lemma X12_invalid_citation_raises_witness :
  fst (parse_citations
         (init (voevent "test"
                  [mkElement "Citations" [] None
                     [leaf "Description" "see also";
                      mkElement "EventIVORN" [("cite", PStr "duplicate")]
                                (Some "ivo://example.org/test#0") []]])))
  = Raise ValueError.
Proof.
  apply (X12_invalid_citation_raises _
           (mkElement "Citations" [] None
              [leaf "Description" "see also";
               mkElement "EventIVORN" [("cite", PStr "duplicate")]
                         (Some "ivo://example.org/test#0") []])
           (mkElement "EventIVORN" [("cite", PStr "duplicate")]
                      (Some "ivo://example.org/test#0") [])
           [leaf "Description" "see also"] []); reflexivity.
Defined.

(** ** The Who extractor *)

Lemma forallb_setitem {V : Type} (Q : string * V -> bool) (k : string) (v : V)
    (d : dict V) :
  (forall k', String.eqb k k' = true -> Q (k', v) = true) ->
  forallb Q d = true -> forallb Q (setitem k v d) = true.
Proof.
  intros Hq. induction d as [|[k' v'] d IH]; cbn [setitem forallb].
  - intros _. rewrite Hq; [reflexivity|apply String.eqb_refl].
  - intros H. apply andb_prop in H. destruct H as [H1 H2].
    destruct (String.eqb k k') eqn:E; cbn [forallb].
    + now rewrite (Hq k' E), H2.
    + now rewrite H1, (IH H2).
Qed.

Lemma of_text_is_text (t : option string) : is_text (OVal (of_text t)) = true.
Proof. now destruct t. Qed.

Lemma author_of_ok (grandchildren : list Element) (author : dict obj) :
  author_ok author = true ->
  author_ok (author_of grandchildren author) = true.
Proof.
  revert author.
  induction grandchildren as [|g rest IH]; intros author Ha; [exact Ha|].
  cbn [author_of fold_left]. apply IH.
  repeat match goal with
         | |- context [if String.eqb (tag g) ?k then _ else _] =>
             destruct (String.eqb (tag g) k)
         end;
    repeat (apply forallb_setitem;
            [intros k' Hk; apply String.eqb_eq in Hk; subst k';
             cbn [fst snd str_in existsb String.eqb Ascii.eqb Bool.eqb
                  andb orb];
             apply of_text_is_text|]);
    exact Ha.
Qed.

(** X13: whether it returns or raises, the Who extractor leaves in
    [self.who] nothing but texts under "description", "ivorn" and
    "reference", a converted value under "date", and under "author" a dict
    of texts over the output keys title, short, logo, name, email, phone
    and contributor -- provided the root has at most one Who element (with
    more, the assertion fails before [self.who] is touched). *)
Theorem X13_who_dict_shape (self : VOEvent) :
  (List.length (findall "Who" (xmltree self)) <= 1)%nat ->
  who_ok (who (snd (parse_who self))) = true.
Proof.
  intros Hn. unfold parse_who.
  unfold bindM at 1. unfold read at 1. cbn [fst snd].
  assert (Ha : py_assert (py_le_1 (findall "Who" (xmltree self))) = Ok tt).
  { unfold py_le_1. apply Nat.leb_le in Hn. now rewrite Hn. }
  unfold bindM at 1. unfold lift at 1. rewrite Ha.
  unfold bindM at 1. unfold update at 1.
  set (s0 := set_who [] self).
  assert (P0 : who_ok (who s0) = true) by reflexivity.
  revert P0. generalize s0. clear s0.
  change (preserves (fun s => who_ok (who s) = true)
            match findall "Who" (xmltree self) with
            | [] => ret tt
            | w :: _ =>
                update (set_Who (Some w));;
                for_each (children w)
                  (fun child =>
                   if String.eqb (tag child) "Description"
                   then who_set "description" (OVal (of_text (text child)))
                   else
                    if String.eqb (tag child) "AuthorIVORN"
                    then who_set "ivorn" (OVal (of_text (text child)))
                    else
                     if String.eqb (tag child) "Date"
                     then
                      v <- lift (convert_value (of_text (text child))
                                               "force" PNone);;
                      who_set "date" (OVal v)
                     else
                      if String.eqb (tag child) "Reference"
                      then who_set "reference" (OVal (of_text (text child)))
                      else
                       if String.eqb (tag child) "Author"
                       then who_set "author"
                              (ODict (author_of (children child) []))
                       else ret tt)
            end).
  unfold who_set.
  preserved ltac:(
    cbn [who set_who set_Who];
    first
      [ assumption
      | apply forallb_setitem;
        [intros k' Hk; apply String.eqb_eq in Hk; subst k';
         cbn [fst snd str_in existsb String.eqb Ascii.eqb Bool.eqb andb orb];
         rewrite ?of_text_is_text, ?author_of_ok by reflexivity; reflexivity
        |assumption] ]).
Qed.

Lemma X13_who_dict_shape_witness :
  who_ok
    (who (snd (parse_who
                 (init (voevent "test"
                          [mkElement "Who" [] None
                             [leaf "AuthorIVORN" "ivo://example.org";
                              leaf "Date" "2020-01-02T03:04:05";
                              mkElement "Author" [] None
                                [leaf "shortName" "EX";
                                 leaf "contactEmail" "a@b.c"]]])))))
  = true.
Proof.
  apply (X13_who_dict_shape
           (init (voevent "test"
                    [mkElement "Who" [] None
                       [leaf "AuthorIVORN" "ivo://example.org";
                        leaf "Date" "2020-01-02T03:04:05";
                        mkElement "Author" [] None
                          [leaf "shortName" "EX";
                           leaf "contactEmail" "a@b.c"]]]))).
  vm_compute. lia.
Defined.

(** X14: [parse_who], [parse_what], [parse_wherewhen], [parse_how] and
    [parse_why] each raise [AssertionError] when the root has two or more
    elements of their section, before they extract anything. *)
Theorem X14_duplicate_section_asserted (self : VOEvent) :
  ((2 <= List.length (findall "Who" (xmltree self)))%nat ->
   parse_who self = (Raise AssertionError, self))
  /\ ((2 <= List.length (findall "What" (xmltree self)))%nat ->
      parse_what self = (Raise AssertionError, self))
  /\ ((2 <= List.length (findall "WhereWhen" (xmltree self)))%nat ->
      parse_wherewhen self = (Raise AssertionError, self))
  /\ ((2 <= List.length (findall "How" (xmltree self)))%nat ->
      parse_how self = (Raise AssertionError, self))
  /\ ((2 <= List.length (findall "Why" (xmltree self)))%nat ->
      parse_why self = (Raise AssertionError, self)).
Proof.
  unfold parse_who, parse_what, parse_wherewhen, parse_how, parse_why.
  repeat split; intros H;
    unfold bindM at 1; unfold read at 1;
    match type of H with
    | (2 <= List.length ?l)%nat =>
        destruct l as [|a [|b l']]; cbn [List.length] in H; try lia
    end; reflexivity.
Qed.

(** ** Integers written by [str] are read back *)

Lemma num_rstrip_clean (s : string) :
  all_chars (fun c => negb (is_num_space c)) s = true -> num_rstrip s = s.
Proof.
  induction s as [|c s IH]; [reflexivity|]. cbn [all_chars num_rstrip].
  intros H. apply andb_prop in H. destruct H as [Hc Hs].
  rewrite (IH Hs). destruct s; [|reflexivity].
  apply negb_true_iff in Hc. now rewrite Hc.
Qed.

Lemma num_strip_clean (s : string) :
  all_chars (fun c => negb (is_num_space c)) s = true -> num_strip s = s.
Proof.
  intros H. unfold num_strip.
  assert (E : num_lstrip s = s).
  { destruct s as [|c s]; [reflexivity|]. cbn [all_chars num_lstrip] in *.
    apply andb_prop in H. destruct H as [Hc _].
    apply negb_true_iff in Hc. now rewrite Hc. }
  rewrite E. now apply num_rstrip_clean.
Qed.

Lemma underscores_clean (s : string) :
  all_chars (fun c => negb (Ascii.eqb c "_")) s = true ->
  (forall b, underscores_ok b s = true) /\ remove_underscores s = s.
Proof.
  induction s as [|c s IH]; [now split|].
  cbn [all_chars underscores_ok remove_underscores].
  intros H. apply andb_prop in H. destruct H as [Hc Hs].
  apply negb_true_iff in Hc. rewrite Hc.
  destruct (IH Hs) as [IH1 IH2]. split; [intros b; apply IH1|].
  now rewrite IH2.
Qed.

Lemma all_chars_weaken (P Q : ascii -> bool) (s : string) :
  (forall c, P c = true -> Q c = true) ->
  all_chars P s = true -> all_chars Q s = true.
Proof.
  intros HPQ. induction s as [|c s IH]; [reflexivity|]. cbn [all_chars].
  intros H. apply andb_prop in H. destruct H as [Hc Hs].
  now rewrite (HPQ c Hc), (IH Hs).
Qed.

(** The character of a decimal digit. *)
Lemma digit_char (d : Z) :
  0 <= d < 10 ->
  is_digit (ascii_of_nat (48 + Z.to_nat d)) = true
  /\ digit_val (ascii_of_nat (48 + Z.to_nat d)) = d.
Proof.
  intros H.
  assert (E : d = 0 \/ d = 1 \/ d = 2 \/ d = 3 \/ d = 4 \/ d = 5 \/ d = 6
              \/ d = 7 \/ d = 8 \/ d = 9) by lia.
  repeat (destruct E as [-> | E]; [now split|]). subst d. now split.
Qed.

Lemma digits_all_digits (fuel : nat) (z : Z) (acc : string) :
  0 <= z ->
  all_chars is_digit acc = true ->
  all_chars is_digit (digits_of_pos_fuel fuel z acc) = true.
Proof.
  revert z acc. induction fuel as [|fuel IH]; intros z acc Hz Ha;
    [exact Ha|].
  cbn [digits_of_pos_fuel].
  assert (Hd : all_chars is_digit
                 (String (ascii_of_nat (48 + Z.to_nat (z mod 10))) acc)
               = true).
  { cbn [all_chars]. rewrite Ha.
    destruct (digit_char (z mod 10)) as [-> _]; [|reflexivity].
    apply Z.mod_pos_bound. lia. }
  destruct (z <? 10); [exact Hd|].
  apply IH; [|exact Hd]. apply Z.div_pos; lia.
Qed.

(** Reading back the digits written for [z]: they continue the number read
    so far, and there is at least one. *)
Lemma digits_read_back (fuel : nat) :
  forall (z : Z) (acc : string),
    0 <= z < 10 ^ Z.of_nat (S fuel) ->
    exists k, 0 < k /\
      forall a n,
        read_digits a n (digits_of_pos_fuel (S fuel) z acc)
        = read_digits (a * 10 ^ k + z) (n + k) acc.
Proof.
  induction fuel as [|fuel IH]; intros z acc Hz.
  - exists 1. split; [lia|]. intros a n.
    change (10 ^ Z.of_nat 1) with 10 in Hz.
    cbn [digits_of_pos_fuel].
    assert (Hlt : (z <? 10) = true) by (apply Z.ltb_lt; lia).
    rewrite Hlt. rewrite Z.mod_small by lia.
    destruct (digit_char z) as [Hd Hv]; [lia|].
    cbn [read_digits]. rewrite Hd, Hv. f_equal; lia.
  - cbn [digits_of_pos_fuel].
    destruct (z <? 10) eqn:Hlt.
    + exists 1. split; [lia|]. intros a n.
      apply Z.ltb_lt in Hlt. rewrite Z.mod_small by lia.
      destruct (digit_char z) as [Hd Hv]; [lia|].
      cbn [read_digits]. rewrite Hd, Hv. f_equal; lia.
    + apply Z.ltb_ge in Hlt.
      destruct (IH (z / 10)
                   (String (ascii_of_nat (48 + Z.to_nat (z mod 10))) acc))
        as (k & Hk & Hread).
      { split; [apply Z.div_pos; lia|].
        apply Z.div_lt_upper_bound; [lia|].
        replace (10 * 10 ^ Z.of_nat (S fuel))
          with (10 ^ Z.of_nat (S (S fuel))); [lia|].
        rewrite (Nat2Z.inj_succ (S fuel)), Z.pow_succ_r; lia. }
      exists (k + 1). split; [lia|]. intros a n.
      rewrite Hread.
      destruct (digit_char (z mod 10)) as [Hd Hv];
        [apply Z.mod_pos_bound; lia|].
      cbn [read_digits]. rewrite Hd, Hv. f_equal; [|lia].
      rewrite Z.pow_add_r by lia.
      pose proof (Z.div_mod z 10 ltac:(lia)). lia.
Qed.

Lemma digits_of_fuel_enough (z : Z) :
  0 <= z -> z < 10 ^ Z.of_nat (S (Z.to_nat (Z.log2 z))).
Proof.
  intros Hz.
  destruct (Z.eq_dec z 0) as [->|Hn]; [reflexivity|].
  pose proof (Z.log2_spec z ltac:(lia)) as [_ Hlt].
  pose proof (Z.log2_nonneg z) as Hl.
  rewrite Nat2Z.inj_succ, Z2Nat.id by lia.
  eapply Z.lt_le_trans; [exact Hlt|].
  apply Z.pow_le_mono_l. lia.
Qed.

Lemma digits_of_nonempty (z : Z) :
  0 <= z ->
  exists c r, digits_of z = String c r /\ is_digit c = true
              /\ all_chars is_digit r = true.
Proof.
  intros Hz.
  pose proof (digits_all_digits (S (Z.to_nat (Z.log2 z))) z EmptyString Hz
                eq_refl) as Ha.
  destruct (digits_read_back (Z.to_nat (Z.log2 z)) z EmptyString)
    as (k & Hk & Hread).
  { split; [exact Hz|now apply digits_of_fuel_enough]. }
  unfold digits_of in *.
  destruct (digits_of_pos_fuel _ z EmptyString) as [|c r].
  - specialize (Hread 0 0). cbn [read_digits] in Hread.
    injection Hread as _ Hn. lia.
  - cbn [all_chars] in Ha. apply andb_prop in Ha. destruct Ha as [Hc Hr].
    now exists c, r.
Qed.

Lemma digits_of_read (z : Z) :
  0 <= z ->
  exists k, 0 < k /\ read_digits 0 0 (digits_of z) = (z, k, EmptyString).
Proof.
  intros Hz.
  destruct (digits_read_back (Z.to_nat (Z.log2 z)) z EmptyString)
    as (k & Hk & Hread).
  { split; [exact Hz|now apply digits_of_fuel_enough]. }
  exists k. split; [exact Hk|]. unfold digits_of. rewrite Hread.
  cbn [read_digits]. now rewrite Z.mul_0_l, !Z.add_0_l.
Qed.

Lemma digit_is_plain (c : ascii) :
  is_digit c = true ->
  negb (is_num_space c) = true
  /\ negb (Ascii.eqb c "_") = true
  /\ (forall r, read_sign (String c r) = (false, String c r))
  /\ (forall r, str_in (lower (String c r)) ["true"; "yes"] = false
                /\ str_in (lower (String c r)) ["false"; "no"] = false).
Proof.
  destruct c as [[] [] [] [] [] [] [] []]; intros H;
    try (vm_compute in H; discriminate H);
    (split; [reflexivity|]); (split; [reflexivity|]);
    (split; [reflexivity|]); intros r; split; reflexivity.
Qed.

Lemma all_digits_plain (s : string) :
  all_chars is_digit s = true ->
  all_chars (fun c => negb (is_num_space c)) s = true
  /\ all_chars (fun c => negb (Ascii.eqb c "_")) s = true.
Proof.
  intros H. split; (eapply all_chars_weaken; [|exact H]);
    intros c Hc; now destruct (digit_is_plain c Hc) as (? & ? & _).
Qed.

Lemma length_append (a b : string) :
  String.length (a ++ b)%string = (String.length a + String.length b)%nat.
Proof.
  induction a as [|c a IH]; [reflexivity|].
  cbn [String.append String.length]. now rewrite IH.
Qed.

Lemma append_empty (a : string) : (a ++ "")%string = a.
Proof.
  induction a as [|c a IH]; [reflexivity|].
  cbn [String.append]. now rewrite IH.
Qed.

Lemma all_chars_app (P : ascii -> bool) (a b : string) :
  all_chars P (a ++ b)%string = all_chars P a && all_chars P b.
Proof.
  induction a as [|c a IH]; [reflexivity|].
  cbn [String.append all_chars]. rewrite IH. now rewrite andb_assoc.
Qed.

Lemma zeros_digits (n : nat) : all_chars is_digit (zeros n) = true.
Proof. induction n as [|n IH]; [reflexivity|exact IH]. Qed.

Lemma zeros_length (n : nat) : String.length (zeros n) = n.
Proof.
  induction n as [|n IH]; [reflexivity|].
  cbn [zeros String.length]. now rewrite IH.
Qed.

Lemma read_digits_zeros (j : nat) (s : string) :
  forall a n,
    read_digits a n (zeros j ++ s)%string
    = read_digits (a * 10 ^ Z.of_nat j) (n + Z.of_nat j) s.
Proof.
  induction j as [|j IH]; intros a n.
  - cbn [zeros String.append]. f_equal; lia.
  - cbn [zeros String.append read_digits].
    change (is_digit "0") with true. change (digit_val "0") with 0.
    cbn iota. rewrite IH. rewrite Nat2Z.inj_succ, Z.pow_succ_r by lia.
    f_equal; lia.
Qed.

Lemma read_digits_all (s : string) :
  forall a n,
    all_chars is_digit s = true ->
    exists v,
      read_digits a n s = (v, n + Z.of_nat (String.length s), EmptyString).
Proof.
  induction s as [|c s IH]; intros a n H.
  - exists a. cbn [read_digits String.length]. f_equal. f_equal. lia.
  - cbn [all_chars] in H. apply andb_prop in H. destruct H as [Hc Hs].
    destruct (IH (10 * a + digit_val c) (n + 1) Hs) as [v Hv].
    exists v. cbn [read_digits String.length]. rewrite Hc, Hv.
    f_equal. f_equal. lia.
Qed.

Lemma digits_of_pos_fuel_S (fuel : nat) (z : Z) (acc : string) :
  digits_of_pos_fuel (S fuel) z acc
  = if z <? 10
    then String (ascii_of_nat (48 + Z.to_nat (z mod 10))) acc
    else digits_of_pos_fuel fuel (z / 10)
           (String (ascii_of_nat (48 + Z.to_nat (z mod 10))) acc).
Proof. reflexivity. Qed.

(** The number of digits written for [z] is the least that holds it. *)
Lemma digits_length (fuel : nat) :
  forall (z : Z) (acc : string),
    0 <= z < 10 ^ Z.of_nat (S fuel) ->
    exists k,
      (1 <= k)%nat
      /\ String.length (digits_of_pos_fuel (S fuel) z acc)
         = (k + String.length acc)%nat
      /\ (k = 1%nat \/ 10 ^ (Z.of_nat k - 1) <= z).
Proof.
  induction fuel as [|fuel IH]; intros z acc Hz.
  - exists 1%nat. change (10 ^ Z.of_nat 1) with 10 in Hz.
    rewrite digits_of_pos_fuel_S.
    assert (Hlt : (z <? 10) = true) by (apply Z.ltb_lt; lia).
    rewrite Hlt. repeat split; [lia|now left].
  - rewrite digits_of_pos_fuel_S.
    destruct (z <? 10) eqn:Hlt.
    + exists 1%nat. repeat split; [lia|now left].
    + apply Z.ltb_ge in Hlt.
      destruct (IH (z / 10)
                   (String (ascii_of_nat (48 + Z.to_nat (z mod 10))) acc))
        as (k & Hk & Hlen & Hlow).
      { split; [apply Z.div_pos; lia|].
        apply Z.div_lt_upper_bound; [lia|].
        replace (10 * 10 ^ Z.of_nat (S fuel))
          with (10 ^ Z.of_nat (S (S fuel))); [lia|].
        rewrite (Nat2Z.inj_succ (S fuel)), Z.pow_succ_r; lia. }
      exists (S k). split; [lia|]. split.
      * rewrite Hlen. cbn [String.length]. lia.
      * right. replace (Z.of_nat (S k) - 1) with (Z.of_nat k) by lia.
        pose proof (Z.div_mod z 10 ltac:(lia)) as Hdm.
        pose proof (Z.mod_pos_bound z 10 ltac:(lia)) as Hm.
        destruct Hlow as [-> | Hlow]; [change (10 ^ Z.of_nat 1) with 10; lia|].
        replace (Z.of_nat k) with (Z.succ (Z.of_nat k - 1)) by lia.
        rewrite Z.pow_succ_r by lia. lia.
Qed.

(** A number printed in [w] digits: the width, the characters, and the
    value read back. *)
Lemma pad_facts (w : nat) (z : Z) :
  (1 <= w)%nat ->
  0 <= z < 10 ^ Z.of_nat w ->
  String.length (pad w z) = w
  /\ all_chars is_digit (pad w z) = true
  /\ forall a n,
       read_digits a n (pad w z)
       = (a * 10 ^ Z.of_nat w + z, n + Z.of_nat w, EmptyString).
Proof.
  intros Hw Hz.
  assert (Hf : 0 <= z < 10 ^ Z.of_nat (S (Z.to_nat (Z.log2 z))))
    by (split; [lia|apply digits_of_fuel_enough; lia]).
  destruct (digits_length _ z EmptyString Hf) as (k & Hk & Hlen & Hlow).
  destruct (digits_read_back _ z EmptyString Hf) as (k1 & Hk1 & Hread).
  pose proof (digits_all_digits (S (Z.to_nat (Z.log2 z))) z EmptyString
                ltac:(lia) eq_refl) as Hd.
  fold (digits_of z) in Hlen, Hread, Hd.
  cbn [String.length] in Hlen. rewrite Nat.add_0_r in Hlen.
  assert (Ek : k1 = Z.of_nat k).
  { destruct (read_digits_all (digits_of z) 0 0 Hd) as [v Hv].
    rewrite Hread in Hv. cbn [read_digits] in Hv. rewrite Hlen in Hv.
    injection Hv as _ Hv. lia. }
  subst k1.
  assert (Hkw : (k <= w)%nat).
  { destruct Hlow as [-> | Hlow]; [exact Hw|].
    assert (Hp : 10 ^ (Z.of_nat k - 1) < 10 ^ Z.of_nat w) by lia.
    apply Z.pow_lt_mono_r_iff in Hp; lia. }
  unfold pad. rewrite Hlen. repeat split.
  - rewrite length_append, zeros_length, Hlen. lia.
  - now rewrite all_chars_app, zeros_digits, Hd.
  - intros a n. rewrite read_digits_zeros, Hread. cbn [read_digits].
    rewrite <- Z.mul_assoc, <- Z.pow_add_r by lia.
    replace (Z.of_nat (w - k) + Z.of_nat k) with (Z.of_nat w) by lia.
    f_equal. f_equal. lia.
Qed.

(** The digits written for a number below [10 ^ w]: there are at most [w],
    and they read back as the number. *)
Lemma digits_of_count (z w : Z) :
  1 <= w -> 0 <= z < 10 ^ w ->
  exists k,
    1 <= k <= w
    /\ Z.of_nat (String.length (digits_of z)) = k
    /\ read_digits 0 0 (digits_of z) = (z, k, EmptyString).
Proof.
  intros Hw Hz.
  assert (Hf : 0 <= z < 10 ^ Z.of_nat (S (Z.to_nat (Z.log2 z))))
    by (split; [lia|apply digits_of_fuel_enough; lia]).
  destruct (digits_length _ z EmptyString Hf) as (k & Hk & Hlen & Hlow).
  destruct (digits_read_back _ z EmptyString Hf) as (k1 & Hk1 & Hread).
  pose proof (digits_all_digits (S (Z.to_nat (Z.log2 z))) z EmptyString
                ltac:(lia) eq_refl) as Hd.
  fold (digits_of z) in Hlen, Hread, Hd.
  cbn [String.length] in Hlen. rewrite Nat.add_0_r in Hlen.
  assert (Ek : k1 = Z.of_nat k).
  { destruct (read_digits_all (digits_of z) 0 0 Hd) as [v Hv].
    rewrite Hread in Hv. cbn [read_digits] in Hv. rewrite Hlen in Hv.
    apply (f_equal (fun t => snd (fst t))) in Hv. cbn [fst snd] in Hv. lia. }
  subst k1. exists (Z.of_nat k). split; [|split].
  - split; [lia|].
    destruct Hlow as [-> | Hlow]; [exact Hw|].
    assert (Hp : 10 ^ (Z.of_nat k - 1) < 10 ^ w) by lia.
    apply Z.pow_lt_mono_r_iff in Hp; lia.
  - now rewrite Hlen.
  - rewrite Hread. cbn [read_digits]. now rewrite Z.mul_0_l, !Z.add_0_l.
Qed.

(** [int] reads [str(z)] back as [z], within the limit on the digits. *)
Lemma int_of_string_str_of_int (z : Z) :
  Z.abs z < 10 ^ int_max_str_digits ->
  int_of_string (str_of_int z) = Ok z.
Proof.
  intros Hz. unfold str_of_int. destruct (z <? 0) eqn:Hneg.
  - apply Z.ltb_lt in Hneg.
    destruct (digits_of_nonempty (- z)) as (c & r & E & Hc & Hr); [lia|].
    destruct (digits_of_count (- z) int_max_str_digits)
      as (k & Hk & _ & Hread); [unfold int_max_str_digits; lia|lia|].
    assert (Ha : all_chars is_digit (digits_of (- z)) = true)
      by (rewrite E; cbn [all_chars]; now rewrite Hc, Hr).
    destruct (all_digits_plain _ Ha) as [Hsp Hun].
    unfold int_of_string.
    rewrite num_strip_clean by (cbn [all_chars]; now rewrite Hsp).
    destruct (underscores_clean (String "-" (digits_of (- z)))) as [U1 U2];
      [cbn [all_chars]; now rewrite Hun|].
    rewrite U1, U2. cbn [negb read_sign]. rewrite Hread.
    assert (Hk0 : (k =? 0) = false) by (apply Z.eqb_neq; lia).
    assert (Hk1 : (int_max_str_digits <? k) = false)
      by (apply Z.ltb_ge; lia).
    rewrite Hk0, Hk1. f_equal. lia.
  - apply Z.ltb_ge in Hneg.
    destruct (digits_of_nonempty z) as (c & r & E & Hc & Hr); [lia|].
    destruct (digits_of_count z int_max_str_digits)
      as (k & Hk & _ & Hread); [unfold int_max_str_digits; lia|lia|].
    assert (Ha : all_chars is_digit (digits_of z) = true)
      by (rewrite E; cbn [all_chars]; now rewrite Hc, Hr).
    destruct (all_digits_plain _ Ha) as [Hsp Hun].
    unfold int_of_string.
    rewrite num_strip_clean by exact Hsp.
    destruct (underscores_clean (digits_of z) Hun) as [U1 U2].
    rewrite U1, U2. cbn [negb].
    destruct (digit_is_plain c Hc) as (_ & _ & Hs & _).
    rewrite E at 1. rewrite Hs, <- E, Hread.
    assert (Hk0 : (k =? 0) = false) by (apply Z.eqb_neq; lia).
    assert (Hk1 : (int_max_str_digits <? k) = false)
      by (apply Z.ltb_ge; lia).
    now rewrite Hk0, Hk1.
Qed.

(** [str] writes an integer within the limit on the digits. *)
Lemma py_str_checked_int (z : Z) :
  Z.abs z < 10 ^ int_max_str_digits ->
  py_str_checked (PInt z) = Ok (py_str (PInt z)).
Proof.
  intros Hz. unfold py_str_checked.
  destruct (digits_of_count (Z.abs z) int_max_str_digits)
    as (k & Hk & Hlen & _); [unfold int_max_str_digits; lia|lia|].
  rewrite Hlen.
  assert (Hk1 : (int_max_str_digits <? k) = false) by (apply Z.ltb_ge; lia).
  now rewrite Hk1.
Qed.

Lemma str_of_int_not_literal (z : Z) :
  str_in (lower (str_of_int z)) ["true"; "yes"] = false
  /\ str_in (lower (str_of_int z)) ["false"; "no"] = false
  /\ truthy (PStr (str_of_int z)) = true.
Proof.
  unfold str_of_int. destruct (z <? 0) eqn:Hneg.
  - repeat split; reflexivity.
  - apply Z.ltb_ge in Hneg.
    destruct (digits_of_nonempty z) as (c & r & E & Hc & Hr); [lia|].
    rewrite E. destruct (digit_is_plain c Hc) as (_ & _ & _ & Hl).
    destruct (Hl r) as [H1 H2]. now repeat split.
Qed.

(** X15: an integer written by [str] is read back.  For every integer [z]
    of at most 4300 digits, the most [str] writes and [int] reads, [str(z)]
    returns and [convert_value(str(z))] is the int [z] in the default mode,
    whatever the declared type, and in the modes given and always with the
    declared type "int". *)
Theorem X15_int_round_trip (z : Z) (datatype : pyval) :
  Z.abs z < 10 ^ int_max_str_digits ->
  py_str_checked (PInt z) = Ok (py_str (PInt z))
  /\ convert_value (PStr (py_str (PInt z))) "force" datatype = Ok (PInt z)
  /\ convert_value (PStr (py_str (PInt z))) "given" (PStr "int")
     = Ok (PInt z)
  /\ convert_value (PStr (py_str (PInt z))) "always" (PStr "int")
     = Ok (PInt z).
Proof.
  intros Hz. split; [now apply py_str_checked_int|].
  cbn [py_str].
  destruct (str_of_int_not_literal z) as (L1 & L2 & Ht).
  pose proof (int_of_string_str_of_int z Hz) as Hi.
  assert (G : convert_guess (PStr (str_of_int z)) = Ok (PInt z)).
  { unfold convert_guess, py_lower, py_int. cbn [bind].
    now rewrite L1, L2, Hi. }
  assert (D : convert_declared (PStr (str_of_int z)) (PStr (str_of_int z))
                (PStr "int") = Ok (PInt z)
              /\ convert_declared (PStr (str_of_int z)) (PInt z)
                   (PStr "int") = Ok (PInt z)).
  { unfold convert_declared, py_int. rewrite Ht. cbn [eq_str String.eqb
      Ascii.eqb Bool.eqb]. now rewrite Hi. }
  destruct D as [D1 D2].
  unfold convert_value.
  change (str_in "force" ["force"; "always"]) with true.
  change (str_in "force" ["always"; "given"]) with false.
  change (str_in "given" ["force"; "always"]) with false.
  change (str_in "given" ["always"; "given"]) with true.
  change (str_in "always" ["force"; "always"]) with true.
  change (str_in "always" ["always"; "given"]) with true.
  cbn iota. rewrite G. cbn [bind]. now rewrite D1, D2.
Qed.

Lemma X15_int_round_trip_witness :
  Z.abs (-532871) < 10 ^ int_max_str_digits
  /\ py_str_checked (PInt (-532871)) = Ok (py_str (PInt (-532871)))
  /\ convert_value (PStr (py_str (PInt (-532871)))) "force" PNone
     = Ok (PInt (-532871))
  /\ convert_value (PStr (py_str (PInt (-532871)))) "given" (PStr "int")
     = Ok (PInt (-532871))
  /\ convert_value (PStr (py_str (PInt (-532871)))) "always" (PStr "int")
     = Ok (PInt (-532871)).
Proof.
  split; [vm_compute; reflexivity|].
  apply (X15_int_round_trip (-532871) PNone). vm_compute. reflexivity.
Defined.

(** ** Timestamps written by [json_serializer_helper] are read back *)

(** The four digits of a year. *)
Lemma pad_year (y : Z) :
  1 <= y <= 9999 ->
  exists a b c e,
    pad 4 y = String a (String b (String c (String e EmptyString)))
    /\ is_digit a = true /\ is_digit b = true
    /\ is_digit c = true /\ is_digit e = true
    /\ 1000 * digit_val a + 100 * digit_val b + 10 * digit_val c
       + digit_val e = y.
Proof.
  intros Hy.
  destruct (pad_facts 4 y ltac:(lia) ltac:(change (10 ^ Z.of_nat 4) with 10000; lia))
    as (Hlen & Hd & Hread).
  specialize (Hread 0 0).
  destruct (pad 4 y) as [|a [|b [|c [|e [|x s]]]]]; try discriminate Hlen.
  cbn [all_chars] in Hd.
  apply andb_prop in Hd. destruct Hd as [Ha Hd].
  apply andb_prop in Hd. destruct Hd as [Hb Hd].
  apply andb_prop in Hd. destruct Hd as [Hc Hd].
  apply andb_prop in Hd. destruct Hd as [He _].
  exists a, b, c, e. repeat split; try assumption.
  cbn [read_digits] in Hread. rewrite Ha, Hb, Hc, He in Hread.
  apply (f_equal (fun t => fst (fst t))) in Hread. cbn [fst] in Hread.
  change (10 ^ Z.of_nat 4) with 10000 in Hread. lia.
Qed.

Lemma re_Y_pad (y : Z) (r : string) :
  1 <= y <= 9999 -> hd_error (re_Y (pad 4 y ++ r)%string) = Some (y, r).
Proof.
  intros Hy.
  destruct (pad_year y Hy) as (a & b & c & e & -> & Ha & Hb & Hc & He & Hv).
  cbn [String.append re_Y]. rewrite Ha, Hb, Hc, He. cbn [andb hd_error].
  now rewrite Hv.
Qed.

(** A property of every number below [n], case by case. *)
Lemma below_cases (P : Z -> Prop) (n : nat) :
  (forall i, (i < n)%nat -> P (Z.of_nat i)) ->
  forall z, 0 <= z < Z.of_nat n -> P z.
Proof.
  intros H z Hz. rewrite <- (Z2Nat.id z) by lia. apply H. lia.
Qed.

Tactic Notation "two_digit_cases" integer(n) :=
  let i := fresh "i" in
  let Hi := fresh "Hi" in
  intros i Hi;
  do n (destruct i as [|i]; [try reflexivity; intros; lia|]);
  lia.

Lemma re_m_pad (m : Z) (r : string) :
  1 <= m <= 12 -> hd_error (re_m (pad 2 m ++ r)%string) = Some (m, r).
Proof.
  intros Hm. revert r.
  assert (H : 1 <= m -> forall r, hd_error (re_m (pad 2 m ++ r)%string) = Some (m, r));
    [|apply H; lia].
  revert m Hm.
  assert (H : forall m, 0 <= m < Z.of_nat 13 ->
              1 <= m -> forall r, hd_error (re_m (pad 2 m ++ r)%string) = Some (m, r));
    [|intros m Hm; apply H; lia].
  apply (below_cases (fun m => 1 <= m -> forall r,
           hd_error (re_m (pad 2 m ++ r)%string) = Some (m, r))).
  two_digit_cases 13.
Qed.

Lemma re_d_pad (d : Z) (r : string) :
  1 <= d <= 31 -> hd_error (re_d (pad 2 d ++ r)%string) = Some (d, r).
Proof.
  intros Hd. revert r.
  assert (H : forall d, 0 <= d < Z.of_nat 32 ->
              1 <= d -> forall r,
              hd_error (re_d (pad 2 d ++ r)%string) = Some (d, r));
    [|apply H; lia].
  apply (below_cases (fun d => 1 <= d -> forall r,
           hd_error (re_d (pad 2 d ++ r)%string) = Some (d, r))).
  two_digit_cases 32.
Qed.

Lemma re_H_pad (h : Z) (r : string) :
  0 <= h < 24 -> hd_error (re_H (pad 2 h ++ r)%string) = Some (h, r).
Proof.
  intros Hh. revert r.
  apply (below_cases (fun h => forall r,
           hd_error (re_H (pad 2 h ++ r)%string) = Some (h, r)) 24);
    [|exact Hh].
  two_digit_cases 24.
Qed.

Lemma re_M_pad (m : Z) (r : string) :
  0 <= m < 60 -> hd_error (re_M (pad 2 m ++ r)%string) = Some (m, r).
Proof.
  intros Hm. revert r.
  apply (below_cases (fun m => forall r,
           hd_error (re_M (pad 2 m ++ r)%string) = Some (m, r)) 60);
    [|exact Hm].
  two_digit_cases 60.
Qed.

Lemma re_S_pad (s : Z) :
  0 <= s < 60 -> hd_error (re_S (pad 2 s)) = Some (s, EmptyString).
Proof.
  apply (below_cases (fun s =>
           hd_error (re_S (pad 2 s)) = Some (s, EmptyString)) 60).
  two_digit_cases 60.
Qed.

Lemma hd_flat_map {A B : Type} (f : A -> list B) (l : list A) (x : A)
    (h : B) :
  hd_error l = Some x -> hd_error (f x) = Some h ->
  hd_error (flat_map f l) = Some h.
Proof.
  destruct l as [|a l]; [discriminate|]. cbn [hd_error flat_map].
  intros [= ->]. now destruct (f x).
Qed.

(** The fields of a valid [datetime], as inequalities. *)
Lemma valid_datetime_fields (d : datetime) :
  valid_datetime d = true ->
  1 <= year d <= 9999 /\ 1 <= month d <= 12
  /\ 1 <= day d <= days_in_month (year d) (month d)
  /\ 0 <= hour d < 24 /\ 0 <= minute d < 60 /\ 0 <= second d < 60
  /\ 0 <= microsecond d < 1000000.
Proof.
  unfold valid_datetime. intros H.
  repeat (apply andb_prop in H; destruct H as [H ?]).
  repeat match goal with
         | H : (_ <=? _) = true |- _ => apply Z.leb_le in H
         | H : (_ <? _) = true |- _ => apply Z.ltb_lt in H
         end.
  lia.
Qed.

Lemma days_in_month_le (y m : Z) : days_in_month y m <= 31.
Proof.
  unfold days_in_month.
  destruct (m =? 2); [destruct (is_leap y); lia|].
  destruct ((m =? 4) || (m =? 6) || (m =? 9) || (m =? 11)); lia.
Qed.

(** The format matches what [isoformat] writes up to the seconds, and reads
    the fields back. *)
Lemma strptime_isoformat_seconds (d : datetime) :
  valid_datetime d = true ->
  strptime (isoformat_seconds d)
  = Ok (mkDatetime (year d) (month d) (day d) (hour d) (minute d)
          (second d) 0).
Proof.
  intros Hv. destruct (valid_datetime_fields d Hv)
    as (Hy & Hm & Hd & Hh & Hmi & Hs & _).
  pose proof (days_in_month_le (year d) (month d)) as Hdim.
  assert (H : hd_error (strptime_matches (isoformat_seconds d))
              = Some (mkDatetime (year d) (month d) (day d) (hour d)
                        (minute d) (second d) 0, EmptyString)).
  { unfold strptime_matches, isoformat_seconds.
    eapply hd_flat_map; [now apply re_Y_pad|]. cbn beta iota.
    eapply hd_flat_map; [reflexivity|].
    eapply hd_flat_map; [now apply re_m_pad|]. cbn beta iota.
    eapply hd_flat_map; [reflexivity|].
    eapply hd_flat_map; [apply re_d_pad; lia|]. cbn beta iota.
    eapply hd_flat_map; [reflexivity|].
    eapply hd_flat_map; [now apply re_H_pad|]. cbn beta iota.
    eapply hd_flat_map; [reflexivity|].
    eapply hd_flat_map; [now apply re_M_pad|]. cbn beta iota.
    eapply hd_flat_map; [reflexivity|].
    pose proof (re_S_pad (second d) Hs) as HS.
    destruct (re_S (pad 2 (second d))) as [|[sec r] l]; [discriminate|].
    cbn [hd_error map] in *. now injection HS as -> ->. }
  unfold strptime.
  destruct (strptime_matches (isoformat_seconds d)) as [|[d' rest] l];
    [discriminate|].
  cbn [hd_error] in H. injection H as -> ->.
  cbn [is_empty negb year month day second].
  assert (E : (1 <=? year d) && (day d <=? days_in_month (year d) (month d))
              && (second d <=? 59) = true).
  { rewrite !andb_true_iff. repeat split; apply Z.leb_le; lia. }
  now rewrite E.
Qed.

(** *** The calendar *)

Lemma sample_dates_ok : forallb date_ok sample_dates = true.
Proof. vm_compute. reflexivity. Qed.

Lemma in_sample_dates (y m d : Z) :
  y = 1 \/ y = 4 -> 1 <= m <= 12 -> 1 <= d <= days_in_month y m ->
  In (y, m, d) sample_dates.
Proof.
  intros Hy Hm Hd. unfold sample_dates.
  apply in_flat_map. exists y. split; [cbn; lia|].
  apply in_flat_map. exists (Z.to_nat m). split; [apply in_seq; lia|].
  apply in_map_iff. exists (Z.to_nat d).
  rewrite !Z2Nat.id by lia. split; [reflexivity|]. apply in_seq. lia.
Qed.

Lemma days_before_month_nonneg (y m : Z) : 0 <= days_before_month y m.
Proof.
  unfold days_before_month. generalize (Z.to_nat m) as n. intros n.
  do 13 (destruct n as [|n];
         [cbn [nth]; destruct ((2 <? m) && is_leap y); cbn iota; lia|]).
  destruct n; cbn [nth]; destruct ((2 <? m) && is_leap y); cbn iota; lia.
Qed.

(** The day of the year of a date gives the date back, in a common year and
    in a leap year. *)
Lemma month_and_day_of_date (y m d : Z) :
  1 <= m <= 12 -> 1 <= d <= days_in_month y m ->
  month_and_day (is_leap y) (days_before_month y m + d - 1) = (m, d)
  /\ 0 <= days_before_month y m + d - 1
     < 365 + (if is_leap y then 1 else 0).
Proof.
  intros Hm Hd.
  set (y0 := if is_leap y then 4 else 1).
  assert (Hl : is_leap y = is_leap y0)
    by (unfold y0; now destruct (is_leap y)).
  assert (Hdim : days_in_month y m = days_in_month y0 m)
    by (unfold days_in_month; now rewrite Hl).
  assert (Hdbm : days_before_month y m = days_before_month y0 m)
    by (unfold days_before_month; now rewrite Hl).
  rewrite Hdbm, Hl.
  pose proof sample_dates_ok as Hall. rewrite forallb_forall in Hall.
  specialize (Hall (y0, m, d)).
  unfold date_ok in Hall.
  destruct (month_and_day (is_leap y0) (days_before_month y0 m + d - 1))
    as [m' d'].
  rewrite !andb_true_iff, !Z.eqb_eq, Z.ltb_lt in Hall.
  destruct Hall as [[-> ->] Hlt].
  { apply in_sample_dates; [|exact Hm|lia].
    unfold y0. destruct (is_leap y); [now right|now left]. }
  split; [reflexivity|]. split; [|exact Hlt].
  pose proof (days_before_month_nonneg y0 m). lia.
Qed.

(** A year from its position in the cycles of 400, 100 and 4 years. *)
Lemma year_digits (y : Z) :
  1 <= y ->
  exists q a b c,
    0 <= q /\ 0 <= a <= 3 /\ 0 <= b <= 24 /\ 0 <= c <= 3
    /\ y = 400 * q + 100 * a + 4 * b + c + 1.
Proof.
  intros Hy.
  exists ((y - 1) / 400), ((y - 1) mod 400 / 100),
    ((y - 1) mod 100 / 4), ((y - 1) mod 4).
  Z.div_mod_to_equations. lia.
Qed.

Lemma div_mod_step (k x q r : Z) :
  0 <= r < k -> x = q * k + r -> x / k = q /\ x mod k = r.
Proof.
  intros Hr ->. split.
  - symmetry. apply (Z.div_unique _ _ _ r); lia.
  - symmetry. apply (Z.mod_unique _ _ q); lia.
Qed.

Section Year.

Variables q a b c : Z.
Hypothesis Hq : 0 <= q.
Hypothesis Ha : 0 <= a <= 3.
Hypothesis Hb : 0 <= b <= 24.
Hypothesis Hc : 0 <= c <= 3.

Lemma days_before_year_digits :
  days_before_year (400 * q + 100 * a + 4 * b + c + 1)
  = 146097 * q + 36524 * a + 1461 * b + 365 * c.
Proof.
  unfold days_before_year. cbv zeta.
  replace (400 * q + 100 * a + 4 * b + c + 1 - 1)
    with (400 * q + 100 * a + 4 * b + c) by lia.
  destruct (div_mod_step 4 (400 * q + 100 * a + 4 * b + c)
              (100 * q + 25 * a + b) c) as [-> _]; [lia|lia|].
  destruct (div_mod_step 100 (400 * q + 100 * a + 4 * b + c)
              (4 * q + a) (4 * b + c)) as [-> _]; [lia|lia|].
  destruct (div_mod_step 400 (400 * q + 100 * a + 4 * b + c)
              q (100 * a + 4 * b + c)) as [-> _]; [lia|lia|].
  lia.
Qed.

Lemma is_leap_digits :
  is_leap (400 * q + 100 * a + 4 * b + c + 1)
  = (c =? 3) && (negb (b =? 24) || (a =? 3)).
Proof.
  unfold is_leap.
  destruct (div_mod_step 4 (400 * q + 100 * a + 4 * b + c + 1)
              (100 * q + 25 * a + b + (c + 1) / 4) ((c + 1) mod 4))
    as [_ ->]; [apply Z.mod_pos_bound; lia| |].
  { pose proof (Z.div_mod (c + 1) 4 ltac:(lia)). lia. }
  destruct (div_mod_step 100 (400 * q + 100 * a + 4 * b + c + 1)
              (4 * q + a + (4 * b + c + 1) / 100) ((4 * b + c + 1) mod 100))
    as [_ ->]; [apply Z.mod_pos_bound; lia| |].
  { pose proof (Z.div_mod (4 * b + c + 1) 100 ltac:(lia)). lia. }
  destruct (div_mod_step 400 (400 * q + 100 * a + 4 * b + c + 1)
              (q + (100 * a + 4 * b + c + 1) / 400)
              ((100 * a + 4 * b + c + 1) mod 400))
    as [_ ->]; [apply Z.mod_pos_bound; lia| |].
  { pose proof (Z.div_mod (100 * a + 4 * b + c + 1) 400 ltac:(lia)). lia. }
  destruct (Z.eqb_spec c 3) as [Ec|Ec];
    destruct (Z.eqb_spec b 24) as [Eb|Eb];
    destruct (Z.eqb_spec a 3) as [Ea|Ea]; cbn [andb orb negb];
    repeat match goal with
           | |- context [?x =? 0] => destruct (Z.eqb_spec x 0)
           end;
    cbn [andb orb negb]; try reflexivity; exfalso;
    Z.div_mod_to_equations; lia.
Qed.

(** [_ord2ymd] on day [r] of a year: the year it finds, and the month and
    the day from [r]. *)
Lemma ord2ymd_digits (r : Z) :
  0 <= r < 365 + (if (c =? 3) && (negb (b =? 24) || (a =? 3))
                  then 1 else 0) ->
  ord2ymd (146097 * q + 36524 * a + 1461 * b + 365 * c + r + 1)
  = let '(m, d) :=
      month_and_day ((c =? 3) && (negb (b =? 24) || (a =? 3))) r in
    (400 * q + 100 * a + 4 * b + c + 1, m, d).
Proof.
  intros Hr.
  assert (Hr' : r <= 364 \/ (r = 365 /\ c = 3 /\ (b <> 24 \/ a = 3))).
  { destruct (Z.eqb_spec c 3); destruct (Z.eqb_spec b 24);
      destruct (Z.eqb_spec a 3); cbn [andb orb negb] in Hr; lia. }
  unfold ord2ymd. cbv zeta.
  destruct (div_mod_step 146097
              (146097 * q + 36524 * a + 1461 * b + 365 * c + r + 1 - 1)
              q (36524 * a + 1461 * b + 365 * c + r)) as [-> ->];
    [lia|lia|].
  destruct Hr' as [Hr' | (-> & -> & Hr')].
  - destruct (div_mod_step 36524 (36524 * a + 1461 * b + 365 * c + r)
                a (1461 * b + 365 * c + r)) as [-> ->]; [lia|lia|].
    destruct (div_mod_step 1461 (1461 * b + 365 * c + r)
                b (365 * c + r)) as [-> ->]; [lia|lia|].
    destruct (div_mod_step 365 (365 * c + r) c r) as [-> ->]; [lia|lia|].
    assert (E4 : (c =? 4) || (a =? 4) = false)
      by (apply orb_false_iff; split; apply Z.eqb_neq; lia).
    rewrite E4. unfold month_and_day. cbv zeta.
    destruct (r <? _); f_equal; f_equal; lia.
  - change (month_and_day _ 365)
      with (month_and_day ((3 =? 3) && (negb (b =? 24) || (a =? 3))) 365).
    assert (EL : (3 =? 3) && (negb (b =? 24) || (a =? 3)) = true).
    { destruct (Z.eqb_spec b 24); destruct (Z.eqb_spec a 3);
        cbn [andb orb negb]; try reflexivity; lia. }
    rewrite EL. change (month_and_day true 365) with (12, 31).
    destruct (Z.eq_dec b 24) as [-> | Hb24].
    + assert (a = 3) by lia. subst a.
      change (36524 * 3 + 1461 * 24 + 365 * 3 + 365) with 146096.
      change (146096 / 36524) with 4. change (146096 mod 36524) with 0.
      change (0 / 1461) with 0. change (0 mod 1461) with 0.
      change (0 / 365) with 0.
      change ((0 =? 4) || (4 =? 4)) with true. cbn iota.
      f_equal. f_equal. lia.
    + destruct (div_mod_step 36524 (36524 * a + 1461 * b + 365 * 3 + 365)
                  a (1461 * b + 365 * 3 + 365)) as [-> ->]; [lia|lia|].
      destruct (div_mod_step 1461 (1461 * b + 365 * 3 + 365)
                  b (365 * 3 + 365)) as [-> ->]; [lia|lia|].
      change ((365 * 3 + 365) / 365) with 4.
      change ((4 =? 4) || (a =? 4)) with true. cbn iota.
      f_equal. f_equal. lia.
Qed.

End Year.

(** [_ord2ymd] undoes [_ymd2ord] on every date from year 1 on, and the
    ordinal of a date lies within its year. *)
Lemma ord2ymd_ymd2ord (y m d : Z) :
  1 <= y -> 1 <= m <= 12 -> 1 <= d <= days_in_month y m ->
  ord2ymd (ymd2ord y m d) = (y, m, d)
  /\ days_before_year y < ymd2ord y m d
     <= days_before_year y + 365 + (if is_leap y then 1 else 0).
Proof.
  intros Hy Hm Hd.
  destruct (month_and_day_of_date y m d Hm Hd) as [Hmd Hr].
  destruct (year_digits y Hy) as (q & a & b & c & Hq & Ha & Hb & Hc & ->).
  unfold ymd2ord.
  rewrite (is_leap_digits q a b c) in Hmd, Hr |- * by assumption.
  rewrite (days_before_year_digits q a b c) by assumption.
  split; [|lia].
  replace (146097 * q + 36524 * a + 1461 * b + 365 * c
           + days_before_month (400 * q + 100 * a + 4 * b + c + 1) m + d)
    with (146097 * q + 36524 * a + 1461 * b + 365 * c
          + (days_before_month (400 * q + 100 * a + 4 * b + c + 1) m
             + d - 1) + 1) by lia.
  rewrite (ord2ymd_digits q a b c) by assumption.
  now rewrite Hmd.
Qed.

Lemma days_before_year_bounds (y : Z) :
  1 <= y <= 9999 ->
  0 <= days_before_year y
  /\ days_before_year y + 365 + (if is_leap y then 1 else 0) <= MAXORDINAL.
Proof.
  intros Hy.
  destruct (year_digits y ltac:(lia))
    as (q & a & b & c & Hq & Ha & Hb & Hc & ->).
  rewrite (is_leap_digits q a b c) by assumption.
  rewrite (days_before_year_digits q a b c) by assumption.
  unfold MAXORDINAL.
  destruct (Z.eqb_spec c 3); destruct (Z.eqb_spec b 24);
    destruct (Z.eqb_spec a 3); cbn [andb orb negb]; lia.
Qed.

(** Adding less than a second to a whole second changes the microseconds
    only. *)
Lemma datetime_add_microseconds (d : datetime) :
  valid_datetime d = true ->
  datetime_add
    (mkDatetime (year d) (month d) (day d) (hour d) (minute d) (second d) 0)
    (microsecond d)
  = Ok d.
Proof.
  intros Hv. destruct (valid_datetime_fields d Hv)
    as (Hy & Hm & Hd & Hh & Hmi & Hs & Hus).
  destruct (ord2ymd_ymd2ord (year d) (month d) (day d)) as [Hinv Hord];
    [lia|lia|lia|].
  destruct (days_before_year_bounds (year d) Hy) as [Hlo Hhi].
  unfold datetime_add.
  cbn [year month day hour minute second microsecond].
  set (o := ymd2ord (year d) (month d) (day d)) in *.
  set (secs := hour d * 3600 + minute d * 60 + second d).
  assert (Hsecs : 0 <= secs < 86400) by (unfold secs; lia).
  replace ((o * 86400 + hour d * 3600 + minute d * 60 + second d) * 1000000
           + 0 + microsecond d)
    with ((secs * 1000000 + microsecond d) + o * us_per_day)
    by (unfold us_per_day, secs; lia).
  assert (Hrem : 0 <= secs * 1000000 + microsecond d < us_per_day)
    by (unfold us_per_day; lia).
  rewrite Z.div_add, Z.mod_add by (unfold us_per_day; lia).
  rewrite Z.div_small, Z.mod_small by exact Hrem.
  rewrite Z.add_0_l.
  assert (Hin : (0 <? o) && (o <=? MAXORDINAL) = true)
    by (apply andb_true_iff; split; [apply Z.ltb_lt|apply Z.leb_le]; lia).
  rewrite Hin, Hinv.
  replace ((secs * 1000000 + microsecond d) / 1000000) with secs
    by (symmetry; rewrite Z.add_comm, Z.div_add by lia;
        rewrite Z.div_small by lia; lia).
  replace ((secs * 1000000 + microsecond d) mod 1000000)
    with (microsecond d)
    by (symmetry; rewrite Z.add_comm, Z.mod_add by lia;
        apply Z.mod_small; lia).
  assert (E1 : secs / 3600 = hour d).
  { unfold secs. symmetry. apply (Z.div_unique _ _ _ (minute d * 60 + second d));
      lia. }
  assert (E2 : secs mod 3600 = minute d * 60 + second d).
  { unfold secs. symmetry. apply (Z.mod_unique _ _ (hour d)); lia. }
  assert (E3 : secs mod 60 = second d).
  { unfold secs. symmetry.
    apply (Z.mod_unique _ _ (hour d * 60 + minute d)); lia. }
  rewrite E1, E2, E3.
  replace ((minute d * 60 + second d) / 60) with (minute d)
    by (apply (Z.div_unique _ _ _ (second d)); lia).
  now destruct d.
Qed.

(** *** The string [isoformat] writes *)

Lemma timestamp_char_plain (c : ascii) :
  timestamp_char c || Ascii.eqb c "." = true ->
  negb (is_num_space c) = true
  /\ negb (Ascii.eqb c "_") = true
  /\ negb (is_space c) = true.
Proof.
  destruct c as [[] [] [] [] [] [] [] []]; intros H;
    try (vm_compute in H; discriminate H); repeat split; reflexivity.
Qed.

Lemma timestamp_char_not_dot (c : ascii) :
  timestamp_char c = true -> Ascii.eqb c "." = false.
Proof.
  destruct c as [[] [] [] [] [] [] [] []]; intros H;
    try (vm_compute in H; discriminate H); reflexivity.
Qed.

Lemma digit_is_number_start (c : ascii) (r : string) :
  is_digit c = true ->
  str_in (lower (String c r)) ["inf"; "infinity"] = false
  /\ String.eqb (lower (String c r)) "nan" = false.
Proof.
  destruct c as [[] [] [] [] [] [] [] []]; intros H;
    try (vm_compute in H; discriminate H); split; reflexivity.
Qed.

Lemma isoformat_seconds_chars (d : datetime) :
  valid_datetime d = true ->
  all_chars timestamp_char (isoformat_seconds d) = true.
Proof.
  intros Hv. destruct (valid_datetime_fields d Hv)
    as (Hy & Hm & Hd & Hh & Hmi & Hs & _).
  pose proof (days_in_month_le (year d) (month d)) as Hdim.
  assert (P : forall w z, (1 <= w)%nat -> 0 <= z < 10 ^ Z.of_nat w ->
                all_chars timestamp_char (pad w z) = true).
  { intros w z Hw Hz. destruct (pad_facts w z Hw Hz) as (_ & Ha & _).
    eapply all_chars_weaken; [|exact Ha].
    intros c Hc. unfold timestamp_char. now rewrite Hc. }
  unfold isoformat_seconds. rewrite !all_chars_app.
  rewrite (P 4%nat (year d)), !(P 2%nat);
    try reflexivity; try lia;
    change (10 ^ Z.of_nat 2) with 100; change (10 ^ Z.of_nat 4) with 10000;
    lia.
Qed.

Lemma isoformat_chars (d : datetime) :
  valid_datetime d = true ->
  all_chars (fun c => timestamp_char c || Ascii.eqb c ".") (isoformat d)
  = true.
Proof.
  intros Hv. destruct (valid_datetime_fields d Hv) as (_ & _ & _ & _ & _ & _ & Hus).
  unfold isoformat. rewrite all_chars_app.
  rewrite (all_chars_weaken timestamp_char _ _
             (fun c H => eq_trans (f_equal (fun b => b || _) H) eq_refl)
             (isoformat_seconds_chars d Hv)).
  destruct (microsecond d =? 0); [reflexivity|].
  destruct (pad_facts 6 (microsecond d)) as (_ & Ha & _);
    [lia|change (10 ^ Z.of_nat 6) with 1000000; lia|].
  change ("." ++ pad 6 (microsecond d))%string
    with (String "." (pad 6 (microsecond d))).
  cbn [all_chars]. rewrite Ascii.eqb_refl, orb_true_r. cbn [andb].
  eapply all_chars_weaken; [|exact Ha].
  intros c Hc. unfold timestamp_char. now rewrite Hc.
Qed.

(** It starts with the four digits of the year and a dash. *)
Lemma isoformat_head (d : datetime) :
  valid_datetime d = true ->
  exists a b c e rest,
    isoformat d
    = String a (String b (String c (String e (String "-" rest))))
    /\ is_digit a = true /\ is_digit b = true
    /\ is_digit c = true /\ is_digit e = true.
Proof.
  intros Hv. destruct (valid_datetime_fields d Hv) as (Hy & _).
  destruct (pad_year (year d) Hy)
    as (a & b & c & e & E & Ha & Hb & Hc & He & _).
  unfold isoformat, isoformat_seconds. rewrite E.
  cbn [String.append]. now eexists a, b, c, e, _.
Qed.

Lemma count_char_absent (x : ascii) (s : string) :
  all_chars (fun c => negb (Ascii.eqb c x)) s = true ->
  count_char x s = O.
Proof.
  induction s as [|c s IH]; [reflexivity|]. cbn [all_chars count_char].
  intros H. apply andb_prop in H. destruct H as [Hc Hs].
  apply negb_true_iff in Hc. now rewrite Hc, IH.
Qed.

Lemma split_on_absent (c : ascii) (s : string) :
  count_char c s = O -> split_on c (Some 1%nat) s = [s].
Proof.
  induction s as [|a s IH]; intros H; [reflexivity|].
  cbn [count_char] in H. cbn [split_on dec_maxsplit].
  destruct (Ascii.eqb a c); [discriminate H|].
  now rewrite (IH H).
Qed.

Lemma split_on_at_first (c : ascii) (a b : string) :
  count_char c a = O ->
  split_on c (Some 1%nat) (a ++ String c b)%string = [a; b].
Proof.
  induction a as [|x a IH]; intros H.
  - cbn [String.append split_on dec_maxsplit Nat.pred].
    rewrite Ascii.eqb_refl. now destruct b.
  - cbn [count_char] in H. cbn [String.append split_on dec_maxsplit].
    destruct (Ascii.eqb x c); [discriminate H|].
    now rewrite (IH H).
Qed.

Lemma span_word_whole (s : string) :
  all_chars (fun c => negb (is_space c)) s = true ->
  span_word s = (s, EmptyString).
Proof.
  induction s as [|c s IH]; [reflexivity|]. cbn [all_chars span_word].
  intros H. apply andb_prop in H. destruct H as [Hc Hs].
  apply negb_true_iff in Hc. now rewrite Hc, (IH Hs).
Qed.

(** A string without whitespace is one word. *)
Lemma split_ws_1_word (c : ascii) (s : string) :
  all_chars (fun c => negb (is_space c)) (String c s) = true ->
  split_ws_1 (String c s) = [String c s].
Proof.
  intros H. unfold split_ws_1.
  pose proof (span_word_whole _ H) as E.
  cbn [all_chars] in H. apply andb_prop in H. destruct H as [Hc _].
  apply negb_true_iff in Hc. cbn [lstrip]. rewrite Hc, E. reflexivity.
Qed.

(** A timestamp is neither an [int] nor a [float], nor a boolean literal. *)
Lemma isoformat_not_a_number (d : datetime) :
  valid_datetime d = true ->
  str_in (lower (isoformat d)) ["true"; "yes"] = false
  /\ str_in (lower (isoformat d)) ["false"; "no"] = false
  /\ int_of_string (isoformat d) = Raise ValueError
  /\ float_of_string (isoformat d) = Raise ValueError.
Proof.
  intros Hv.
  pose proof (isoformat_chars d Hv) as Hc.
  assert (Hsp : all_chars (fun c => negb (is_num_space c)) (isoformat d)
                = true)
    by (eapply all_chars_weaken; [|exact Hc];
        intros c H; now destruct (timestamp_char_plain c H)).
  assert (Hun : all_chars (fun c => negb (Ascii.eqb c "_")) (isoformat d)
                = true)
    by (eapply all_chars_weaken; [|exact Hc];
        intros c H; now destruct (timestamp_char_plain c H) as (_ & ? & _)).
  destruct (underscores_clean _ Hun) as [U1 U2].
  destruct (isoformat_head d Hv) as (a & b & c & e & rest & E & Ha & Hb & Hcc & He).
  destruct (digit_is_plain a Ha) as (_ & _ & Hs & Hl).
  destruct (digit_is_number_start a
              (String b (String c (String e (String "-" rest)))) Ha)
    as [Hinf Hnan].
  unfold int_of_string, float_of_string.
  rewrite (num_strip_clean _ Hsp), U1, U2. cbn [negb].
  rewrite E. rewrite Hs. destruct (Hl (String b (String c (String e (String "-" rest))))) as [L1 L2].
  rewrite Hinf, Hnan.
  cbn [read_digits]. rewrite Ha, Hb, Hcc, He.
  change (is_digit "-") with false. cbn iota.
  repeat split; try assumption; reflexivity.
Qed.

(** The fractional seconds, as [float] reads them. *)
Lemma fraction_read (us : Z) :
  0 <= us < 1000000 ->
  float_of_string ("0." ++ pad 6 us) = Ok (FDec false (Z.to_N us) (-6)).
Proof.
  intros Hus.
  destruct (pad_facts 6 us) as (_ & Ha & Hread);
    [lia|change (10 ^ Z.of_nat 6) with 1000000; lia|].
  change ("0." ++ pad 6 us)%string with (String "0" (String "." (pad 6 us))).
  assert (Hc : all_chars (fun c => timestamp_char c || Ascii.eqb c ".")
                 (String "0" (String "." (pad 6 us))) = true).
  { cbn [all_chars].
    change (timestamp_char "0" || Ascii.eqb "0" ".") with true.
    change (timestamp_char "." || Ascii.eqb "." ".") with true.
    cbn [andb]. eapply all_chars_weaken; [|exact Ha].
    intros c H. unfold timestamp_char. now rewrite H. }
  assert (Hsp : all_chars (fun c => negb (is_num_space c))
                  (String "0" (String "." (pad 6 us))) = true)
    by (eapply all_chars_weaken; [|exact Hc];
        intros c H; now destruct (timestamp_char_plain c H)).
  assert (Hun : all_chars (fun c => negb (Ascii.eqb c "_"))
                  (String "0" (String "." (pad 6 us))) = true)
    by (eapply all_chars_weaken; [|exact Hc];
        intros c H; now destruct (timestamp_char_plain c H) as (_ & ? & _)).
  destruct (underscores_clean _ Hun) as [U1 U2].
  destruct (digit_is_number_start "0" (String "." (pad 6 us)) eq_refl)
    as [Hinf Hnan].
  unfold float_of_string.
  rewrite (num_strip_clean _ Hsp), U1, U2. cbn [negb read_sign].
  rewrite Hinf, Hnan. cbn [read_digits].
  change (is_digit "0") with true. change (is_digit ".") with false.
  cbn iota. rewrite Hread.
  change (10 * 0 + digit_val "0") with 0.
  change (10 ^ Z.of_nat 6) with 1000000.
  change (0 + 1 + (0 + Z.of_nat 6) =? 0) with false.
  cbn [read_exponent]. cbn iota. do 2 f_equal.
Qed.

(** The timestamp stage reads back what [isoformat] writes. *)
Lemma convert_timestamp_isoformat (d : datetime) :
  valid_datetime d = true ->
  convert_timestamp (isoformat d) = Ok (PDate d).
Proof.
  intros Hv. destruct (valid_datetime_fields d Hv)
    as (_ & _ & _ & _ & _ & _ & Hus).
  pose proof (isoformat_chars d Hv) as Hc.
  pose proof (isoformat_seconds_chars d Hv) as Hcs.
  pose proof (strptime_isoformat_seconds d Hv) as Hp.
  assert (Hnodot : count_char "." (isoformat_seconds d) = O).
  { apply count_char_absent. eapply all_chars_weaken; [|exact Hcs].
    intros c H. now rewrite (timestamp_char_not_dot c H). }
  assert (Hword : split_ws_1 (isoformat d) = [isoformat d]).
  { destruct (isoformat_head d Hv) as (a & b & c & e & rest & E & _).
    rewrite E in *. apply split_ws_1_word.
    eapply all_chars_weaken; [|exact Hc].
    intros x H. now destruct (timestamp_char_plain x H) as (_ & _ & ?). }
  unfold convert_timestamp. rewrite Hword. cbn [unpack2].
  unfold isoformat in *. destruct (microsecond d =? 0) eqn:E0.
  - apply Z.eqb_eq in E0. rewrite append_empty in *.
    rewrite (split_on_absent _ _ Hnodot). cbn [unpack2].
    rewrite Hp. cbn [bind except_ValueError].
    do 2 f_equal. destruct d as [y m dd h mi s us].
    cbn [year month day hour minute second microsecond] in E0 |- *.
    now rewrite E0.
  - apply Z.eqb_neq in E0.
    change ("." ++ pad 6 (microsecond d))%string
      with (String "." (pad 6 (microsecond d))).
    rewrite (split_on_at_first _ _ _ Hnodot). cbn [unpack2].
    rewrite Hp. cbn [bind].
    change (is_empty ("0." ++ pad 6 (microsecond d))) with false.
    cbn [negb]. rewrite (fraction_read _ Hus). cbn [bind].
    assert (Ht : timedelta_of_seconds (FDec false (Z.to_N (microsecond d)) (-6))
                 = Ok (microsecond d)).
    { unfold timedelta_of_seconds. rewrite Z2N.id by lia.
      assert (En : (microsecond d =? 0) = false) by (apply Z.eqb_neq; lia).
      rewrite En. change (-6 + 6) with 0. cbn [Z.leb Z.ltb Z.compare].
      change (10 ^ 0) with 1. rewrite Z.mul_1_r.
      rewrite Z.div_small by (unfold us_per_day; lia). reflexivity. }
    rewrite Ht. cbn [bind].
    rewrite (datetime_add_microseconds d Hv). reflexivity.
Qed.

(** X16: a timestamp serialised by [json_serializer_helper] is read back:
    for every [datetime] [d] (years 1 to 9999, with or without
    microseconds), the helper returns [d.isoformat()], and [convert_value]
    in its default mode turns that string into [d] again, whatever the
    declared type. *)
Theorem X16_serialized_timestamp_round_trip (d : datetime)
    (datatype : pyval) :
  valid_datetime d = true ->
  exists s,
    json_serializer_helper (PDate d) = Ok s
    /\ convert_value (PStr s) "force" datatype = Ok (PDate d).
Proof.
  intros Hv. exists (isoformat d). split; [reflexivity|].
  destruct (isoformat_not_a_number d Hv) as (L1 & L2 & Hi & Hf).
  unfold convert_value.
  change (str_in "force" ["force"; "always"]) with true.
  change (str_in "force" ["always"; "given"]) with false.
  cbn iota.
  unfold convert_guess, py_lower, py_int, py_float. cbn [bind].
  rewrite L1, L2, Hi, Hf. cbn [bind except_ValueError].
  now rewrite (convert_timestamp_isoformat d Hv).
Qed.

Lemma X16_serialized_timestamp_round_trip_witness :
  valid_datetime (mkDatetime 2017 8 17 12 41 4 430000) = true
  /\ exists s,
       json_serializer_helper (PDate (mkDatetime 2017 8 17 12 41 4 430000))
       = Ok s
       /\ convert_value (PStr s) "force" PNone
          = Ok (PDate (mkDatetime 2017 8 17 12 41 4 430000)).
Proof.
  split; [reflexivity|].
  apply (X16_serialized_timestamp_round_trip
           (mkDatetime 2017 8 17 12 41 4 430000) PNone).
  reflexivity.
Defined.

(** ** Timestamps written by [str] *)

Lemma append_assoc (a b c : string) :
  ((a ++ b) ++ c)%string = (a ++ (b ++ c))%string.
Proof.
  induction a as [|x a IH]; [reflexivity|].
  cbn [String.append]. now rewrite IH.
Qed.

Lemma isoformat_seconds_parts (d : datetime) :
  isoformat_seconds d = (iso_date d ++ "T" ++ iso_time d)%string.
Proof.
  unfold isoformat_seconds, iso_date, iso_time.
  now rewrite !append_assoc.
Qed.

Lemma str_of_datetime_parts (d : datetime) :
  str_of_datetime d
  = (iso_date d
     ++ String " " (iso_time d
                    ++ (if (microsecond d =? 0)%Z then ""
                        else String "." (pad 6 (microsecond d)))))%string.
Proof.
  unfold str_of_datetime, iso_date, iso_time.
  now rewrite !append_assoc.
Qed.

Lemma iso_parts_chars (d : datetime) :
  valid_datetime d = true ->
  all_chars timestamp_char (iso_date d) = true
  /\ all_chars timestamp_char (iso_time d) = true.
Proof.
  intros Hv. pose proof (isoformat_seconds_chars d Hv) as H.
  rewrite isoformat_seconds_parts, !all_chars_app in H.
  apply andb_prop in H. destruct H as [H1 H2].
  apply andb_prop in H2. now destruct H2 as [_ H2].
Qed.

Lemma num_rstrip_app (a b : string) :
  num_rstrip b = b -> b <> EmptyString ->
  num_rstrip (a ++ b) = (a ++ b)%string.
Proof.
  intros Hb Hn. induction a as [|x a IH]; [exact Hb|].
  cbn [String.append num_rstrip]. rewrite IH.
  destruct (a ++ b)%string eqn:E; [|reflexivity].
  destruct a; [now cbn in E|discriminate E].
Qed.

Lemma span_word_space (a b : string) :
  all_chars (fun c => negb (is_space c)) a = true ->
  span_word (a ++ String " " b) = (a, String " " b).
Proof.
  induction a as [|x a IH]; [reflexivity|]. cbn [all_chars].
  intros H. apply andb_prop in H. destruct H as [Hx Ha].
  apply negb_true_iff in Hx.
  cbn [String.append span_word]. now rewrite Hx, (IH Ha).
Qed.

(** Two words with a space between them are split at the space. *)
Lemma split_ws_1_two (x y : ascii) (a b : string) :
  all_chars (fun c => negb (is_space c)) (String x a) = true ->
  all_chars (fun c => negb (is_space c)) (String y b) = true ->
  split_ws_1 (String x a ++ String " " (String y b))
  = [String x a; String y b].
Proof.
  intros Ha Hb. unfold split_ws_1.
  pose proof (span_word_space _ (String y b) Ha) as E.
  cbn [all_chars] in Ha, Hb.
  apply andb_prop in Ha. destruct Ha as [Hx _].
  apply andb_prop in Hb. destruct Hb as [Hy _].
  apply negb_true_iff in Hx, Hy.
  cbn [String.append] in *. cbn [lstrip]. rewrite Hx, E.
  cbn [lstrip]. change (is_space " ") with true. cbn iota. now rewrite Hy.
Qed.

(** A string that starts with four digits and a dash, without whitespace at
    its ends and without underscores, is neither an [int] nor a [float], nor
    a boolean literal. *)
Lemma dated_string_not_a_number (s : string) (a b c e : ascii)
    (rest : string) :
  s = String a (String b (String c (String e (String "-" rest)))) ->
  is_digit a = true -> is_digit b = true ->
  is_digit c = true -> is_digit e = true ->
  num_strip s = s ->
  all_chars (fun c => negb (Ascii.eqb c "_")) s = true ->
  str_in (lower s) ["true"; "yes"] = false
  /\ str_in (lower s) ["false"; "no"] = false
  /\ int_of_string s = Raise ValueError
  /\ float_of_string s = Raise ValueError.
Proof.
  intros E Ha Hb Hc He Hsp Hun.
  destruct (underscores_clean _ Hun) as [U1 U2].
  destruct (digit_is_plain a Ha) as (_ & _ & Hs & Hl).
  destruct (digit_is_number_start a
              (String b (String c (String e (String "-" rest)))) Ha)
    as [Hinf Hnan].
  unfold int_of_string, float_of_string.
  rewrite Hsp, U1, U2. cbn [negb].
  rewrite E. rewrite Hs.
  destruct (Hl (String b (String c (String e (String "-" rest)))))
    as [L1 L2].
  rewrite Hinf, Hnan.
  cbn [read_digits]. rewrite Ha, Hb, Hc, He.
  change (is_digit "-") with false. cbn iota.
  repeat split; try assumption; reflexivity.
Qed.

Lemma iso_date_head (d : datetime) :
  valid_datetime d = true ->
  exists a b c e rest,
    iso_date d = String a (String b (String c (String e (String "-" rest))))
    /\ is_digit a = true /\ is_digit b = true
    /\ is_digit c = true /\ is_digit e = true.
Proof.
  intros Hv. destruct (valid_datetime_fields d Hv) as (Hy & _).
  destruct (pad_year (year d) Hy)
    as (a & b & c & e & E & Ha & Hb & Hc & He & _).
  unfold iso_date. rewrite E.
  cbn [String.append]. now eexists a, b, c, e, _.
Qed.

Lemma iso_time_head (d : datetime) :
  valid_datetime d = true -> exists x r, iso_time d = String x r.
Proof.
  intros Hv. destruct (valid_datetime_fields d Hv) as (_ & _ & _ & Hh & _).
  destruct (pad_facts 2 (hour d)) as (Hlen & _);
    [lia|change (10 ^ Z.of_nat 2) with 100; lia|].
  unfold iso_time. destruct (pad 2 (hour d)) as [|x r]; [discriminate|].
  cbn [String.append]. now eexists _, _.
Qed.

(** What [str] writes for a [datetime], as the conversion sees it: two
    words, the second carrying the microseconds when there are any. *)
Lemma str_of_datetime_shape (d : datetime) :
  valid_datetime d = true ->
  exists t,
    str_of_datetime d = (iso_date d ++ String " " t)%string
    /\ split_ws_1 (str_of_datetime d) = [iso_date d; t]
    /\ (if microsecond d =? 0
        then t = iso_time d /\ count_char "." (str_of_datetime d) = O
        else (1 <= count_char "." (str_of_datetime d))%nat)
    /\ str_in (lower (str_of_datetime d)) ["true"; "yes"] = false
    /\ str_in (lower (str_of_datetime d)) ["false"; "no"] = false
    /\ int_of_string (str_of_datetime d) = Raise ValueError
    /\ float_of_string (str_of_datetime d) = Raise ValueError.
Proof.
  intros Hv. destruct (valid_datetime_fields d Hv)
    as (_ & _ & _ & _ & _ & _ & Hus).
  destruct (iso_parts_chars d Hv) as [Hcd Hct].
  destruct (iso_date_head d Hv)
    as (a & b & c & e & rest & Ed & Ha & Hb & Hc & He).
  destruct (iso_time_head d Hv) as (x & r & Et).
  set (frac := if microsecond d =? 0 then EmptyString
               else String "." (pad 6 (microsecond d))).
  assert (Hcf : all_chars (fun c => timestamp_char c || Ascii.eqb c ".")
                  frac = true).
  { unfold frac. destruct (microsecond d =? 0); [reflexivity|].
    cbn [all_chars]. rewrite Ascii.eqb_refl, orb_true_r. cbn [andb].
    destruct (pad_facts 6 (microsecond d)) as (_ & Hp & _);
      [lia|change (10 ^ Z.of_nat 6) with 1000000; lia|].
    eapply all_chars_weaken; [|exact Hp].
    intros y Hy. unfold timestamp_char. now rewrite Hy. }
  assert (Hw : forall s, all_chars timestamp_char s = true ->
                 all_chars (fun c => timestamp_char c || Ascii.eqb c ".") s
                 = true).
  { intros s H. eapply all_chars_weaken; [|exact H].
    intros y Hy. now rewrite Hy. }
  assert (Hct' : all_chars (fun c => timestamp_char c || Ascii.eqb c ".")
                   (iso_time d ++ frac) = true)
    by (rewrite all_chars_app, (Hw _ Hct), Hcf; reflexivity).
  exists (iso_time d ++ frac)%string.
  pose proof (str_of_datetime_parts d) as Es. fold frac in Es.
  assert (Hsplit : split_ws_1 (str_of_datetime d)
                   = [iso_date d; (iso_time d ++ frac)%string]).
  { rewrite Es. rewrite Ed, Et in *.
    change (String x r ++ frac)%string with (String x (r ++ frac)) in *.
    apply (split_ws_1_two a x).
    - eapply all_chars_weaken; [|exact (Hw _ Hcd)].
      intros y Hy. now destruct (timestamp_char_plain y Hy) as (_ & _ & ?).
    - eapply all_chars_weaken; [|exact Hct'].
      intros y Hy. now destruct (timestamp_char_plain y Hy) as (_ & _ & ?). }
  assert (Hdot : if microsecond d =? 0
                 then (iso_time d ++ frac)%string = iso_time d
                      /\ count_char "." (str_of_datetime d) = O
                 else (1 <= count_char "." (str_of_datetime d))%nat).
  { rewrite Es. unfold frac. destruct (microsecond d =? 0).
    - rewrite append_empty. split; [reflexivity|].
      rewrite count_char_app. cbn [count_char Ascii.eqb Bool.eqb].
      rewrite !count_char_absent; [reflexivity| |];
        (eapply all_chars_weaken; [|eassumption]);
        intros y Hy; now rewrite (timestamp_char_not_dot y Hy).
    - rewrite count_char_app. cbn [count_char].
      rewrite count_char_app. cbn [count_char Ascii.eqb Bool.eqb]. lia. }
  assert (Hnum : num_strip (str_of_datetime d) = str_of_datetime d).
  { rewrite Es. unfold num_strip.
    assert (El : forall s, num_lstrip (iso_date d ++ s) = (iso_date d ++ s)%string).
    { intros s. rewrite Ed. cbn [String.append num_lstrip].
      destruct (digit_is_plain a Ha) as (Hn & _).
      apply negb_true_iff in Hn. now rewrite Hn. }
    rewrite El.
    change (iso_date d ++ String " " (iso_time d ++ frac))%string
      with (iso_date d ++ (" " ++ (iso_time d ++ frac)))%string.
    rewrite <- append_assoc. apply num_rstrip_app.
    - apply num_rstrip_clean. eapply all_chars_weaken; [|exact Hct'].
      intros y Hy. now destruct (timestamp_char_plain y Hy).
    - rewrite Et. discriminate. }
  assert (Hun : all_chars (fun c => negb (Ascii.eqb c "_"))
                  (str_of_datetime d) = true).
  { rewrite Es, all_chars_app. cbn [all_chars].
    change (negb (Ascii.eqb " " "_")) with true. cbn [andb].
    apply andb_true_iff. split;
      (eapply all_chars_weaken; [|first [exact (Hw _ Hcd)|exact Hct']]);
      intros y Hy; now destruct (timestamp_char_plain y Hy) as (_ & ? & _). }
  assert (Eh : exists rest',
             str_of_datetime d
             = String a (String b (String c (String e (String "-" rest'))))).
  { rewrite Es, Ed. cbn [String.append]. now eexists. }
  destruct Eh as [rest' Eh].
  destruct (dated_string_not_a_number _ a b c e rest' Eh Ha Hb Hc He Hnum Hun)
    as (L1 & L2 & Hi & Hf).
  repeat split; assumption.
Qed.

(** X17: a timestamp written by [str] is read back only when it has no
    microseconds.  For every [datetime] [d], [convert_value(str(d))] in the
    default mode is [d] when [d.microsecond] is 0 (the date and the time
    are joined with "T" before [strptime]); otherwise the joined string
    still carries the fraction, and the result is the string itself. *)
Theorem X17_str_timestamp_round_trip (d : datetime) (datatype : pyval) :
  valid_datetime d = true ->
  convert_value (PStr (py_str (PDate d))) "force" datatype
  = if microsecond d =? 0 then Ok (PDate d)
    else Ok (PStr (py_str (PDate d))).
Proof.
  intros Hv. cbn [py_str].
  destruct (str_of_datetime_shape d Hv)
    as (t & Es & Hsplit & Hdot & L1 & L2 & Hi & Hf).
  unfold convert_value.
  change (str_in "force" ["force"; "always"]) with true.
  change (str_in "force" ["always"; "given"]) with false.
  cbn iota.
  unfold convert_guess, py_lower, py_int, py_float. cbn [bind].
  rewrite L1, L2, Hi, Hf. cbn [bind except_ValueError].
  destruct (microsecond d =? 0) eqn:E0.
  - destruct Hdot as [-> Hdot]. apply Z.eqb_eq in E0.
    unfold convert_timestamp.
    rewrite Hsplit, (split_on_absent _ _ Hdot). cbn [unpack2].
    rewrite <- isoformat_seconds_parts, (strptime_isoformat_seconds d Hv).
    cbn [bind except_ValueError].
    do 2 f_equal. destruct d as [y m dd h mi s us].
    cbn [year month day hour minute second microsecond] in E0 |- *.
    now rewrite E0.
  - now rewrite (timestamp_stage_keeps_spaced_fraction _ _ _ Hsplit Hdot).
Qed.

Lemma X17_str_timestamp_round_trip_witness :
  valid_datetime (mkDatetime 2017 8 17 12 41 4 0) = true
  /\ convert_value (PStr (py_str (PDate (mkDatetime 2017 8 17 12 41 4 0))))
       "force" PNone
     = Ok (PDate (mkDatetime 2017 8 17 12 41 4 0)).
Proof.
  split; [reflexivity|].
  apply (X17_str_timestamp_round_trip (mkDatetime 2017 8 17 12 41 4 0) PNone).
  reflexivity.
Defined.

(** ** What [parse] never extracts *)

Lemma bindM_ok_run {A B : Type} (m : M A) (k : A -> M B) (self : VOEvent)
    (b : B) :
  fst (bindM m k self) = Ok b ->
  exists a self', m self = (Ok a, self') /\ bindM m k self = k a self'.
Proof.
  unfold bindM. destruct (m self) as [[a|e] s1]; [|discriminate].
  intros _. now exists a, s1.
Qed.

Lemma parse_how_post (self self' : VOEvent) (u : unit) :
  parse_how self = (Ok u, self') -> how self' = [].
Proof.
  unfold parse_how, bindM, read, lift, update.
  destruct (py_assert _); [|discriminate].
  destruct (findall "How" (xmltree self)); intros [= _ <-]; reflexivity.
Qed.

Lemma after_how_keeps_how :
  preserves (fun self => how self = [])
    (parse_why ;; parse_citations ;; parse_description ;; parse_reference).
Proof.
  unfold parse_why, why_set, parse_citations, parse_citation,
    parse_description, parse_reference.
  preserved ltac:(cbn; assumption).
Qed.

Lemma parse_description_post (self self' : VOEvent) (u : unit) :
  parse_description self = (Ok u, self') -> description self' = Some [].
Proof.
  unfold parse_description, bindM, read, update. now intros [= _ <-].
Qed.

Lemma parse_reference_keeps_description :
  preserves (fun self => description self = Some []) parse_reference.
Proof.
  unfold parse_reference. preserved ltac:(cbn; assumption).
Qed.

(** X18: the How and Description sections are never extracted.  Whenever
    [parse] returns, [self.how] is the empty dict and [self.description]
    the empty list, whatever the document holds under How and
    Description. *)
Theorem X18_how_and_description_stay_empty (opts : option (dict string))
    (self : VOEvent) :
  fst (parse opts self) = Ok tt ->
  how (snd (parse opts self)) = []
  /\ description (snd (parse opts self)) = Some [].
Proof.
  unfold parse. intros H.
  destruct (bindM_ok_run _ _ _ _ H) as (u1 & s1 & _ & E1).
  rewrite E1 in H |- *. clear E1.
  destruct (bindM_ok_run _ _ _ _ H) as (u2 & s2 & _ & E2).
  rewrite E2 in H |- *. clear E2.
  destruct (bindM_ok_run _ _ _ _ H) as (u3 & s3 & _ & E3).
  rewrite E3 in H |- *. clear E3.
  destruct (bindM_ok_run _ _ _ _ H) as (u4 & s4 & _ & E4).
  rewrite E4 in H |- *. clear E4.
  destruct (bindM_ok_run _ _ _ _ H) as (u5 & s5 & Hhow & E5).
  rewrite E5 in H |- *. clear E5.
  split.
  - apply after_how_keeps_how. exact (parse_how_post _ _ _ Hhow).
  - destruct (bindM_ok_run _ _ _ _ H) as (u6 & s6 & _ & E6).
    rewrite E6 in H |- *. clear E6.
    destruct (bindM_ok_run _ _ _ _ H) as (u7 & s7 & _ & E7).
    rewrite E7 in H |- *. clear E7.
    destruct (bindM_ok_run _ _ _ _ H) as (u8 & s8 & Hd & E8).
    rewrite E8 in H |- *. clear E8.
    apply parse_reference_keeps_description.
    exact (parse_description_post _ _ _ Hd).
Qed.

Lemma X18_how_and_description_stay_empty_witness :
  fst (parse None (init twice_described)) = Ok tt
  /\ how (snd (parse None (init twice_described))) = []
  /\ description (snd (parse None (init twice_described))) = Some [].
Proof.
  split; [vm_compute; reflexivity|].
  apply (X18_how_and_description_stay_empty None (init twice_described)).
  vm_compute. reflexivity.
Defined.

(** ** The Why extractor *)

Lemma from_xml_children (e c : Element) :
  from_xml e = true -> In c (children e) -> from_xml c = true.
Proof.
  destruct e as [t a x kids]. intros H Hin.
  apply from_xml_parts in H. destruct H as [_ H].
  rewrite forallb_forall in H. now apply H.
Qed.

Lemma from_xml_findall_path (path : list string) :
  forall els,
    Forall (fun e => from_xml e = true) els ->
    Forall (fun e => from_xml e = true) (findall_path path els).
Proof.
  induction path as [|t path IH]; intros els H; [exact H|].
  cbn [findall_path]. apply IH. rewrite Forall_forall in *.
  intros c Hc. apply in_flat_map in Hc. destruct Hc as (e & He & Hc).
  unfold findall in Hc. apply filter_In in Hc. destruct Hc as [Hc _].
  exact (from_xml_children e c (H e He) Hc).
Qed.

(** What [find] returns in a parsed document is parsed as well. *)
Lemma from_xml_find (path : list string) (e x : Element) :
  from_xml e = true -> find path e = Some x -> from_xml x = true.
Proof.
  intros He Hf. unfold find in Hf.
  pose proof (from_xml_findall_path path [e]
                (Forall_cons _ He (Forall_nil _))) as H.
  destruct (findall_path path [e]) as [|y l]; [discriminate|].
  injection Hf as ->. now inversion H.
Qed.

(** Converting an attribute of a parsed element, present or not, raises
    nothing but [OverflowError]. *)
Lemma convert_attribute_raises (k : string) (x : Element) (e : exn) :
  from_xml x = true ->
  convert_value (get k (attrib x)) "force" PNone = Raise e ->
  e = OverflowError.
Proof.
  intros Hx. destruct x as [t a tx kids]. apply from_xml_parts in Hx.
  destruct Hx as [Ha _]. cbn [attrib].
  destruct (get_of_strings k a Ha) as [-> | [s ->]].
  - rewrite convert_value_force_none. discriminate.
  - apply convert_value_force_raises.
Qed.

(** X19: what the Why extractor leaves when it returns.  Without a Why
    element [self.why] is the empty dict.  With one, its keys are
    importance, expires and description, in this order, followed by
    inference exactly when the Why element has an Inference child; and the
    description is the empty string when the Why element has no Description
    child, the text of the first one otherwise. *)
Theorem X19_why_dict (self : VOEvent) :
  fst (parse_why self) = Ok tt ->
  match findall "Why" (xmltree self) with
  | [] => why (snd (parse_why self)) = []
  | w :: _ =>
      map fst (why (snd (parse_why self)))
      = ["importance"; "expires"; "description"]
        ++ match find ["Inference"] w with
           | Some _ => ["inference"]
           | None => []
           end
      /\ getitem "description" (why (snd (parse_why self)))
         = Ok (OVal (match find ["Description"] w with
                     | Some d => of_text (text d)
                     | None => PStr ""
                     end))
  end.
Proof.
  unfold parse_why, why_set, bindM, read, lift, update, ret.
  destruct (py_assert _); [|discriminate].
  destruct (findall "Why" (xmltree self)) as [|w l]; [reflexivity|].
  destruct (convert_value (get "importance" (attrib w)) "force" PNone);
    [|discriminate].
  destruct (convert_value (get "expires" (attrib w)) "force" PNone);
    [|discriminate].
  destruct (find ["Inference"] w) as [inference|]; [|now split].
  destruct (convert_value (get "probability" (attrib inference)) "force" PNone);
    [|discriminate].
  destruct (convert_value (get "relation" (attrib inference)) "force" PNone);
    [|discriminate].
  destruct (find ["Concept"] inference) as [c|]; [|now split].
  destruct (text c); [now split|discriminate].
Qed.

Lemma X19_why_dict_witness :
  fst (parse_why (init (why_of (Some "a;b")))) = Ok tt
  /\ match findall "Why" (xmltree (init (why_of (Some "a;b")))) with
     | [] => why (snd (parse_why (init (why_of (Some "a;b"))))) = []
     | w :: _ =>
         map fst (why (snd (parse_why (init (why_of (Some "a;b"))))))
         = ["importance"; "expires"; "description"]
           ++ match find ["Inference"] w with
           | Some _ => ["inference"]
           | None => []
           end
         /\ getitem "description" (why (snd (parse_why (init (why_of (Some "a;b"))))))
            = Ok (OVal (match find ["Description"] w with
                        | Some d => of_text (text d)
                        | None => PStr ""
                        end))
     end.
Proof.
  split; [reflexivity|].
  apply (X19_why_dict (init (why_of (Some "a;b")))). reflexivity.
Defined.

(** X20: what the Why extractor can raise on a parsed document:
    [AssertionError], and then the root has two or more Why elements;
    [OverflowError], from the conversion of an attribute; and
    [AttributeError], only when the Inference element has a Concept child
    without text, whose [None] has no [split]. *)
Theorem X20_why_exceptions (self : VOEvent) (e : exn) :
  from_xml (xmltree self) = true ->
  fst (parse_why self) = Raise e ->
  (e = AssertionError /\ (2 <= List.length (findall "Why" (xmltree self)))%nat)
  \/ e = OverflowError
  \/ (e = AttributeError
      /\ exists w inference concept,
           findall "Why" (xmltree self) = [w]
           /\ find ["Inference"] w = Some inference
           /\ find ["Concept"] inference = Some concept
           /\ text concept = None).
Proof.
  intros Hx.
  unfold parse_why, why_set, bindM, read, lift, update, ret.
  unfold py_assert, py_le_1.
  destruct (List.length (findall "Why" (xmltree self)) <=? 1)%nat eqn:Hlen.
  2:{ intros [= <-]. left. split; [reflexivity|].
      apply Nat.leb_gt in Hlen. lia. }
  destruct (findall "Why" (xmltree self)) as [|w l] eqn:Ew; [discriminate|].
  assert (Hl : l = []) by (destruct l; [reflexivity|discriminate Hlen]).
  subst l.
  assert (Hw : from_xml w = true).
  { apply (from_xml_children (xmltree self)); [exact Hx|].
    assert (Hin : In w (findall "Why" (xmltree self)))
      by (rewrite Ew; now left).
    unfold findall in Hin. now apply filter_In in Hin. }
  destruct (convert_value (get "importance" (attrib w)) "force" PNone)
    as [imp|ex] eqn:E1.
  2:{ intros [= <-]. right. left.
      exact (convert_attribute_raises _ _ _ Hw E1). }
  destruct (convert_value (get "expires" (attrib w)) "force" PNone)
    as [ex'|ex] eqn:E2.
  2:{ intros [= <-]. right. left.
      exact (convert_attribute_raises _ _ _ Hw E2). }
  destruct (find ["Inference"] w) as [inference|] eqn:Ei; [|discriminate].
  pose proof (from_xml_find _ _ _ Hw Ei) as Hinf.
  destruct (convert_value (get "probability" (attrib inference)) "force" PNone)
    as [prob|ex] eqn:E3.
  2:{ intros [= <-]. right. left.
      exact (convert_attribute_raises _ _ _ Hinf E3). }
  destruct (convert_value (get "relation" (attrib inference)) "force" PNone)
    as [rel|ex] eqn:E4.
  2:{ intros [= <-]. right. left.
      exact (convert_attribute_raises _ _ _ Hinf E4). }
  destruct (find ["Concept"] inference) as [c|] eqn:Ec; [|discriminate].
  destruct (text c) eqn:Et; [discriminate|].
  intros [= <-]. right. right. split; [reflexivity|].
  now exists w, inference, c.
Qed.

Lemma X20_why_exceptions_witness :
  from_xml (xmltree (init (why_of None))) = true
  /\ fst (parse_why (init (why_of None))) = Raise AttributeError
  /\ ((AttributeError = AssertionError
       /\ (2 <= List.length (findall "Why" (xmltree (init (why_of None)))))%nat)
      \/ AttributeError = OverflowError
      \/ (AttributeError = AttributeError
          /\ exists w inference concept,
               findall "Why" (xmltree (init (why_of None))) = [w]
               /\ find ["Inference"] w = Some inference
               /\ find ["Concept"] inference = Some concept
               /\ text concept = None)).
Proof.
  split; [reflexivity|]. split; [reflexivity|].
  apply (X20_why_exceptions (init (why_of None)) AttributeError);
    reflexivity.
Defined.

(** ** Text that is only whitespace *)

Lemma lstrip_all_space (s : string) :
  all_chars is_space s = true -> lstrip s = EmptyString.
Proof.
  induction s as [|c s IH]; [reflexivity|]. cbn [all_chars lstrip].
  intros H. apply andb_prop in H. destruct H as [Hc Hs]. now rewrite Hc, IH.
Qed.

Lemma num_lstrip_keeps (P : ascii -> bool) (s : string) :
  all_chars P s = true -> all_chars P (num_lstrip s) = true.
Proof.
  induction s as [|c s IH]; [reflexivity|]. cbn [all_chars num_lstrip].
  intros H. destruct (is_num_space c); [|exact H].
  apply andb_prop in H. now apply IH.
Qed.

Lemma num_rstrip_keeps (P : ascii -> bool) (s : string) :
  all_chars P s = true -> all_chars P (num_rstrip s) = true.
Proof.
  induction s as [|c s IH]; [reflexivity|]. cbn [all_chars num_rstrip].
  intros H. apply andb_prop in H. destruct H as [Hc Hs].
  specialize (IH Hs). destruct (num_rstrip s) as [|x r].
  - destruct (is_num_space c); [reflexivity|]. cbn [all_chars].
    now rewrite Hc.
  - cbn [all_chars] in *. now rewrite Hc.
Qed.

(** A whitespace character starts no literal. *)
Lemma space_is_plain (c : ascii) :
  is_space c = true ->
  is_digit c = false
  /\ negb (Ascii.eqb c "_") = true
  /\ Ascii.eqb c "." = false
  /\ forall r,
       read_sign (String c r) = (false, String c r)
       /\ str_in (lower (String c r)) ["true"; "yes"] = false
       /\ str_in (lower (String c r)) ["false"; "no"] = false
       /\ str_in (lower (String c r)) ["inf"; "infinity"] = false
       /\ String.eqb (lower (String c r)) "nan" = false.
Proof.
  destruct c as [[] [] [] [] [] [] [] []]; intros H;
    try (vm_compute in H; discriminate H);
    (split; [reflexivity|]); (split; [reflexivity|]);
    (split; [reflexivity|]); intros r; repeat split; reflexivity.
Qed.

(** Whitespace is neither an [int] nor a [float]. *)
Lemma whitespace_not_a_number (s : string) :
  all_chars is_space s = true ->
  int_of_string s = Raise ValueError
  /\ float_of_string s = Raise ValueError.
Proof.
  intros H.
  assert (Ht : all_chars is_space (num_strip s) = true)
    by (unfold num_strip; now apply num_rstrip_keeps, num_lstrip_keeps).
  unfold int_of_string, float_of_string.
  destruct (underscores_ok false (num_strip s)); cbn [negb]; [|now split].
  assert (Hun : all_chars (fun c => negb (Ascii.eqb c "_")) (num_strip s)
                = true)
    by (eapply all_chars_weaken; [|exact Ht];
        intros c Hc; now destruct (space_is_plain c Hc) as (_ & ? & _)).
  destruct (underscores_clean _ Hun) as [_ ->].
  destruct (num_strip s) as [|c r]; [now split|].
  cbn [all_chars] in Ht. apply andb_prop in Ht. destruct Ht as [Hc _].
  destruct (space_is_plain c Hc) as (Hd & _ & Hdot & Hr).
  destruct (Hr r) as (-> & _ & _ & -> & ->).
  cbn [read_digits]. rewrite Hd. split; [reflexivity|].
  assert (E : match String c r with
              | String "." r' => read_digits 0 0 r'
              | _ => (0, 0, String c r)
              end = (0, 0, String c r)).
  { destruct c as [[] [] [] [] [] [] [] []]; try reflexivity.
    discriminate Hdot. }
  rewrite E. reflexivity.
Qed.

(** Every conversion that returns on a string of whitespace returns that
    string. *)
Lemma strptime_needs_digit (c : ascii) (t : string) :
  is_digit c = false -> strptime (String c t) = Raise ValueError.
Proof.
  intros Hd. unfold strptime, strptime_matches. cbn [re_Y].
  destruct t as [|? [|? [|? ?]]]; try reflexivity. now rewrite Hd.
Qed.

Lemma convert_timestamp_whitespace (c : ascii) (r : string) :
  all_chars is_space (String c r) = true ->
  convert_timestamp (String c r) = Ok (PStr (String c r)).
Proof.
  intros H. pose proof H as Hc. cbn [all_chars] in Hc.
  apply andb_prop in Hc. destruct Hc as [Hc _].
  destruct (space_is_plain c Hc) as (Hd & _ & Hdot & _).
  unfold convert_timestamp.
  assert (Hsp : split_ws_1 (String c r) = [])
    by (unfold split_ws_1; now rewrite (lstrip_all_space _ H)).
  rewrite Hsp. cbn [unpack2].
  destruct (unpack2 (split_on "." (Some 1%nat) (String c r)))
    as [[a b]|ex] eqn:Eu.
  - pose proof (split_on_first "." (String c r)) as F.
    destruct (split_on "." (Some 1%nat) (String c r)) as [|p [|q [|? ?]]];
      try discriminate Eu.
    injection Eu as -> ->. destruct F as (Es & _).
    destruct a as [|x a]; cbn [String.append] in Es.
    + injection Es as -> _. discriminate Hdot.
    + injection Es as <- _. now rewrite (strptime_needs_digit _ _ Hd).
  - now rewrite (strptime_needs_digit _ _ Hd).
Qed.

(** Every conversion that returns on a string of whitespace returns that
    string. *)
Lemma convert_value_whitespace (c : ascii) (r : string) (conversion : string)
    (datatype v : pyval) :
  all_chars is_space (String c r) = true ->
  convert_value (PStr (String c r)) conversion datatype = Ok v ->
  v = PStr (String c r).
Proof.
  intros H.
  destruct (whitespace_not_a_number _ H) as [Hi Hf].
  pose proof (convert_timestamp_whitespace c r H) as Hts.
  pose proof H as Hc. cbn [all_chars] in Hc.
  apply andb_prop in Hc. destruct Hc as [Hc _].
  destruct (space_is_plain c Hc) as (_ & _ & _ & Hr).
  destruct (Hr r) as (_ & L1 & L2 & _).
  assert (G : convert_guess (PStr (String c r)) = Ok (PStr (String c r))).
  { unfold convert_guess, py_lower, py_int, py_float. cbn [bind].
    rewrite L1, L2, Hi, Hf. cbn [bind except_ValueError]. exact Hts. }
  assert (D : convert_declared (PStr (String c r)) (PStr (String c r))
                datatype = Ok v ->
              v = PStr (String c r)).
  { unfold convert_declared, py_int, py_float, py_lower.
    cbn [truthy is_empty negb py_str bind].
    rewrite Hi, Hf, L1, L2. cbn [bind].
    destruct (eq_str datatype "int"); [discriminate|].
    destruct (eq_str datatype "float"); [discriminate|].
    destruct (eq_str datatype "string"); [now intros [= <-]|].
    destruct (val_in datatype ["bool"; "boolean"]); now intros [= <-]. }
  unfold convert_value.
  destruct (str_in conversion ["force"; "always"]);
    [rewrite G|]; cbn [bind];
    (destruct (str_in conversion ["always"; "given"]);
       [exact D|now intros [= <-]]).
Qed.

(** X21: an element whose text is only whitespace, as the parser leaves it
    in front of the children of a pretty-printed element, and that has no
    "value" attribute.  When [parse_element] returns, with [stripws] the
    text of the entry is the empty string, not [None], and the value is
    [None]; without [stripws] the text and the value are both the
    whitespace itself, in every conversion mode. *)
Theorem X21_whitespace_text (e : Element) (conversion : string)
    (stripws : bool) (c : ascii) (r : string) (en : entry) :
  text e = Some (String c r) ->
  all_chars is_space (String c r) = true ->
  truthy (get "value" (attrib e)) = false ->
  fst (parse_element e conversion stripws) = Ok en ->
  if stripws
  then e_text en = Some EmptyString /\ e_value en = PNone
  else e_text en = Some (String c r) /\ e_value en = PStr (String c r).
Proof.
  intros Ht Hs Hv. unfold parse_element. rewrite Ht, Hv.
  cbn [is_empty]. destruct stripws.
  - assert (E : strip (String c r) = EmptyString)
      by (unfold strip; now rewrite (lstrip_all_space _ Hs)).
    rewrite E. cbn [of_text truthy is_empty negb].
    destruct (convert_attribs conversion (attrib e)) as [[u|ex] a'];
      cbn [fst]; [|discriminate].
    now intros [= <-].
  - cbn [of_text truthy is_empty negb].
    destruct (convert_value (PStr (String c r)) conversion
                (get "dataType" (attrib e))) as [v|ex] eqn:Ev;
      [|discriminate].
    apply (convert_value_whitespace c r _ _ _ Hs) in Ev. subst v.
    destruct (convert_attribs conversion (attrib e)) as [[u|ex] a'];
      cbn [fst]; [|discriminate].
    now intros [= <-].
Qed.

Lemma X21_whitespace_text_witness :
  let e := mkElement "Group" [("name", PStr "g")]
             (Some (String "010" "  ")) [param_trigid] in
  text e = Some (String "010" "  ")
  /\ all_chars is_space (String "010" "  ") = true
  /\ truthy (get "value" (attrib e)) = false
  /\ (exists en, fst (parse_element e "force" false) = Ok en
                 /\ e_text en = Some (String "010" "  ")
                 /\ e_value en = PStr (String "010" "  ")).
Proof.
  intros e. repeat split.
  eexists. split; [reflexivity|].
  exact (X21_whitespace_text e "force" false "010" "  " _
           eq_refl eq_refl eq_refl eq_refl).
Defined.
